(** * Library catalogue store: the lending state machine of [allahkma.py]

    A shallow embedding of the class [LibraryDatabase] of
    [src/allahkma.py] and of the part of SQLite its statements rely on,
    followed by the properties of the store.

    Conventions of the embedding.
    - A table is the list of its rows in rowid order, together with the
      counter that SQLite keeps for an AUTOINCREMENT key.
    - A TEXT or INTEGER column that the code can fill with Python's
      [None] is an [option]; [None] is SQL's NULL.
    - A text is the string of the bytes of its UTF-8 encoding, the form
      in which Python hands a [str] to SQLite.  LIKE reads its operands
      up to the first NUL byte and character by character.
    - An integer is a [Z], as Python's [int] is unbounded; binding one
      that does not fit SQLite's 64-bit INTEGER makes [execute] raise
      [OverflowError], which no method catches.
    - A calendar date is its day number ([datetime.date.toordinal]).  A
      date column holds the day number of the date whose text
      [strftime("%Y-%m-%d")] the code stores; where SQLite compares two
      such columns it compares the texts, [strftime_Ymd] of the day
      numbers, and the C library behind [strftime] writes a year below
      1000 without leading zeros.  Adding [timedelta(days=n)] is adding
      [n] within the bounds of [datetime] (years 1 to 9999) and raises
      [OverflowError] outside them.
    - [datetime.now()] is an argument [now] of every method that reads
      the clock.
    - What a method prints is part of its outcome, and so is the
      exception that it lets through.
    - Foreign keys are declared by [create_tables] but SQLite enforces
      them only after [PRAGMA foreign_keys = ON], which the code never
      issues: they are not enforced.
    - A run of [main] is a function of the menu choice, the values of
      the widgets of the chosen page and the database file; it yields
      the message boxes and cards that the page shows and the tables it
      leaves.  The markup around them is left out.  The facts about the
      pages hold for any text of a date in the labels of the Return
      Book page, so they take [strftime] as a variable. *)

From Stdlib Require Import ZArith List String Ascii Bool Lia Sorted.
Import ListNotations.

Open Scope Z_scope.

(** ** The part of SQLite that the statements use *)

Module Sqlite.

(** A nullable TEXT value. *)
Definition text := option string.

(** Python's [str()] of a value bound into an f-string. *)
Definition fstr (v : text) : string :=
  match v with
  | Some s => s
  | None => "None"%string
  end.

(** The two exceptions the methods distinguish: a statement either goes
    through or raises [sqlite3.IntegrityError]. *)
Inductive result (A : Type) : Type :=
| Ok (a : A)
| IntegrityError.
Arguments Ok {A} a.
Arguments IntegrityError {A}.

(** An [int] can be bound to a parameter of a statement when it fits
    SQLite's 64-bit signed INTEGER; [execute] raises [OverflowError] on
    any other. *)
Definition fits_int64 (n : Z) : bool :=
  (- 2 ^ 63 <=? n) && (n <=? 2 ^ 63 - 1).

(** A table with an [INTEGER PRIMARY KEY AUTOINCREMENT] column: its rows
    and the largest rowid ever handed out (table [sqlite_sequence]). *)
Record table (R : Type) : Type := Table { rows : list R; seq : Z }.
Arguments Table {R} rows seq.
Arguments rows {R} t.
Arguments seq {R} t.

Definition empty {R : Type} : table R := Table [] 0.

Definition max_rowid (ids : list Z) : Z := fold_right Z.max 0 ids.

(** The rowid of the next inserted row: one more than the largest rowid
    that has ever existed in the table. *)
Definition next_rowid {R : Type} (key : R -> Z) (t : table R) : Z :=
  Z.max (seq t) (max_rowid (map key (rows t))) + 1.

(** [INSERT]: the row built from the fresh rowid goes to the end. *)
Definition insert {R : Type} (key : R -> Z) (mk : Z -> R) (t : table R)
  : table R :=
  let rowid := next_rowid key t in
  Table (rows t ++ [mk rowid]) rowid.

(** [UPDATE t SET ... WHERE cond]. *)
Definition update {R : Type} (cond : R -> bool) (set : R -> R)
           (t : table R) : table R :=
  Table (map (fun r => if cond r then set r else r) (rows t)) (seq t).

(** The schema's PRIMARY KEY: no two rows share a rowid. *)
Definition primary_key {R : Type} (key : R -> Z) (t : table R) : Prop :=
  NoDup (map key (rows t)).

(** A [UNIQUE] column admits any number of NULLs; two non-NULL values
    clash when they are the same text. *)
Definition text_eqb (a b : text) : bool :=
  match a, b with
  | Some x, Some y => String.eqb x y
  | _, _ => false
  end.

Definition violates_unique {R : Type} (col : R -> text) (v : text)
           (rs : list R) : bool :=
  existsb (fun r => text_eqb (col r) v) rs.

Definition is_null {A : Type} (v : option A) : bool :=
  match v with
  | None => true
  | Some _ => false
  end.

(** [a < b] between two TEXT values under the BINARY collation: the
    bytes decide, the first difference first, and a proper prefix is
    smaller. *)
Definition text_ltb (a b : string) : bool :=
  match String.compare a b with
  | Lt => true
  | _ => false
  end.

(** *** The LIKE operator *)

(** LIKE takes both operands as C strings: what follows the first NUL
    byte of a text is not read. *)
Definition nul : ascii := ascii_of_N 0.

Fixpoint c_string (s : string) : string :=
  match s with
  | EmptyString => EmptyString
  | String c s' => if Ascii.eqb c nul then EmptyString
                   else String c (c_string s')
  end.

(** The bytes of a character of UTF-8: a first byte, which is at least
    0xC0 when more follow, and the bytes 0x80 to 0xBF that follow it. *)
Definition is_lead (c : ascii) : bool := (192 <=? N_of_ascii c)%N.

Definition is_continuation (c : ascii) : bool :=
  ((128 <=? N_of_ascii c) && (N_of_ascii c <? 192))%N.

Fixpoint skip_continuation (s : string) : string :=
  match s with
  | EmptyString => EmptyString
  | String c s' => if is_continuation c then skip_continuation s' else s
  end.

(** What is left of a text after its first character, whose first byte
    is [c]. *)
Definition after_char (c : ascii) (s' : string) : string :=
  if is_lead c then skip_continuation s' else s'.

(** LIKE folds the case of the 26 ASCII letters only. *)
Definition tolower (c : ascii) : ascii :=
  let n := N_of_ascii c in
  if ((65 <=? n) && (n <=? 90))%N then ascii_of_N (n + 32) else c.

Definition percent : ascii := "%"%char.
Definition underscore : ascii := "_"%char.

(** [any_suffix rest inside s]: [rest] holds of what is left of [s]
    after some number of its characters; [inside] tells that [s] starts
    in the middle of a character, after a first byte. *)
Definition any_suffix (rest : string -> bool) : bool -> string -> bool :=
  fix star (inside : bool) (s : string) : bool :=
    match s with
    | EmptyString => rest EmptyString
    | String d s' =>
        if inside && is_continuation d then star true s'
        else rest s || star (is_lead d) s'
    end.

(** [match_like p s]: the C string [s] matches the pattern [p].  A
    percent sign matches any run of characters, an underscore exactly
    one character, and any other byte itself up to the case of ASCII
    letters. *)
Fixpoint match_like (p s : string) : bool :=
  match p with
  | EmptyString =>
      match s with
      | EmptyString => true
      | String _ _ => false
      end
  | String c p' =>
      if Ascii.eqb c percent then any_suffix (match_like p') false s
      else
        match s with
        | EmptyString => false
        | String d s' =>
            if Ascii.eqb c underscore then match_like p' (after_char d s')
            else Ascii.eqb (tolower c) (tolower d) && match_like p' s'
        end
  end.

(** [s LIKE p]. *)
Definition like (p s : string) : bool :=
  match_like (c_string p) (c_string s).

(** [col LIKE ?] in a WHERE clause: NULL on a NULL column, which
    filters the row out. *)
Definition where_like (v : text) (pattern : string) : bool :=
  match v with
  | Some s => like pattern s
  | None => false
  end.

End Sqlite.
Import Sqlite.

(** ** Calendar dates *)

(** A calendar date, as a day number: day 1 is 0001-01-01. *)
Definition date := Z.

(** [datetime]'s conversion of a day number to year, month and day
    ([_ord2ymd]), with its two tables. *)
Definition DAYS_IN_MONTH : list Z :=
  [-1; 31; 28; 31; 30; 31; 30; 31; 31; 30; 31; 30; 31].

Definition DAYS_BEFORE_MONTH : list Z :=
  [-1; 0; 31; 59; 90; 120; 151; 181; 212; 243; 273; 304; 334].

Definition ord2ymd (n : Z) : Z * Z * Z :=
  let n := n - 1 in
  let n400 := n / 146097 in
  let n := n mod 146097 in
  let year := n400 * 400 + 1 in
  let n100 := n / 36524 in
  let n := n mod 36524 in
  let n4 := n / 1461 in
  let n := n mod 1461 in
  let n1 := n / 365 in
  let n := n mod 365 in
  let year := year + n100 * 100 + n4 * 4 + n1 in
  if (n1 =? 4) || (n100 =? 4) then (year - 1, 12, 31)
  else
    let leapyear := (n1 =? 3) && (negb (n4 =? 24) || (n100 =? 3)) in
    let month := Z.shiftr (n + 50) 5 in
    let preceding :=
      nth (Z.to_nat month) DAYS_BEFORE_MONTH 0
      + (if (2 <? month) && leapyear then 1 else 0) in
    if n <? preceding then
      let month := month - 1 in
      let preceding :=
        preceding
        - (nth (Z.to_nat month) DAYS_IN_MONTH 0
           + (if (month =? 2) && leapyear then 1 else 0)) in
      (year, month, n - preceding + 1)
    else (year, month, n - preceding + 1).

(** [datetime.now().year]. *)
Definition year_of (d : date) : Z := fst (fst (ord2ymd d)).

(** The last day of [datetime], 9999-12-31 ([date.max.toordinal()]). *)
Definition MAXORDINAL : Z := 3652059.

(** [timedelta(days=n)] exists for at most 999999999 days either way,
    and a sum of a [datetime] and a [timedelta] exists when it is a day
    of the years 1 to 9999; both raise [OverflowError] otherwise. *)
Definition timedelta (days : Z) : option Z :=
  if Z.abs days <=? 999999999 then Some days else None.

Definition datetime_add (d : date) (days : Z) : option date :=
  match timedelta days with
  | Some n => if (1 <=? d + n) && (d + n <=? MAXORDINAL) then Some (d + n)
              else None
  | None => None
  end.

Definition digit (n : Z) : ascii :=
  ascii_of_N (48 + Z.to_N (n mod 10)).

(** [%m] and [%d]: two digits. *)
Definition two_digits (n : Z) (rest : string) : string :=
  String (digit (n / 10)) (String (digit n) rest).

(** [%Y] as the C library writes it: the decimal digits of the year,
    which are fewer than four before the year 1000. *)
Definition year_digits (year : Z) (rest : string) : string :=
  if year <? 10 then String (digit year) rest
  else if year <? 100 then two_digits year rest
  else if year <? 1000 then String (digit (year / 100)) (two_digits year rest)
  else String (digit (year / 1000))
         (String (digit (year / 100)) (two_digits year rest)).

(** [strftime("%Y-%m-%d")], the text that the methods store and bind. *)
Definition strftime_Ymd (d : date) : string :=
  let '(year, month, day) := ord2ymd d in
  year_digits year
    (String "-" (two_digits month (String "-" (two_digits day EmptyString)))).

(** The ISO text of a date, the year on four digits. *)
Definition isoformat (d : date) : string :=
  let '(year, month, day) := ord2ymd d in
  String (digit (year / 1000))
    (String (digit (year / 100))
       (String (digit (year / 10))
          (String (digit year)
             (String "-"
                (String (digit (month / 10))
                   (String (digit month)
                      (String "-"
                         (String (digit (day / 10))
                            (String (digit day) EmptyString))))))))).

(** [datetime.strptime(text, "%Y-%m-%d")] of a stored text: [%Y] reads
    four digits, so a text with a shorter year raises [ValueError]; any
    other comes back as the date it was written from. *)
Definition strptime_Ymd (d : date) : option date :=
  if (1000 <=? year_of d) && (year_of d <=? 9999) then Some d else None.

(** The days of the years 1000 to 9999, from 1000-01-01 on. *)
Definition four_digit_year (d : date) : Prop :=
  364878 <= d <= MAXORDINAL.

(** The date as the number yyyymmdd, and the test that it grows from
    [before] through the [n] days from [d] on, the months within 1 to
    12 and the days within 1 to 31. *)
Definition ymd_key (d : date) : Z :=
  let '(year, month, day) := ord2ymd d in year * 10000 + month * 100 + day.

Fixpoint calendar_ascends (n : nat) (d : date) (before : Z) : bool :=
  match n with
  | O => true
  | S n' =>
      let '(year, month, day) := ord2ymd d in
      let key := year * 10000 + month * 100 + day in
      if (before <? key) && (1 <=? month) && (month <=? 12)
         && (1 <=? day) && (day <=? 31)
      then calendar_ascends n' (d + 1) key
      else false
  end.

(** ** The schema ([create_tables]) *)

Module Books.
Record row : Type := Row {
  id : Z;
  title : text;
  author : text;
  isbn : text;
  publication_year : option Z;
  genre : text;
  added_date : date;
  status : string
}.

Definition set_status (v : string) (r : row) : row :=
  Row (id r) (title r) (author r) (isbn r) (publication_year r) (genre r)
      (added_date r) v.
End Books.

Module Borrowers.
Record row : Type := Row {
  id : Z;
  name : text;
  email : text;
  phone : text;
  registration_date : date
}.
End Borrowers.

Module Loans.
Record row : Type := Row {
  id : Z;
  book_id : Z;
  borrower_id : Z;
  loan_date : date;
  due_date : date;
  return_date : option date
}.

Definition set_return_date (v : date) (r : row) : row :=
  Row (id r) (book_id r) (borrower_id r) (loan_date r) (due_date r)
      (Some v).
End Loans.

(** The three tables behind one connection. *)
Record database : Type := Database {
  books : table Books.row;
  borrowers : table Borrowers.row;
  loans : table Loans.row
}.

(** [create_tables] on a fresh file. *)
Definition create_tables : database :=
  Database empty empty empty.

(** What a method call leaves behind: the value it returns, the lines it
    printed, the tables as its connection sees them, and the exception
    that it let through, if any.  A call that raises returns nothing:
    [returned] is then [false] and [db_after] holds what the statements
    before the exception have written. *)
Record outcome : Type := Outcome {
  returned : bool;
  printed : list string;
  db_after : database;
  raised : option string
}.

(** [execute] raising [OverflowError], on connection state [db]. *)
Definition OverflowError (db : database) : outcome :=
  Outcome false [] db (Some "OverflowError"%string).

(** ** The methods of [LibraryDatabase] *)

(** An INTEGER parameter that is an [int] or [None]. *)
Definition binds (v : option Z) : bool :=
  match v with
  | Some n => fits_int64 n
  | None => true
  end.

(** [INSERT INTO books ...] under [title NOT NULL], [author NOT NULL] and
    [isbn UNIQUE]. *)
Definition insert_book (title author isbn : text)
           (publication_year : option Z) (genre : text) (added_date : date)
           (status : string) (db : database) : result database :=
  if is_null title || is_null author
     || violates_unique Books.isbn isbn (rows (books db))
  then IntegrityError
  else Ok (Database
             (insert Books.id
                (fun rowid => Books.Row rowid title author isbn
                                publication_year genre added_date status)
                (books db))
             (borrowers db) (loans db)).

(** The parameters are bound before the statement runs: a year that
    does not fit raises before any constraint is looked at. *)
Definition add_book (now : date) (title author isbn : text)
           (publication_year : option Z) (genre : text) (db : database)
  : outcome :=
  let added_date := now in
  if negb (binds publication_year) then OverflowError db
  else
    match insert_book title author isbn publication_year genre added_date
                      "available" db with
    | Ok db' => Outcome true [] db' None
    | IntegrityError =>
        Outcome false
          [("Error: Book with ISBN " ++ fstr isbn
              ++ " already exists.")%string]
          db None
    end.

Definition search_books (query : string) (search_by : string)
           (db : database) : list Books.row :=
  let search_query := ("%" ++ query ++ "%")%string in
  if String.eqb search_by "title" then
    filter (fun b => where_like (Books.title b) search_query) (rows (books db))
  else if String.eqb search_by "author" then
    filter (fun b => where_like (Books.author b) search_query) (rows (books db))
  else if String.eqb search_by "isbn" then
    filter (fun b => where_like (Books.isbn b) search_query) (rows (books db))
  else if String.eqb search_by "genre" then
    filter (fun b => where_like (Books.genre b) search_query) (rows (books db))
  else [].

(** [INSERT INTO borrowers ...] under [name NOT NULL] and [email UNIQUE]. *)
Definition insert_borrower (name email phone : text)
           (registration_date : date) (db : database) : result database :=
  if is_null name
     || violates_unique Borrowers.email email (rows (borrowers db))
  then IntegrityError
  else Ok (Database
             (books db)
             (insert Borrowers.id
                (fun rowid => Borrowers.Row rowid name email phone
                                registration_date)
                (borrowers db))
             (loans db)).

Definition register_borrower (now : date) (name email phone : text)
           (db : database) : outcome :=
  let registration_date := now in
  match insert_borrower name email phone registration_date db with
  | Ok db' => Outcome true [] db' None
  | IntegrityError =>
      Outcome false
        [("Error: Borrower with email " ++ fstr email
            ++ " already exists.")%string]
        db None
  end.

(** [SELECT status FROM books WHERE id = ?] followed by [fetchone()]. *)
Definition select_status (book_id : Z) (db : database) : option string :=
  option_map Books.status
    (find (fun b => Books.id b =? book_id) (rows (books db))).

(** The test [not result or result[0] != 'available']. *)
Definition not_available (result : option string) : bool :=
  match result with
  | None => true
  | Some st => negb (String.eqb st "available")
  end.

(** The SELECT binds [book_id]; the due date is computed before the
    UPDATE; the INSERT binds [borrower_id] after the UPDATE has run, and
    nothing rolls the UPDATE back when that raises. *)
Definition loan_book (now : date) (book_id borrower_id : Z)
           (loan_period_days : Z) (db : database) : outcome :=
  if negb (fits_int64 book_id) then OverflowError db
  else
    let result := select_status book_id db in
    if not_available result then
      Outcome false ["Error: Book is not available for loan."%string] db None
    else
      let loan_date := now in
      match datetime_add loan_date loan_period_days with
      | None => OverflowError db
      | Some due_date =>
          let books' :=
            update (fun b => Books.id b =? book_id)
                   (Books.set_status "loaned") (books db) in
          if negb (fits_int64 borrower_id) then
            OverflowError (Database books' (borrowers db) (loans db))
          else
            let loans' :=
              insert Loans.id
                     (fun rowid => Loans.Row rowid book_id borrower_id
                                     loan_date due_date None)
                     (loans db) in
            Outcome true [] (Database books' (borrowers db) loans') None
      end.

(** The default loan period. *)
Definition loan_book_default (now : date) (book_id borrower_id : Z)
           (db : database) : outcome :=
  loan_book now book_id borrower_id 14 db.

(** [SELECT book_id FROM loans WHERE id = ?] followed by [fetchone()]. *)
Definition select_book_id (loan_id : Z) (db : database) : option Z :=
  option_map Loans.book_id
    (find (fun l => Loans.id l =? loan_id) (rows (loans db))).

Definition return_book (now : date) (loan_id : Z) (db : database)
  : outcome :=
  if negb (fits_int64 loan_id) then OverflowError db
  else
    match select_book_id loan_id db with
    | None => Outcome false ["Error: Loan record not found."%string] db None
    | Some book_id =>
        let return_date := now in
        let loans' :=
          update (fun l => Loans.id l =? loan_id)
                 (Loans.set_return_date return_date) (loans db) in
        let books' :=
          update (fun b => Books.id b =? book_id)
                 (Books.set_status "available") (books db) in
        Outcome true [] (Database books' (borrowers db) loans') None
    end.

(** The rows of [get_overdue_loans]: loan id, book title, borrower name
    and due date.  The two inner joins keep a loan once for every pair of
    a book and a borrower with the ids it references; [loans.due_date < ?]
    compares the stored text with the text of today. *)
Definition overdue_row : Type := (Z * text * text * date)%type.

Definition get_overdue_loans (now : date) (db : database)
  : list overdue_row :=
  let today := strftime_Ymd now in
  flat_map
    (fun l =>
       flat_map
         (fun b =>
            flat_map
              (fun r =>
                 if text_ltb (strftime_Ymd (Loans.due_date l)) today
                    && is_null (Loans.return_date l)
                 then [(Loans.id l, Books.title b, Borrowers.name r,
                        Loans.due_date l)]
                 else [])
              (filter (fun r => Loans.borrower_id l =? Borrowers.id r)
                      (rows (borrowers db))))
         (filter (fun b => Loans.book_id l =? Books.id b)
                 (rows (books db))))
    (rows (loans db)).

(** ** Sequences of store operations *)

Inductive operation : Type :=
| AddBook (title author isbn : text) (publication_year : option Z)
          (genre : text)
| RegisterBorrower (name email phone : text)
| LoanBook (book_id borrower_id : Z) (loan_period_days : Z)
| ReturnBook (loan_id : Z).

(** One call, made on the day [now]. *)
Definition perform (now : date) (o : operation) (db : database) : outcome :=
  match o with
  | AddBook t a i y g => add_book now t a i y g db
  | RegisterBorrower n e p => register_borrower now n e p db
  | LoanBook b r d => loan_book now b r d db
  | ReturnBook l => return_book now l db
  end.

(** Calls made one after the other on one connection, by a caller that
    goes on after an exception. *)
Fixpoint run (calls : list (date * operation)) (db : database) : database :=
  match calls with
  | [] => db
  | (now, o) :: calls' => run calls' (db_after (perform now o db))
  end.

(** The states the store can be in: those a sequence of calls reaches
    from the freshly created tables. *)
Definition reachable (db : database) : Prop :=
  exists calls, db = run calls create_tables.


(** ** The dashboard's counts ([main], view Home) *)

(** [SELECT COUNT( * ) FROM books]. *)
Definition book_count (db : database) : Z :=
  Z.of_nat (List.length (rows (books db))).

(** [SELECT COUNT( * ) FROM borrowers]. *)
Definition borrower_count (db : database) : Z :=
  Z.of_nat (List.length (rows (borrowers db))).

(** [SELECT COUNT( * ) FROM loans WHERE return_date IS NULL]. *)
Definition active_loans (db : database) : Z :=
  Z.of_nat (List.length (filter (fun l => is_null (Loans.return_date l))
                           (rows (loans db)))).

(** ** Vocabulary of the specification *)

(** An open loan: its return date is absent. *)
Definition open_loan (l : Loans.row) : Prop :=
  Loans.return_date l = None.

(** The messages that tell the failures apart. *)
Definition BookUnavailable : list string :=
  ["Error: Book is not available for loan."%string].

Definition LoanNotFound : list string :=
  ["Error: Loan record not found."%string].

Definition DuplicateISBN (isbn : text) : list string :=
  [("Error: Book with ISBN " ++ fstr isbn ++ " already exists.")%string].

Definition DuplicateEmail (email : text) : list string :=
  [("Error: Borrower with email " ++ fstr email
      ++ " already exists.")%string].

(** A book as [loan_book] leaves it, and a loan as [return_book] leaves
    it, field by field. *)
Definition lent (b : Books.row) : Books.row :=
  Books.Row (Books.id b) (Books.title b) (Books.author b) (Books.isbn b)
            (Books.publication_year b) (Books.genre b) (Books.added_date b)
            "loaned".

Definition back_on_shelf (b : Books.row) : Books.row :=
  Books.Row (Books.id b) (Books.title b) (Books.author b) (Books.isbn b)
            (Books.publication_year b) (Books.genre b) (Books.added_date b)
            "available".

Definition stamped (now : date) (l : Loans.row) : Loans.row :=
  Loans.Row (Loans.id l) (Loans.book_id l) (Loans.borrower_id l)
            (Loans.loan_date l) (Loans.due_date l) (Some now).

(** The search that the code performs: the field is present and its
    text, up to the first NUL, contains the query as a run of
    characters, the letters of ASCII compared without regard to case. *)
Fixpoint prefix_nocase (q s : string) : bool :=
  match q, s with
  | EmptyString, _ => true
  | String _ _, EmptyString => false
  | String c q', String d s' =>
      Ascii.eqb (tolower c) (tolower d) && prefix_nocase q' s'
  end.

Definition contains_nocase (q s : string) : bool :=
  any_suffix (prefix_nocase q) false s.




(** The same text up to the case of its letters. *)
Fixpoint lowercase (s : string) : string :=
  match s with
  | EmptyString => EmptyString
  | String c s' => String (tolower c) (lowercase s')
  end.



(** The lending invariant: a book is 'loaned' exactly when an open loan
    references it. *)
Definition status_matches_loans (db : database) : Prop :=
  forall b, In b (rows (books db)) ->
    Books.status b = "loaned"%string
    <-> exists l, In l (rows (loans db))
                  /\ Loans.book_id l = Books.id b /\ open_loan l.

(** The declared foreign keys of the loans table. *)
Definition loans_reference_books (db : database) : Prop :=
  forall l, In l (rows (loans db)) ->
    exists b, In b (rows (books db)) /\ Books.id b = Loans.book_id l.

Definition loans_reference_borrowers (db : database) : Prop :=
  forall l, In l (rows (loans db)) ->
    exists r, In r (rows (borrowers db))
              /\ Borrowers.id r = Loans.borrower_id l.

(** At most one open loan per book. *)
Definition one_open_loan_per_book (db : database) : Prop :=
  forall l1 l2, In l1 (rows (loans db)) -> In l2 (rows (loans db)) ->
    open_loan l1 -> open_loan l2 ->
    Loans.book_id l1 = Loans.book_id l2 -> l1 = l2.

(** What the lending invariant is proved together with. *)
Definition consistent (db : database) : Prop :=
  primary_key Loans.id (loans db)
  /\ one_open_loan_per_book db
  /\ status_matches_loans db.

(** The calls as the pages of [main] make them.  The view Return Book
    offers the loans selected by [WHERE loans.return_date IS NULL]:
    through it, [return_book] is never called on a loan that was
    returned.  The view Loan Book takes the borrower's id from the
    borrowers table, where it is a 64-bit integer. *)
Definition offered (o : operation) (db : database) : Prop :=
  match o with
  | ReturnBook loan_id =>
      forall l, In l (rows (loans db)) -> Loans.id l = loan_id ->
                open_loan l
  | LoanBook _ borrower_id _ => fits_int64 borrower_id = true
  | _ => True
  end.

Fixpoint all_offered (calls : list (date * operation)) (db : database)
  : Prop :=
  match calls with
  | [] => True
  | (now, o) :: calls' =>
      offered o db /\ all_offered calls' (db_after (perform now o db))
  end.

(** A loan appears in the overdue list when a row carries its id. *)
Definition listed (loan_id : Z) (rs : list overdue_row) : Prop :=
  exists t n d, In (loan_id, t, n, d) rs.

(** *** Call sequences used below *)

(** A book is lent, returned, lent again, and the first loan is returned
    a second time. *)
Definition return_twice : list (date * operation) :=
  [(739000, AddBook (Some "Dune") (Some "Herbert") (Some "ISBN1")
              (Some 1965) (Some "SciFi"));
   (739000, RegisterBorrower (Some "Ana") (Some "ana@x.com") None);
   (739001, LoanBook 1 1 14);
   (739002, ReturnBook 1);
   (739003, LoanBook 1 1 14);
   (739004, ReturnBook 1)]%string.

(** A book is lent to borrower 99 on a store without borrowers. *)
Definition loan_to_stranger : list (date * operation) :=
  [(739000, AddBook (Some "Dune") (Some "Herbert") (Some "ISBN1")
              (Some 1965) (Some "SciFi"));
   (739001, LoanBook 1 99 14)]%string.

(** One book and one borrower. *)
Definition dune_and_ana : list (date * operation) :=
  [(739000, AddBook (Some "Dune") (Some "Herbert") (Some "ISBN1")
              (Some 1965) (Some "SciFi"));
   (739000, RegisterBorrower (Some "Ana") (Some "ana@x.com") None)]%string.

(** The book is lent to the borrower for two weeks. *)
Definition dune_lent : list (date * operation) :=
  dune_and_ana ++ [(739001, LoanBook 1 1 14)].

(** Two books and two borrowers get in; a third book with the ISBN of
    the first and a third borrower with the email of the first do not. *)
Definition two_of_each : list (date * operation) :=
  [(739000, AddBook (Some "Dune") (Some "Herbert") (Some "ISBN1")
              (Some 1965) (Some "SciFi"));
   (739000, AddBook (Some "Emma") (Some "Austen") (Some "ISBN2")
              (Some 1815) (Some "Novel"));
   (739000, AddBook (Some "Dune Messiah") (Some "Herbert") (Some "ISBN1")
              (Some 1969) (Some "SciFi"));
   (739000, RegisterBorrower (Some "Ana") (Some "ana@x.com") None);
   (739000, RegisterBorrower (Some "Bob") (Some "bob@x.com") None);
   (739000, RegisterBorrower (Some "Cleo") (Some "ana@x.com") None)]%string.






(** The schema's UNIQUE: no two rows share a value that is not NULL. *)
Definition unique_column {R : Type} (col : R -> text) (t : table R) : Prop :=
  forall r1 r2, In r1 (rows t) -> In r2 (rows t) ->
    col r1 <> None -> col r1 = col r2 -> r1 = r2.

(** Rowids start at 1 and grow from each row to the next. *)
Definition ascending_rowids {R : Type} (key : R -> Z) (t : table R) : Prop :=
  StronglySorted Z.lt (map key (rows t))
  /\ Forall (fun rowid => 1 <= rowid) (map key (rows t)).

(** The same book, up to its status. *)
Definition same_book (b b' : Books.row) : Prop :=
  Books.set_status (Books.status b) b' = b.

(** The same loan, up to a return date stamped since. *)
Definition same_loan (l l' : Loans.row) : Prop :=
  l' = l \/ exists d, l' = Loans.set_return_date d l.

(** [keeps db db']: all that [db] records is still in [db']. *)
Definition keeps (db db' : database) : Prop :=
  (forall r, In r (rows (borrowers db)) -> In r (rows (borrowers db')))
  /\ (forall b, In b (rows (books db)) ->
                exists b', In b' (rows (books db')) /\ same_book b b')
  /\ (forall l, In l (rows (loans db)) ->
                exists l', In l' (rows (loans db')) /\ same_loan l l')
  /\ book_count db <= book_count db'
  /\ borrower_count db <= borrower_count db'
  /\ (List.length (rows (loans db)) <= List.length (rows (loans db')))%nat.


(** ** The pages of [main] *)

(** Python's truth value of a [str]: the empty one is false. *)
Definition truthy (s : string) : bool :=
  negb (String.eqb s "").

(** Python's [==] between values that are a [str] or [None]. *)
Definition py_eqb (a b : text) : bool :=
  match a, b with
  | Some x, Some y => String.eqb x y
  | None, None => true
  | _, _ => false
  end.

Section Dict.

Context {K V : Type}.
Variable key_eqb : K -> K -> bool.

(** [d[k]] for the dict [d = {k: v for ... in items}]: of the items
    with the key [k], the last one has overwritten the others. *)
Fixpoint dict_get (k : K) (items : list (K * V)) : option V :=
  match items with
  | [] => None
  | (k', v) :: items' =>
      match dict_get k items' with
      | Some v' => Some v'
      | None => if key_eqb k' k then Some v else None
      end
  end.

(** [k in list(d.keys())]: a selectbox holds one of its options. *)
Definition is_key (k : K) (items : list (K * V)) : bool :=
  existsb (fun item => key_eqb (fst item) k) items.

End Dict.

(** What a page shows below its header: the message boxes, by their CSS
    class, the cards, the metrics of the dashboard, or the trace of an
    exception that nothing caught. *)
Inductive element : Type :=
| success_msg (body : string)
| error_msg (body : string)
| warning_msg (body : string)
| info_msg (body : string)
| book_card (book : Books.row)
| overdue_card (title name : text) (due_date : date) (days_overdue : Z)
| metric (label : string) (value : Z)
| traceback (exception : string).

(** One run of the script: what it shows and the tables it leaves in
    the file. *)
Record page : Type := Page {
  shown : list element;
  stored : database
}.

(** [LibraryDatabase()]: [connect] opens the file, creating it when it
    is not there, and [create_tables] leaves existing tables alone. *)
Definition LibraryDatabase (file : option database) : database :=
  match file with
  | Some db => db
  | None => create_tables
  end.

(** A method call made by a page.  An exception ends the run with its
    trace; what the call wrote before it was never committed and is
    lost with the connection of the run. *)
Definition call (o : outcome) (db : database)
           (then_ else_ : list element) : page :=
  match raised o with
  | Some exception => Page [traceback exception] db
  | None => if returned o then Page then_ (db_after o)
            else Page else_ (db_after o)
  end.

Definition home_view (db : database) : page :=
  Page [metric "Total Books" (book_count db);
        metric "Registered Borrowers" (borrower_count db);
        metric "Active Loans" (active_loans db)]
       db.

Definition add_book_view (now : date) (title author isbn : string)
           (year : Z) (genre : string) (clicked : bool) (db : database)
  : page :=
  if clicked then
    if truthy title && truthy author then
      call (add_book now (Some title) (Some author) (Some isbn)
                     (Some year) (Some genre) db) db
           [success_msg ("Book '" ++ title ++ "' added successfully!")]
           [error_msg "Failed to add book. ISBN might already exist."]
    else Page [warning_msg "Title and Author are required fields."] db
  else Page [] db.

Definition search_books_view (search_by query : string) (db : database)
  : page :=
  if truthy query then
    match search_books query search_by db with
    | [] =>
        Page [info_msg "No books found matching your search criteria."] db
    | results => Page (map book_card results) db
    end
  else Page [] db.

Definition register_borrower_view (now : date) (name email phone : string)
           (clicked : bool) (db : database) : page :=
  if clicked then
    if truthy name && truthy email then
      call (register_borrower now (Some name) (Some email) (Some phone) db)
           db
           [success_msg
              ("Borrower '" ++ name ++ "' registered successfully!")]
           [error_msg
              "Failed to register borrower. Email might already exist."]
    else Page [warning_msg "Name and Email are required fields."] db
  else Page [] db.

(** [SELECT id, title FROM books WHERE status = 'available'], turned
    into [{book[1]: book[0] for book in available_books}]. *)
Definition book_options (db : database) : list (text * Z) :=
  map (fun b => (Books.title b, Books.id b))
      (filter (fun b => String.eqb (Books.status b) "available")
              (rows (books db))).

(** [SELECT id, name FROM borrowers], turned into a dict likewise. *)
Definition borrower_options (db : database) : list (text * Z) :=
  map (fun r => (Borrowers.name r, Borrowers.id r)) (rows (borrowers db)).

Definition is_empty {A : Type} (l : list A) : bool :=
  match l with
  | [] => true
  | _ :: _ => false
  end.

Definition loan_book_view (now : date) (selected_book selected_borrower : text)
           (loan_days : Z) (clicked : bool) (db : database) : page :=
  if clicked then
    if negb (is_empty (book_options db))
       && negb (is_empty (borrower_options db))
    then
      match dict_get py_eqb selected_book (book_options db),
            dict_get py_eqb selected_borrower (borrower_options db) with
      | Some book_id, Some borrower_id =>
          call (loan_book now book_id borrower_id loan_days db) db
               [success_msg
                  ("Book '" ++ fstr selected_book ++ "' loaned to "
                     ++ fstr selected_borrower ++ " successfully!")]
               [error_msg "Failed to loan book."]
      | _, _ =>
          Page [warning_msg "Please select both a book and a borrower."] db
      end
    else
      Page [warning_msg "No books available or no borrowers registered."] db
  else Page [] db.

(** The query of the view Return Book: the join of [get_overdue_loans]
    under [WHERE loans.return_date IS NULL]. *)
Definition active_loan_rows (db : database) : list overdue_row :=
  flat_map
    (fun l =>
       flat_map
         (fun b =>
            flat_map
              (fun r =>
                 if is_null (Loans.return_date l)
                 then [(Loans.id l, Books.title b, Borrowers.name r,
                        Loans.due_date l)]
                 else [])
              (filter (fun r => Loans.borrower_id l =? Borrowers.id r)
                      (rows (borrowers db))))
         (filter (fun b => Loans.book_id l =? Books.id b)
                 (rows (books db))))
    (rows (loans db)).

(** The cards of the view Overdue Loans, one loan after the other:
    [(datetime.now() - datetime.strptime(due, "%Y-%m-%d")).days] is the
    number of days from the due date to today, and a due date that
    [strptime] does not read ends the run after the cards before it. *)
Fixpoint overdue_cards (now : date) (overdue_loans : list overdue_row)
  : list element :=
  match overdue_loans with
  | [] => []
  | (_, title, name, due_date) :: rest =>
      match strptime_Ymd due_date with
      | Some due =>
          overdue_card title name due_date (now - due)
          :: overdue_cards now rest
      | None => [traceback "ValueError"]
      end
  end.

Definition overdue_loans_view (now : date) (db : database) : page :=
  match get_overdue_loans now db with
  | [] => Page [info_msg "No overdue loans found."] db
  | overdue_loans => Page (overdue_cards now overdue_loans) db
  end.

Section Pages.

(** The text that a date column holds, [strftime("%Y-%m-%d")] of the
    date. *)
Variable strftime : date -> string.

(** [f"{loan[1]} (borrowed by {loan[2]}, due {loan[3]})"]. *)
Definition loan_label (loan : overdue_row) : string :=
  let '(_, title, name, due_date) := loan in
  fstr title ++ " (borrowed by " ++ fstr name ++ ", due "
    ++ strftime due_date ++ ")".

Definition loan_options (db : database) : list (string * Z) :=
  map (fun loan => (loan_label loan, fst (fst (fst loan))))
      (active_loan_rows db).

Definition return_book_view (now : date) (selected_loan : string)
           (clicked : bool) (db : database) : page :=
  if is_empty (active_loan_rows db) then
    Page [info_msg "No active loans found."] db
  else if clicked then
    match dict_get String.eqb selected_loan (loan_options db) with
    | Some loan_id =>
        call (return_book now loan_id db) db
             [success_msg "Book returned successfully!"]
             [error_msg "Failed to process return."]
    | None => Page [traceback "KeyError"] db
    end
  else Page [] db.

(** The menu choice of a run together with the state of the widgets of
    the chosen view. *)
Inductive screen : Type :=
| Home
| AddBookPage (title author isbn : string) (year : Z) (genre : string)
              (clicked : bool)
| SearchBooksPage (search_by query : string)
| RegisterBorrowerPage (name email phone : string) (clicked : bool)
| LoanBookPage (selected_book selected_borrower : text) (loan_days : Z)
               (clicked : bool)
| ReturnBookPage (selected_loan : string) (clicked : bool)
| OverdueLoansPage.

Definition main (now : date) (choice : screen) (file : option database)
  : page :=
  let db := LibraryDatabase file in
  match choice with
  | Home => home_view db
  | AddBookPage title author isbn year genre clicked =>
      add_book_view now title author isbn year genre clicked db
  | SearchBooksPage search_by query => search_books_view search_by query db
  | RegisterBorrowerPage name email phone clicked =>
      register_borrower_view now name email phone clicked db
  | LoanBookPage selected_book selected_borrower loan_days clicked =>
      loan_book_view now selected_book selected_borrower loan_days clicked db
  | ReturnBookPage selected_loan clicked =>
      return_book_view now selected_loan clicked db
  | OverdueLoansPage => overdue_loans_view now db
  end.

(** A selectbox holds one of its options, which are the keys of the
    dict or, for an empty dict, the one text that stands in. *)
Definition selectbox (selected : text) (options : list (text * Z))
           (stand_in : string) : bool :=
  if is_empty options then py_eqb selected (Some stand_in)
  else is_key py_eqb selected options.

(** What the widgets of a page can hold on a run made on the day [now]:
    the clock shows a day of a year of four digits; the year of a book
    is a [number_input] from 1000 to the current year; the period of a
    loan is a slider from 7 to 30; a selectbox holds one of its
    options. *)
Definition widgets (now : date) (choice : screen) (file : option database)
  : bool :=
  let db := LibraryDatabase file in
  (364878 <=? now) && (now <=? MAXORDINAL)
  && match choice with
     | AddBookPage _ _ _ year _ _ => (1000 <=? year) && (year <=? year_of now)
     | SearchBooksPage search_by _ =>
         existsb (String.eqb search_by) ["title"; "author"; "isbn"; "genre"]%string
     | LoanBookPage selected_book selected_borrower loan_days _ =>
         selectbox selected_book (book_options db) "No books available"
         && selectbox selected_borrower (borrower_options db)
                      "No borrowers registered"
         && (7 <=? loan_days) && (loan_days <=? 30)
     | ReturnBookPage selected_loan _ =>
         is_empty (active_loan_rows db)
         || is_key String.eqb selected_loan (loan_options db)
     | _ => true
     end.

(** Runs of the script, one after the other, on one database file. *)
Fixpoint session (runs : list (date * screen)) (file : option database)
  : option database :=
  match runs with
  | [] => file
  | (now, choice) :: runs' =>
      session runs' (Some (stored (main now choice file)))
  end.

(** The runs that the widgets can make. *)
Fixpoint possible (runs : list (date * screen)) (file : option database)
  : bool :=
  match runs with
  | [] => true
  | (now, choice) :: runs' =>
      widgets now choice file
      && possible runs' (Some (stored (main now choice file)))
  end.

(** The states that the interface can bring about, starting without a
    database file. *)
Definition ui_reachable (db : database) : Prop :=
  exists runs, possible runs None = true /\ session runs None = Some db.

End Pages.

(** The number of books out on loan, by their status. *)
Definition loaned_books (db : database) : Z :=
  Z.of_nat (List.length
              (filter (fun b => String.eqb (Books.status b) "loaned")
                      (rows (books db)))).

(** The store calls as the pages make them: with the texts that the
    forms require, a book that the Loan Book page found available, a
    borrower that it found registered, a loan that the Return Book page
    found open. *)
Definition page_call (o : operation) (db : database) : Prop :=
  match o with
  | AddBook title author isbn publication_year genre =>
      (exists t, title = Some t /\ t <> ""%string)
      /\ (exists a, author = Some a /\ a <> ""%string)
      /\ isbn <> None /\ publication_year <> None /\ genre <> None
  | RegisterBorrower name email phone =>
      (exists n, name = Some n /\ n <> ""%string)
      /\ (exists e, email = Some e /\ e <> ""%string)
      /\ phone <> None
  | LoanBook book_id borrower_id _ =>
      (exists b, In b (rows (books db)) /\ Books.id b = book_id
                 /\ Books.status b = "available"%string)
      /\ (exists r, In r (rows (borrowers db))
                    /\ Borrowers.id r = borrower_id)
  | ReturnBook loan_id =>
      exists l, In l (rows (loans db)) /\ Loans.id l = loan_id
                /\ open_loan l
  end.

(** A call made by a page on a day that the clock shows, with a period
    that the slider holds. *)
Definition desk_call (now : date) (o : operation) : Prop :=
  four_digit_year now
  /\ match o with
     | LoanBook _ _ loan_period_days => 7 <= loan_period_days <= 30
     | _ => True
     end.

(** What the forms of the pages put into the tables. *)
Definition filled_in_book (b : Books.row) : Prop :=
  (exists t, Books.title b = Some t /\ t <> ""%string)
  /\ (exists a, Books.author b = Some a /\ a <> ""%string)
  /\ Books.isbn b <> None /\ Books.publication_year b <> None
  /\ Books.genre b <> None.

Definition filled_in_borrower (r : Borrowers.row) : Prop :=
  (exists n, Borrowers.name r = Some n /\ n <> ""%string)
  /\ (exists e, Borrowers.email r = Some e /\ e <> ""%string)
  /\ Borrowers.phone r <> None.

(** *** Sessions used below *)

(** Two books are entered without an ISBN, a borrower registers, the
    first book is lent for two weeks and the overdue list is read after
    the due date. *)
Definition front_desk : list (date * screen) :=
  [(739000, AddBookPage "Dune" "Herbert" "" 1965 "SciFi" true);
   (739000, AddBookPage "Emma" "Austen" "" 1815 "Novel" true);
   (739000, RegisterBorrowerPage "Ana" "ana@x.com" "" true);
   (739001, LoanBookPage (Some "Dune") (Some "Ana") 14 true);
   (739020, OverdueLoansPage)]%string.

Definition front_desk_db : database :=
  Eval vm_compute in
  match session isoformat front_desk None with
  | Some db => db
  | None => create_tables
  end.

(** ** Facts about tables *)

Section Tables.

Context {R : Type}.
Variable key : R -> Z.

Lemma max_rowid_ge (ids : list Z) (x : Z) :
  In x ids -> x <= max_rowid ids.
Proof.
  induction ids as [|y ids IH]; simpl; [tauto|].
  intros [->|Hin]; [lia|]. specialize (IH Hin). lia.
Qed.

Lemma next_rowid_fresh (t : table R) (r : R) :
  In r (rows t) -> key r < next_rowid key t.
Proof.
  intros Hin. unfold next_rowid.
  assert (key r <= max_rowid (map key (rows t)))
    by (apply max_rowid_ge, in_map, Hin).
  lia.
Qed.

Lemma rows_insert (mk : Z -> R) (t : table R) :
  rows (insert key mk t) = rows t ++ [mk (next_rowid key t)].
Proof. reflexivity. Qed.

Lemma rows_update (cond : R -> bool) (set : R -> R) (t : table R) :
  rows (update cond set t)
  = map (fun r => if cond r then set r else r) (rows t).
Proof. reflexivity. Qed.

Lemma primary_key_insert (mk : Z -> R) (t : table R) :
  (forall rowid, key (mk rowid) = rowid) ->
  primary_key key t -> primary_key key (insert key mk t).
Proof.
  intros Hmk Hpk. unfold primary_key. rewrite rows_insert, map_app. simpl.
  rewrite Hmk. apply NoDup_app.
  - exact Hpk.
  - repeat constructor. simpl. tauto.
  - intros x Hx [<-|[]]. apply in_map_iff in Hx as (r & Hr & Hin).
    pose proof (next_rowid_fresh t r Hin). lia.
Qed.

Lemma map_key_update (cond : R -> bool) (set : R -> R) (t : table R) :
  (forall r, key (set r) = key r) ->
  map key (rows (update cond set t)) = map key (rows t).
Proof.
  intros Hset. rewrite rows_update, map_map. apply map_ext.
  intros r. destruct (cond r); auto.
Qed.

Lemma primary_key_update (cond : R -> bool) (set : R -> R) (t : table R) :
  (forall r, key (set r) = key r) ->
  primary_key key t -> primary_key key (update cond set t).
Proof.
  intros Hset Hpk. unfold primary_key. now rewrite map_key_update.
Qed.

(** Under the primary key, a lookup by rowid finds the row that has it. *)
Lemma find_primary_key (t : table R) (r : R) :
  primary_key key t -> In r (rows t) ->
  find (fun x => key x =? key r) (rows t) = Some r.
Proof.
  unfold primary_key. induction (rows t) as [|x xs IH]; simpl; [tauto|].
  intros Hnd Hin. inversion Hnd as [|? ? Hnotin Hnd']; subst.
  destruct (Z.eqb_spec (key x) (key r)) as [Heq|Hne].
  - destruct Hin as [->|Hin]; [reflexivity|].
    exfalso. apply Hnotin. rewrite Heq. now apply in_map.
  - destruct Hin as [->|Hin]; [congruence|]. now apply IH.
Qed.

Lemma find_none_iff (k : Z) (xs : list R) :
  find (fun x => key x =? k) xs = None
  <-> forall r, In r xs -> key r <> k.
Proof.
  split.
  - intros Hnone r Hin. pose proof (find_none _ _ Hnone r Hin) as H.
    simpl in H. now apply Z.eqb_neq.
  - intros Hall. destruct (find _ xs) as [r|] eqn:Hf; [|reflexivity].
    apply find_some in Hf as [Hin Hk]. apply Z.eqb_eq in Hk.
    now apply Hall in Hin.
Qed.

Lemma primary_key_inj (t : table R) (x y : R) :
  primary_key key t -> In x (rows t) -> In y (rows t) ->
  key x = key y -> x = y.
Proof.
  intros Hpk Hx Hy Hxy.
  pose proof (find_primary_key t x Hpk Hx) as Fx.
  pose proof (find_primary_key t y Hpk Hy) as Fy.
  rewrite Hxy in Fx. congruence.
Qed.

(** [UPDATE ... WHERE id = k] rewrites the rows keyed [k], and no other. *)
Lemma update_by_key_hit (set : R -> R) (k : Z) (t : table R) (x : R) :
  (forall r, key (set r) = key r) ->
  In x (rows (update (fun r => key r =? k) set t)) -> key x = k ->
  exists r, In r (rows t) /\ key r = k /\ x = set r.
Proof.
  intros Hset Hin Hk. rewrite rows_update in Hin.
  apply in_map_iff in Hin as (r & Hr & Hin).
  destruct (Z.eqb_spec (key r) k) as [Heq|Hne]; subst x.
  - exists r. auto.
  - congruence.
Qed.

Lemma update_by_key_miss (set : R -> R) (k : Z) (t : table R) (x : R) :
  (forall r, key (set r) = key r) ->
  key x <> k ->
  In x (rows (update (fun r => key r =? k) set t)) <-> In x (rows t).
Proof.
  intros Hset Hk. rewrite rows_update, in_map_iff. split.
  - intros (r & Hr & Hin).
    destruct (Z.eqb_spec (key r) k) as [Heq|Hne]; subst x.
    + rewrite Hset in Hk. contradiction.
    + exact Hin.
  - intros Hin. exists x. split; [|exact Hin].
    destruct (Z.eqb_spec (key x) k); [contradiction|reflexivity].
Qed.

Lemma update_by_key_in (set : R -> R) (t : table R) (r : R) :
  In r (rows t) ->
  In (set r) (rows (update (fun x => key x =? key r) set t)).
Proof.
  intros Hin. rewrite rows_update. apply in_map_iff. exists r.
  now rewrite Z.eqb_refl.
Qed.

End Tables.

(** ** Uniqueness constraints *)

Lemma text_eqb_null (v : text) : text_eqb v None = false.
Proof. now destruct v. Qed.

Lemma violates_unique_null {R : Type} (col : R -> text) (rs : list R) :
  violates_unique col None rs = false.
Proof.
  unfold violates_unique. induction rs as [|r rs IH]; simpl; [reflexivity|].
  now rewrite text_eqb_null, IH.
Qed.

Lemma violates_unique_present {R : Type} (col : R -> text) (rs : list R)
      (r : R) (v : string) :
  In r rs -> col r = Some v -> violates_unique col (Some v) rs = true.
Proof.
  intros Hin Hcol. unfold violates_unique. apply existsb_exists.
  exists r. split; [exact Hin|]. rewrite Hcol. simpl. apply String.eqb_refl.
Qed.

(** ** [add_book] and [register_borrower] *)

(** C7. Adding a book whose ISBN is given and is already the ISBN of a
    stored book leaves every table, the books among them, as it was.
    When the year is absent or fits 64 bits, the call returns [False]
    with the duplicate-ISBN message; a year outside 64 bits raises
    [OverflowError] at the binding instead, and nothing is printed. *)
Theorem add_book_duplicate_isbn
        (now : date) (title author : text) (i : string)
        (publication_year : option Z) (genre : text) (db : database)
        (b : Books.row) :
  In b (rows (books db)) ->
  Books.isbn b = Some i ->
  let o := add_book now title author (Some i) publication_year genre db in
  db_after o = db
  /\ (binds publication_year = true ->
      raised o = None /\ returned o = false
      /\ printed o = DuplicateISBN (Some i))
  /\ (binds publication_year = false ->
      raised o = Some "OverflowError"%string /\ returned o = false
      /\ printed o = []).
Proof.
  intros Hin Hisbn o. subst o. unfold add_book, insert_book.
  rewrite (violates_unique_present Books.isbn _ b i Hin Hisbn).
  rewrite !orb_true_r.
  destruct (binds publication_year); simpl.
  - split; [reflexivity|]. split; [auto|discriminate].
  - split; [reflexivity|]. split; [discriminate|auto].
Qed.

Lemma add_book_duplicate_isbn_witness :
  let db := run two_of_each create_tables in
  let o := (add_book 739001 (Some "Emma") (Some "Austen") (Some "ISBN1")
                     (Some 1815) None db)%string in
  book_count db = 2
  /\ db_after o = db
  /\ (raised o = None /\ returned o = false
      /\ printed o = DuplicateISBN (Some "ISBN1"))%string.
Proof.
  intros db o.
  assert (H := add_book_duplicate_isbn 739001 (Some "Emma"%string)
                 (Some "Austen"%string) "ISBN1" (Some 1815) None db
                 (Books.Row 1 (Some "Dune"%string) (Some "Herbert"%string)
                    (Some "ISBN1"%string) (Some 1965)
                    (Some "SciFi"%string) 739000 "available")
                 (or_introl eq_refl) eq_refl).
  split; [reflexivity|]. split; [exact (proj1 H)|].
  exact (proj1 (proj2 H) eq_refl).
Defined.

(** C7, the claim as it stands.  A book with the ISBN of a stored book
    and a year that does not fit 64 bits: the call does not fail with
    the duplicate-ISBN message, it raises [OverflowError]. *)
Lemma add_book_year_overflow_counterexample :
  let db := run dune_and_ana create_tables in
  let o := (add_book 739001 (Some "Emma") (Some "Austen") (Some "ISBN1")
                     (Some (2 ^ 63)) None db)%string in
  (exists b, In b (rows (books db)) /\ Books.isbn b = Some "ISBN1")%string
  /\ raised o = Some "OverflowError"%string
  /\ printed o <> DuplicateISBN (Some "ISBN1"%string).
Proof.
  intros db o. split; [|split].
  - eexists. split; [left; reflexivity|reflexivity].
  - reflexivity.
  - discriminate.
Qed.

(** C8. Registering a borrower under the email of a registered borrower
    fails with the duplicate-email message and leaves every table, the
    borrowers among them, as it was; after Ana and then Bob register on a
    fresh store under one email, the second call has failed and one
    borrower is counted. *)
Theorem register_borrower_duplicate_email :
  (forall (now : date) (name : text) (e : string) (phone : text)
          (db : database) (r : Borrowers.row),
      In r (rows (borrowers db)) ->
      Borrowers.email r = Some e ->
      returned (register_borrower now name (Some e) phone db) = false
      /\ printed (register_borrower now name (Some e) phone db)
         = DuplicateEmail (Some e)
      /\ db_after (register_borrower now name (Some e) phone db) = db)
  /\ (forall (now1 now2 : date),
         let ana := register_borrower now1 (Some "Ana"%string)
                      (Some "ana@x.com"%string) None create_tables in
         let bob := register_borrower now2 (Some "Bob"%string)
                      (Some "ana@x.com"%string) None (db_after ana) in
         returned ana = true
         /\ returned bob = false
         /\ printed bob = DuplicateEmail (Some "ana@x.com"%string)
         /\ borrower_count (db_after bob) = 1).
Proof.
  split.
  - intros now name e phone db r Hin Hemail.
    unfold register_borrower, insert_borrower.
    rewrite (violates_unique_present Borrowers.email _ r e Hin Hemail).
    rewrite orb_true_r. simpl. auto.
  - intros now1 now2. simpl. repeat split.
Qed.

Lemma register_borrower_duplicate_email_witness :
  let db := Database empty
              (Table [Borrowers.Row 1 (Some "Ana"%string)
                        (Some "ana@x.com"%string) None 739000] 1)
              empty in
  db_after (register_borrower 739001 (Some "Bob"%string)
              (Some "ana@x.com"%string) (Some "555"%string) db) = db.
Proof.
  intros db.
  refine (proj2 (proj2 (proj1 register_borrower_duplicate_email
                          739001 (Some "Bob"%string) "ana@x.com"%string
                          (Some "555"%string) _
                          (Borrowers.Row 1 (Some "Ana"%string)
                             (Some "ana@x.com"%string) None 739000) _ _))).
  - left. reflexivity.
  - reflexivity.
Defined.

(** C10. A borrower with a name and no email is registered whatever the
    store holds, so the email constraint binds only calls that give an
    email: two such calls in a row both succeed, and each adds a record
    of its own with an absent email. *)
Theorem register_borrower_without_email
        (now1 now2 : date) (name1 name2 : string) (phone1 phone2 : text)
        (db : database) :
  let first := register_borrower now1 (Some name1) None phone1 db in
  let second :=
    register_borrower now2 (Some name2) None phone2 (db_after first) in
  returned first = true
  /\ returned second = true
  /\ exists id1 id2,
      id1 <> id2
      /\ (forall r, In r (rows (borrowers db)) ->
                    Borrowers.id r <> id1 /\ Borrowers.id r <> id2)
      /\ rows (borrowers (db_after second))
         = rows (borrowers db)
             ++ [Borrowers.Row id1 (Some name1) None phone1 now1;
                 Borrowers.Row id2 (Some name2) None phone2 now2]
      /\ books (db_after second) = books db
      /\ loans (db_after second) = loans db.
Proof.
  unfold register_borrower, insert_borrower. simpl.
  rewrite !violates_unique_null. simpl.
  split; [reflexivity|]. split; [reflexivity|].
  set (t := borrowers db).
  set (mk1 := fun rowid => Borrowers.Row rowid (Some name1) None phone1 now1).
  exists (next_rowid Borrowers.id t),
         (next_rowid Borrowers.id (insert Borrowers.id mk1 t)).
  assert (Hlt : next_rowid Borrowers.id t
                < next_rowid Borrowers.id (insert Borrowers.id mk1 t)).
  { unfold next_rowid at 2. simpl. lia. }
  split; [lia|]. split.
  - intros r Hin. pose proof (next_rowid_fresh Borrowers.id t r Hin). lia.
  - split; [|split; reflexivity].
    rewrite <- app_assoc. reflexivity.
Qed.
(** ** [loan_book] *)

Lemma set_status_id (v : string) (b : Books.row) :
  Books.id (Books.set_status v b) = Books.id b.
Proof. reflexivity. Qed.

Lemma set_return_date_id (v : date) (l : Loans.row) :
  Loans.id (Loans.set_return_date v l) = Loans.id l.
Proof. reflexivity. Qed.

Lemma select_status_found (db : database) (b : Books.row) :
  primary_key Books.id (books db) -> In b (rows (books db)) ->
  select_status (Books.id b) db = Some (Books.status b).
Proof.
  intros Hpk Hin. unfold select_status.
  now rewrite (find_primary_key Books.id (books db) b Hpk Hin).
Qed.

Lemma select_status_missing (db : database) (book_id : Z) :
  (forall b, In b (rows (books db)) -> Books.id b <> book_id) ->
  select_status book_id db = None.
Proof.
  intros Hall. unfold select_status.
  now rewrite (proj2 (find_none_iff Books.id book_id _) Hall).
Qed.

Lemma datetime_add_some (d days due : Z) :
  datetime_add d days = Some due ->
  due = d + days /\ 1 <= due <= MAXORDINAL.
Proof.
  unfold datetime_add, timedelta.
  destruct (Z.abs days <=? 999999999); [|discriminate].
  destruct (_ && _) eqn:H; [|discriminate].
  intros [= <-]. apply andb_true_iff in H as [H1 H2]. lia.
Qed.

(** The three ways a call of [loan_book] ends: it leaves the tables as
    they were; it raises after the UPDATE; it lends the book. *)
Lemma loan_book_cases now book_id borrower_id days db :
  let o := loan_book now book_id borrower_id days db in
  let books' := update (fun b => Books.id b =? book_id)
                       (Books.set_status "loaned") (books db) in
  (db_after o = db /\ returned o = false)
  \/ (raised o = Some "OverflowError"%string
      /\ returned o = false
      /\ fits_int64 borrower_id = false
      /\ db_after o = Database books' (borrowers db) (loans db))
  \/ (raised o = None
      /\ returned o = true
      /\ fits_int64 book_id = true
      /\ fits_int64 borrower_id = true
      /\ not_available (select_status book_id db) = false
      /\ datetime_add now days = Some (now + days)
      /\ db_after o
         = Database books' (borrowers db)
             (insert Loans.id
                (fun rowid => Loans.Row rowid book_id borrower_id now
                                (now + days) None)
                (loans db))).
Proof.
  unfold loan_book.
  destruct (fits_int64 book_id); simpl; [|left; auto].
  destruct (not_available _); [left; auto|].
  destruct (datetime_add now days) as [due|] eqn:Hdue; [|left; auto].
  destruct (datetime_add_some _ _ _ Hdue) as [-> _].
  destruct (fits_int64 borrower_id); simpl.
  - right. right. auto 10.
  - right. left. auto.
Qed.

(** C2. Lending a book whose id is not in the books table, or whose
    status is not 'available', leaves all three tables as they were.
    For an id that fits 64 bits the call returns [False] with the
    book-unavailable message; an id outside 64 bits raises
    [OverflowError] at the SELECT instead, and nothing is printed. *)
Theorem loan_book_unavailable
        (now : date) (book_id borrower_id loan_period_days : Z)
        (db : database) :
  primary_key Books.id (books db) ->
  (forall b, In b (rows (books db)) -> Books.id b <> book_id)
  \/ (exists b, In b (rows (books db)) /\ Books.id b = book_id
                /\ Books.status b <> "available"%string) ->
  let o := loan_book now book_id borrower_id loan_period_days db in
  db_after o = db
  /\ (fits_int64 book_id = true ->
      raised o = None /\ returned o = false /\ printed o = BookUnavailable)
  /\ (fits_int64 book_id = false ->
      raised o = Some "OverflowError"%string /\ returned o = false
      /\ printed o = []).
Proof.
  intros Hpk Hcase o. subst o. unfold loan_book.
  assert (Hna : not_available (select_status book_id db) = true).
  { destruct Hcase as [Hmiss|(b & Hin & <- & Hst)].
    - now rewrite select_status_missing.
    - rewrite (select_status_found db b Hpk Hin). simpl.
      apply negb_true_iff, String.eqb_neq, Hst. }
  rewrite Hna. destruct (fits_int64 book_id); simpl.
  - split; [reflexivity|]. split; [auto|discriminate].
  - split; [reflexivity|]. split; [discriminate|auto].
Qed.

Lemma loan_book_unavailable_witness :
  let db := Database
              (Table [Books.Row 1 (Some "Dune"%string)
                        (Some "Herbert"%string) None None None 739000
                        "loaned"] 1)
              empty
              (Table [Loans.Row 1 1 1 739000 739014 None] 1) in
  (db_after (loan_book 739001 1 1 14 db) = db
   /\ printed (loan_book 739001 1 1 14 db) = BookUnavailable)
  /\ (db_after (loan_book 739001 2 1 14 db) = db
      /\ printed (loan_book 739001 2 1 14 db) = BookUnavailable).
Proof.
  intros db.
  assert (Hpk : primary_key Books.id (books db)).
  { repeat constructor. simpl. tauto. }
  split.
  - assert (H := loan_book_unavailable 739001 1 1 14 db Hpk).
    destruct H as (H1 & H2 & _).
    + right. eexists. split; [left; reflexivity|].
      split; [reflexivity|discriminate].
    + split; [exact H1|]. exact (proj2 (proj2 (H2 eq_refl))).
  - assert (H := loan_book_unavailable 739001 2 1 14 db Hpk).
    destruct H as (H1 & H2 & _).
    + left. intros b [<-|[]]. discriminate.
    + split; [exact H1|]. exact (proj2 (proj2 (H2 eq_refl))).
Defined.

(** C2, the claim as it stands.  The id 2^63 is the id of no book, yet
    lending it does not fail with the book-unavailable message: the
    SELECT raises [OverflowError]. *)
Lemma loan_book_id_overflow_counterexample :
  let db := run dune_and_ana create_tables in
  let o := loan_book 739001 (2 ^ 63) 1 14 db in
  (forall b, In b (rows (books db)) -> Books.id b <> 2 ^ 63)
  /\ raised o = Some "OverflowError"%string
  /\ printed o <> BookUnavailable.
Proof.
  intros db o. split; [|split].
  - intros b [<-|[]]. discriminate.
  - reflexivity.
  - discriminate.
Qed.

(** C3. Lending an available book, with ids that fit 64 bits and a due
    date that [datetime] holds, succeeds: the loans table gains one row,
    dated today, due [loan_period_days] days later (14 by default) and
    not returned, and the book's row becomes the same row with status
    'loaned', while the other books and the borrowers stay as they
    were.  A period that takes the due date out of [datetime] raises
    [OverflowError] and changes nothing; a borrower id outside 64 bits
    raises [OverflowError] after the status has been set, with no loan
    recorded.  Whatever the other arguments, a call whose borrower id
    fits 64 bits either does both, the new loan and the status, or
    changes nothing. *)
Theorem loan_book_available
        (now : date) (borrower_id loan_period_days : Z) (db : database)
        (b : Books.row) :
  primary_key Books.id (books db) ->
  In b (rows (books db)) ->
  Books.status b = "available"%string ->
  fits_int64 (Books.id b) = true ->
  let o := loan_book now (Books.id b) borrower_id loan_period_days db in
  (fits_int64 borrower_id = true ->
   datetime_add now loan_period_days <> None ->
   raised o = None
   /\ returned o = true
   /\ (exists loan_id,
          (forall l, In l (rows (loans db)) -> Loans.id l <> loan_id)
          /\ rows (loans (db_after o))
             = rows (loans db)
                 ++ [Loans.Row loan_id (Books.id b) borrower_id now
                       (now + loan_period_days) None])
   /\ In (lent b) (rows (books (db_after o)))
   /\ (forall b', In b' (rows (books (db_after o))) ->
                  Books.id b' = Books.id b ->
                  b' = lent b /\ Books.status b' = "loaned"%string)
   /\ (forall b', Books.id b' <> Books.id b ->
                  In b' (rows (books (db_after o)))
                  <-> In b' (rows (books db)))
   /\ borrowers (db_after o) = borrowers db)
  /\ loan_book_default now (Books.id b) borrower_id db
     = loan_book now (Books.id b) borrower_id 14 db
  /\ (datetime_add now loan_period_days = None ->
      raised o = Some "OverflowError"%string /\ db_after o = db)
  /\ (fits_int64 borrower_id = false ->
      datetime_add now loan_period_days <> None ->
      raised o = Some "OverflowError"%string
      /\ loans (db_after o) = loans db
      /\ In (lent b) (rows (books (db_after o))))
  /\ (forall now' book_id' borrower_id' days' db',
         fits_int64 borrower_id' = true ->
         let o' := loan_book now' book_id' borrower_id' days' db' in
         (returned o' = false /\ db_after o' = db')
         \/ (returned o' = true
             /\ raised o' = None
             /\ (exists loan_id,
                    rows (loans (db_after o'))
                    = rows (loans db')
                        ++ [Loans.Row loan_id book_id' borrower_id' now'
                              (now' + days') None])
             /\ rows (books (db_after o'))
                = map (fun x => if Books.id x =? book_id'
                                then lent x else x)
                      (rows (books db')))).
Proof.
  intros Hpk Hin Hst Hfit o. subst o.
  assert (Hlent : In (lent b)
                     (rows (update (fun x => Books.id x =? Books.id b)
                                   (Books.set_status "loaned") (books db)))).
  { apply (update_by_key_in Books.id (Books.set_status "loaned")).
    exact Hin. }
  split; [|split; [reflexivity|split; [|split]]].
  - intros Hr Hdue. unfold loan_book. rewrite Hfit, Hr.
    rewrite (select_status_found db b Hpk Hin), Hst. simpl.
    destruct (datetime_add now loan_period_days) as [due|] eqn:Hd;
      [|congruence].
    destruct (datetime_add_some _ _ _ Hd) as [-> _]. simpl.
    split; [reflexivity|]. split; [reflexivity|]. split.
    { exists (next_rowid Loans.id (loans db)). split; [|reflexivity].
      intros l Hl. pose proof (next_rowid_fresh Loans.id _ l Hl). lia. }
    split; [exact Hlent|]. split.
    { intros b' Hb' Hid.
      apply (update_by_key_hit Books.id) in Hb' as (r & Hr' & Hk & ->);
        [|apply set_status_id|exact Hid].
      split; [|reflexivity].
      replace r with b; [reflexivity|].
      apply (primary_key_inj Books.id (books db)); auto. }
    split; [|reflexivity].
    intros b' Hid. apply (update_by_key_miss Books.id); [|exact Hid].
    apply set_status_id.
  - intros Hd. unfold loan_book. rewrite Hfit.
    rewrite (select_status_found db b Hpk Hin), Hst, Hd. simpl. auto.
  - intros Hr Hdue. unfold loan_book. rewrite Hfit, Hr.
    rewrite (select_status_found db b Hpk Hin), Hst. simpl.
    destruct (datetime_add now loan_period_days); [|congruence].
    simpl. auto.
  - intros now' book_id' borrower_id' days' db' Hr'. cbv zeta.
    destruct (loan_book_cases now' book_id' borrower_id' days' db')
      as [[H1 H2]|[(_ & _ & Hno & _)|(H1 & H2 & _ & _ & _ & _ & ->)]].
    + left. auto.
    + congruence.
    + right. split; [exact H2|]. split; [exact H1|]. split.
      * eexists. reflexivity.
      * reflexivity.
Qed.

Lemma loan_book_available_witness :
  let db := run dune_and_ana create_tables in
  let o := loan_book 739001 1 1 14 db in
  returned o = true
  /\ rows (loans (db_after o)) = [Loans.Row 1 1 1 739001 739015 None]
  /\ forall b', In b' (rows (books (db_after o))) -> Books.id b' = 1 ->
                Books.status b' = "loaned"%string.
Proof.
  intros db o.
  assert (H := loan_book_available 739001 1 14 db
                 (Books.Row 1 (Some "Dune"%string) (Some "Herbert"%string)
                    (Some "ISBN1"%string) (Some 1965)
                    (Some "SciFi"%string) 739000 "available")).
  destruct H as (H & _).
  - repeat constructor. simpl. tauto.
  - left. reflexivity.
  - reflexivity.
  - reflexivity.
  - destruct H as (_ & Hret & _ & _ & Hst & _);
      [reflexivity|discriminate|].
    split; [exact Hret|]. split; [reflexivity|].
    intros b' Hb' Hid. exact (proj2 (Hst b' Hb' Hid)).
Defined.

(** C3, the claim as it stands.  Book 1 is available, yet lending it to
    the borrower id 2^63 does not succeed, and the status is set with no
    loan created; lending it for 3000000 days does not succeed either,
    as the due date would lie after the year 9999. *)
Lemma loan_book_overflow_counterexample :
  let db := run dune_and_ana create_tables in
  let o := loan_book 739001 1 (2 ^ 63) 14 db in
  let o' := loan_book 739001 1 1 3000000 db in
  select_status 1 db = Some "available"%string
  /\ returned o = false
  /\ raised o = Some "OverflowError"%string
  /\ select_status 1 (db_after o) = Some "loaned"%string
  /\ rows (loans (db_after o)) = []
  /\ returned o' = false
  /\ raised o' = Some "OverflowError"%string.
Proof. intros db o o'. repeat split. Qed.

(** ** [return_book] *)

Lemma select_book_id_found (db : database) (l : Loans.row) :
  primary_key Loans.id (loans db) -> In l (rows (loans db)) ->
  select_book_id (Loans.id l) db = Some (Loans.book_id l).
Proof.
  intros Hpk Hin. unfold select_book_id.
  now rewrite (find_primary_key Loans.id (loans db) l Hpk Hin).
Qed.

Lemma select_book_id_none_iff (db : database) (loan_id : Z) :
  select_book_id loan_id db = None
  <-> forall l, In l (rows (loans db)) -> Loans.id l <> loan_id.
Proof.
  unfold select_book_id. rewrite <- (find_none_iff Loans.id).
  destruct (find _ _); simpl; split; congruence.
Qed.

(** C4. For a loan id that fits 64 bits, returning fails exactly when
    no loan row has the id, and then with the loan-not-found message
    and no change; whether the loan was returned before plays no part.
    When the call succeeds, the loan of that id is the same row with
    today as its return date, the other loans are untouched, and every
    book with the id that the loan references is the same row with the
    status 'available'.  A loan id outside 64 bits raises
    [OverflowError] at the SELECT: nothing is printed or changed. *)
Theorem return_book_spec (now : date) (loan_id : Z) (db : database) :
  let o := return_book now loan_id db in
  (fits_int64 loan_id = false ->
   raised o = Some "OverflowError"%string /\ returned o = false
   /\ printed o = [] /\ db_after o = db)
  /\ (fits_int64 loan_id = true ->
      raised o = None
      /\ (returned o = false
          <-> forall l, In l (rows (loans db)) -> Loans.id l <> loan_id)
      /\ (returned o = false -> printed o = LoanNotFound /\ db_after o = db)
      /\ (forall l,
             primary_key Loans.id (loans db) ->
             In l (rows (loans db)) ->
             Loans.id l = loan_id ->
             returned o = true
             /\ In (stamped now l) (rows (loans (db_after o)))
             /\ (forall l', In l' (rows (loans (db_after o))) ->
                            Loans.id l' = loan_id ->
                            l' = stamped now l
                            /\ Loans.return_date l' = Some now)
             /\ (forall l', Loans.id l' <> loan_id ->
                            In l' (rows (loans (db_after o)))
                            <-> In l' (rows (loans db)))
             /\ rows (books (db_after o))
                = map (fun b => if Books.id b =? Loans.book_id l
                                then back_on_shelf b else b)
                      (rows (books db))
             /\ (forall b, In b (rows (books (db_after o))) ->
                           Books.id b = Loans.book_id l ->
                           Books.status b = "available"%string)
             /\ borrowers (db_after o) = borrowers db)).
Proof.
  intros o. subst o. unfold return_book.
  destruct (fits_int64 loan_id); simpl;
    (split; [try discriminate; auto|try discriminate]).
  intros _. split.
  { now destruct (select_book_id loan_id db). }
  split.
  { rewrite <- select_book_id_none_iff.
    destruct (select_book_id loan_id db); simpl; split; congruence. }
  split.
  { destruct (select_book_id loan_id db); simpl; [discriminate|auto]. }
  intros l Hpk Hin <-.
  rewrite (select_book_id_found db l Hpk Hin). simpl.
  split; [reflexivity|]. split.
  { apply (update_by_key_in Loans.id (Loans.set_return_date now)).
    exact Hin. }
  split.
  { intros l' Hl' Hid.
    apply (update_by_key_hit Loans.id) in Hl' as (r & Hr & Hk & ->);
      [|apply set_return_date_id|exact Hid].
    split; [|reflexivity].
    replace r with l; [reflexivity|].
    apply (primary_key_inj Loans.id (loans db)); auto. }
  split.
  { intros l' Hid. apply (update_by_key_miss Loans.id); [|exact Hid].
    apply set_return_date_id. }
  split; [reflexivity|]. split; [|reflexivity].
  intros b Hb Hid.
  apply (update_by_key_hit Books.id) in Hb as (r & _ & _ & ->);
    [reflexivity|apply set_status_id|exact Hid].
Qed.

Lemma return_book_spec_witness :
  let db := Database
              (Table [Books.Row 1 (Some "Dune"%string)
                        (Some "Herbert"%string) None None None 739000
                        "loaned"] 1)
              (Table [Borrowers.Row 1 (Some "Ana"%string)
                        (Some "ana@x.com"%string) None 739000] 1)
              (Table [Loans.Row 1 1 1 739000 739014 None] 1) in
  (returned (return_book 739003 1 db) = true
   /\ In (Loans.Row 1 1 1 739000 739014 (Some 739003))
         (rows (loans (db_after (return_book 739003 1 db)))))
  /\ db_after (return_book 739003 7 db) = db.
Proof.
  intros db. split.
  - destruct (proj2 (return_book_spec 739003 1 db) eq_refl)
      as (_ & _ & _ & H).
    destruct (H (Loans.Row 1 1 1 739000 739014 None)) as (H1 & H2 & _).
    + repeat constructor. simpl. tauto.
    + left. reflexivity.
    + reflexivity.
    + split; [exact H1|exact H2].
  - destruct (proj2 (return_book_spec 739003 7 db) eq_refl)
      as (_ & _ & H & _).
    exact (proj2 (H eq_refl)).
Defined.

(** C4, the claim as it stands.  The id 2^63 references no loan, yet
    returning it does not fail with the loan-not-found message: the
    SELECT raises [OverflowError]. *)
Lemma return_book_id_overflow_counterexample :
  let db := run return_twice create_tables in
  let o := return_book 739005 (2 ^ 63) db in
  (forall l, In l (rows (loans db)) -> Loans.id l <> 2 ^ 63)
  /\ raised o = Some "OverflowError"%string
  /\ printed o <> LoanNotFound.
Proof.
  intros db o. split; [|split].
  - intros l [<-|[<-|[]]]; discriminate.
  - reflexivity.
  - discriminate.
Qed.

(** ** [search_books] *)

Lemma tolower_idempotent (c : ascii) : tolower (tolower c) = tolower c.
Proof.
  destruct c as [[] [] [] [] [] [] [] []]; reflexivity.
Qed.

Lemma tolower_percent (c : ascii) :
  Ascii.eqb (tolower c) percent = Ascii.eqb c percent.
Proof.
  destruct c as [[] [] [] [] [] [] [] []]; reflexivity.
Qed.

Lemma tolower_underscore (c : ascii) :
  Ascii.eqb (tolower c) underscore = Ascii.eqb c underscore.
Proof.
  destruct c as [[] [] [] [] [] [] [] []]; reflexivity.
Qed.

Lemma tolower_nul (c : ascii) :
  Ascii.eqb (tolower c) nul = Ascii.eqb c nul.
Proof.
  destruct c as [[] [] [] [] [] [] [] []]; reflexivity.
Qed.




Lemma any_suffix_here (rest : string -> bool) (s : string) :
  rest s = true -> any_suffix rest false s = true.
Proof. destruct s; simpl; intros ->; reflexivity. Qed.


Lemma any_suffix_ext (f g : string -> bool) (inside : bool) (s : string) :
  (forall s', f s' = g s') -> any_suffix f inside s = any_suffix g inside s.
Proof.
  intros Hfg. revert inside. induction s as [|d s IH]; intros inside; simpl.
  - apply Hfg.
  - now rewrite Hfg, !IH.
Qed.


Lemma any_suffix_split (rest : string -> bool) (inside : bool) (s : string) :
  any_suffix rest inside s = true ->
  exists pre post, s = (pre ++ post)%string /\ rest post = true.
Proof.
  revert inside. induction s as [|d s IH]; intros inside; simpl.
  - intros H. exists EmptyString, EmptyString. auto.
  - assert (Hs : forall i, any_suffix rest i s = true ->
                           exists pre post,
                             String d s = (pre ++ post)%string
                             /\ rest post = true).
    { intros i Hi. destruct (IH i Hi) as (pre & post & -> & Hr).
      exists (String d pre), post. auto. }
    destruct (inside && is_continuation d); [apply Hs|].
    rewrite orb_true_iff. intros [H|H]; [|now apply Hs in H].
    exists EmptyString, (String d s). auto.
Qed.

Lemma match_like_percent (p s : string) :
  match_like (String percent p) s = any_suffix (match_like p) false s.
Proof. reflexivity. Qed.

Lemma match_like_char (c : ascii) (p s : string) :
  Ascii.eqb c percent = false ->
  match_like (String c p) s
  = match s with
    | EmptyString => false
    | String d s' =>
        if Ascii.eqb c underscore then match_like p (after_char d s')
        else Ascii.eqb (tolower c) (tolower d) && match_like p s'
    end.
Proof. intros Hc. simpl. now rewrite Hc. Qed.







(** [prefix_nocase] and [contains_nocase] say what their names say. *)
Lemma prefix_nocase_iff (q s : string) :
  prefix_nocase q s = true
  <-> exists mid post,
      s = (mid ++ post)%string /\ lowercase mid = lowercase q.
Proof.
  revert s. induction q as [|c q IH]; intros s.
  - simpl. split; [|reflexivity]. intros _.
    exists EmptyString, s. auto.
  - destruct s as [|d s]; simpl.
    + split; [discriminate|].
      intros (mid & post & Hs & Hlow). destruct mid; discriminate.
    + rewrite andb_true_iff, IH, Ascii.eqb_eq. split.
      * intros (Hcd & mid & post & -> & Hlow).
        exists (String d mid), post. simpl. split; congruence.
      * intros (mid & post & Hs & Hlow).
        destruct mid as [|m mid]; [discriminate|].
        simpl in Hs, Hlow. injection Hs as -> ->.
        injection Hlow as Hm Hlow. split; [congruence|].
        exists mid, post. auto.
Qed.

Lemma contains_nocase_substring (q s : string) :
  contains_nocase q s = true ->
  exists pre mid post,
    s = (pre ++ mid ++ post)%string /\ lowercase mid = lowercase q.
Proof.
  intros H. apply any_suffix_split in H as (pre & rest & -> & H).
  apply prefix_nocase_iff in H as (mid & post & -> & Hlow).
  exists pre, mid, post. auto.
Qed.

(** On a text of ASCII characters the substring may start anywhere. *)
Lemma contains_nocase_ascii (q pre post : string) :
  (forall c, In c (list_ascii_of_string pre) -> (N_of_ascii c < 128)%N) ->
  prefix_nocase q post = true ->
  contains_nocase q (pre ++ post) = true.
Proof.
  intros Hpre Hq. unfold contains_nocase.
  induction pre as [|c pre IH]; simpl.
  - now apply any_suffix_here.
  - assert (Hc : is_lead c = false).
    { unfold is_lead. apply N.leb_gt.
      specialize (Hpre c (or_introl eq_refl)). lia. }
    rewrite Hc, IH; [apply orb_true_r|].
    intros c' Hc'. apply Hpre. now right.
Qed.





(** ** Searching, whatever the query *)

Lemma c_string_lowercase (p : string) :
  c_string (lowercase p) = lowercase (c_string p).
Proof.
  induction p as [|c p IH]; simpl; [reflexivity|].
  rewrite tolower_nul. destruct (Ascii.eqb c nul); [reflexivity|].
  simpl. now rewrite IH.
Qed.

Lemma match_like_lowercase (p s : string) :
  match_like (lowercase p) s = match_like p s.
Proof.
  revert s. induction p as [|c p IH]; intros s; [reflexivity|].
  cbn [lowercase]. destruct (Ascii.eqb c percent) eqn:Hc.
  - apply Ascii.eqb_eq in Hc. subst c.
    change (tolower percent) with percent.
    rewrite !match_like_percent. apply any_suffix_ext, IH.
  - rewrite !match_like_char by (rewrite ?tolower_percent; exact Hc).
    destruct s as [|d s]; [reflexivity|].
    now rewrite tolower_underscore, tolower_idempotent, !IH.
Qed.

Lemma like_lowercase (p s : string) : like (lowercase p) s = like p s.
Proof.
  unfold like. now rewrite c_string_lowercase, match_like_lowercase.
Qed.

Lemma lowercase_app (s1 s2 : string) :
  lowercase (s1 ++ s2) = (lowercase s1 ++ lowercase s2)%string.
Proof.
  induction s1 as [|c s1 IH]; simpl; [reflexivity|]. now rewrite IH.
Qed.

Lemma where_like_same_case (v : text) (q1 q2 : string) :
  lowercase q1 = lowercase q2 ->
  where_like v ("%" ++ q1 ++ "%") = where_like v ("%" ++ q2 ++ "%").
Proof.
  intros Hq. destruct v as [s|]; [|reflexivity]. simpl where_like.
  rewrite <- (like_lowercase ("%" ++ q1 ++ "%")).
  rewrite <- (like_lowercase ("%" ++ q2 ++ "%")).
  rewrite !lowercase_app, Hq. reflexivity.
Qed.

(** X11. The case of the ASCII letters of a query plays no part,
    wildcards or not: two queries that are the same once their letters
    are lowered give the same result on every field and every store. *)
Theorem search_books_ignores_query_case
        (query1 query2 search_by : string) (db : database) :
  lowercase query1 = lowercase query2 ->
  search_books query1 search_by db = search_books query2 search_by db.
Proof.
  intros Hq. unfold search_books.
  repeat (destruct (String.eqb search_by _);
          [apply filter_ext; intros b; now apply where_like_same_case|]).
  reflexivity.
Qed.

Lemma search_books_ignores_query_case_witness :
  search_books "DuNe" "title" (run return_twice create_tables)
  = search_books "dune" "title" (run return_twice create_tables).
Proof.
  exact (search_books_ignores_query_case "DuNe" "dune" "title"
           (run return_twice create_tables) eq_refl).
Defined.





(** ** Reachable states *)

Lemma run_app (calls1 calls2 : list (date * operation)) (db : database) :
  run (calls1 ++ calls2) db = run calls2 (run calls1 db).
Proof.
  revert db. induction calls1 as [|[now o] calls1 IH]; intros db; simpl;
    [reflexivity|apply IH].
Qed.

(** What holds of the fresh tables and is kept by every call holds of
    every reachable state. *)
Lemma reachable_ind (P : database -> Prop) :
  P create_tables ->
  (forall now o db, P db -> P (db_after (perform now o db))) ->
  forall db, reachable db -> P db.
Proof.
  intros Hinit Hstep db [calls ->].
  generalize dependent create_tables.
  induction calls as [|[now o] calls IH]; intros db0 H0; simpl; auto.
Qed.

(** The shape of the state after each method. *)
(** The shape of the state after each method. *)
Lemma add_book_after now t a i y g db :
  db_after (add_book now t a i y g db) = db
  \/ db_after (add_book now t a i y g db)
     = Database
         (insert Books.id
            (fun rowid => Books.Row rowid t a i y g now "available")
            (books db))
         (borrowers db) (loans db).
Proof.
  unfold add_book, insert_book.
  destruct (binds y); simpl; auto. destruct (_ || _); simpl; auto.
Qed.

Lemma register_borrower_after now n e p db :
  db_after (register_borrower now n e p db) = db
  \/ db_after (register_borrower now n e p db)
     = Database
         (books db)
         (insert Borrowers.id
            (fun rowid => Borrowers.Row rowid n e p now) (borrowers db))
         (loans db).
Proof.
  unfold register_borrower, insert_borrower. destruct (_ || _); simpl; auto.
Qed.

Lemma available_found (db : database) (book_id : Z) :
  not_available (select_status book_id db) = false ->
  exists b, In b (rows (books db)) /\ Books.id b = book_id
            /\ Books.status b = "available"%string.
Proof.
  unfold select_status.
  destruct (find _ (rows (books db))) as [b|] eqn:Hfind; simpl;
    [|discriminate].
  intros Hst. apply negb_false_iff, String.eqb_eq in Hst.
  apply find_some in Hfind as [Hin Hid]. apply Z.eqb_eq in Hid.
  exists b. auto.
Qed.

(** [loan_book] changes nothing, or lends a book that it found
    available, or raises on the borrower's id after it has set the
    status of such a book. *)
Lemma loan_book_after now book_id borrower_id days db :
  db_after (loan_book now book_id borrower_id days db) = db
  \/ ((exists b, In b (rows (books db)) /\ Books.id b = book_id
                  /\ Books.status b = "available"%string)
      /\ db_after (loan_book now book_id borrower_id days db)
         = Database
             (update (fun b => Books.id b =? book_id)
                     (Books.set_status "loaned") (books db))
             (borrowers db)
             (insert Loans.id
                (fun rowid => Loans.Row rowid book_id borrower_id now
                                (now + days) None)
                (loans db)))
  \/ (raised (loan_book now book_id borrower_id days db) <> None
      /\ fits_int64 borrower_id = false
      /\ db_after (loan_book now book_id borrower_id days db)
         = Database
             (update (fun b => Books.id b =? book_id)
                     (Books.set_status "loaned") (books db))
             (borrowers db) (loans db)).
Proof.
  destruct (loan_book_cases now book_id borrower_id days db)
    as [[H _]|[(H1 & _ & H2 & H3)|(_ & _ & _ & _ & Hav & _ & H)]].
  - now left.
  - right. right. rewrite H1. split; [discriminate|auto].
  - right. left. split; [now apply available_found|exact H].
Qed.

Lemma return_book_after now loan_id db :
  db_after (return_book now loan_id db) = db
  \/ exists l, In l (rows (loans db)) /\ Loans.id l = loan_id
     /\ db_after (return_book now loan_id db)
        = Database
            (update (fun b => Books.id b =? Loans.book_id l)
                    (Books.set_status "available") (books db))
            (borrowers db)
            (update (fun x => Loans.id x =? loan_id)
                    (Loans.set_return_date now) (loans db)).
Proof.
  unfold return_book, select_book_id.
  destruct (fits_int64 loan_id); simpl; auto.
  destruct (find _ (rows (loans db))) as [l|] eqn:Hfind; simpl; auto.
  right. apply find_some in Hfind as [Hin Hid]. apply Z.eqb_eq in Hid.
  exists l. auto.
Qed.

(** Every reachable state satisfies the three primary keys. *)
Lemma reachable_primary_keys (db : database) :
  reachable db ->
  primary_key Books.id (books db)
  /\ primary_key Borrowers.id (borrowers db)
  /\ primary_key Loans.id (loans db).
Proof.
  intros Hreach. pattern db. revert db Hreach. apply reachable_ind.
  - repeat split; constructor.
  - intros now o db (Hb & Hr & Hl). destruct o as [t a i y g|n e p|b r d|l];
      simpl.
    + destruct (add_book_after now t a i y g db) as [->| ->]; auto.
      simpl. repeat split; auto. now apply primary_key_insert.
    + destruct (register_borrower_after now n e p db) as [->| ->]; auto.
      simpl. repeat split; auto. now apply primary_key_insert.
    + destruct (loan_book_after now b r d db)
        as [->|[[_ ->]|(_ & _ & ->)]]; auto;
        simpl; repeat split; auto;
        try (now apply primary_key_update); now apply primary_key_insert.
    + destruct (return_book_after now l db) as [->|(l0 & _ & _ & ->)]; auto.
      simpl. repeat split; auto; now apply primary_key_update.
Qed.

Lemma reachable_step (now : date) (o : operation) (db : database) :
  reachable db -> reachable (db_after (perform now o db)).
Proof.
  intros [calls ->]. exists (calls ++ [(now, o)]). now rewrite run_app.
Qed.

Lemma in_update_same_key {R : Type} (key : R -> Z) (cond : R -> bool)
      (set : R -> R) (t : table R) (r : R) :
  (forall x, key (set x) = key x) ->
  In r (rows t) ->
  exists r', In r' (rows (update cond set t)) /\ key r' = key r.
Proof.
  intros Hset Hin. exists (if cond r then set r else r). split.
  - rewrite rows_update. apply in_map_iff. exists r. auto.
  - destruct (cond r); auto.
Qed.

(** The book of every loan exists: [loan_book] lends only a book it
    has found, and no book is ever deleted. *)
Lemma reachable_loans_reference_books (db : database) :
  reachable db -> loans_reference_books db.
Proof.
  intros Hreach. pattern db. revert db Hreach. apply reachable_ind.
  - intros l [].
  - intros now o db Href. destruct o as [t a i y g|n e p|k r d|k]; simpl.
    + destruct (add_book_after now t a i y g db) as [->| ->]; auto.
      intros l Hl. destruct (Href l Hl) as (b & Hb & Hid).
      exists b. split; [|exact Hid]. simpl. apply in_or_app. now left.
    + destruct (register_borrower_after now n e p db) as [->| ->]; auto.
    + destruct (loan_book_after now k r d db)
        as [->|[[(b0 & Hb0 & Hk & _) ->]|(_ & _ & ->)]]; auto.
      * intros l Hl. simpl in Hl. apply in_app_or in Hl as [Hl|[<-|[]]].
        -- destruct (Href l Hl) as (b & Hb & Hid). rewrite <- Hid.
           apply (in_update_same_key Books.id);
             [apply set_status_id|exact Hb].
        -- simpl Loans.book_id. rewrite <- Hk.
           apply (in_update_same_key Books.id);
             [apply set_status_id|exact Hb0].
      * intros l Hl. simpl in Hl.
        destruct (Href l Hl) as (b & Hb & Hid). rewrite <- Hid.
        apply (in_update_same_key Books.id); [apply set_status_id|exact Hb].
    + destruct (return_book_after now k db)
        as [->|(l0 & _ & _ & ->)]; auto.
      intros l Hl. simpl in Hl. apply in_map_iff in Hl as (x & Hx & Hin).
      destruct (Href x Hin) as (b & Hb & Hid).
      assert (Hbook : Loans.book_id l = Loans.book_id x)
        by (destruct (Loans.id x =? k); subst l; reflexivity).
      rewrite Hbook, <- Hid.
      apply (in_update_same_key Books.id); [apply set_status_id|exact Hb].
Qed.

(** ** The lending invariant *)

Lemma consistent_add_book now t a i y g db :
  loans_reference_books db -> consistent db ->
  consistent (db_after (add_book now t a i y g db)).
Proof.
  intros Href (Hpk & Hone & Hst).
  destruct (add_book_after now t a i y g db) as [->| ->];
    [exact (conj Hpk (conj Hone Hst))|].
  split; [exact Hpk|]. split; [exact Hone|].
  intros b Hb. simpl in Hb. apply in_app_or in Hb as [Hb|[<-|[]]].
  - exact (Hst b Hb).
  - simpl. split; [discriminate|]. intros (l & Hl & Hid & _).
    destruct (Href l Hl) as (b0 & Hb0 & Hid0).
    pose proof (next_rowid_fresh Books.id _ b0 Hb0). lia.
Qed.

Lemma consistent_register_borrower now n e p db :
  consistent db -> consistent (db_after (register_borrower now n e p db)).
Proof.
  intros H. now destruct (register_borrower_after now n e p db) as [->| ->].
Qed.

Lemma consistent_loan_book now k r d db :
  fits_int64 r = true \/ raised (loan_book now k r d db) = None ->
  consistent db -> consistent (db_after (loan_book now k r d db)).
Proof.
  intros Hcall (Hpk & Hone & Hst).
  destruct (loan_book_after now k r d db)
    as [->|[[(b0 & Hb0 & <- & Hav) ->]|(Hraised & Hfit & _)]];
    [exact (conj Hpk (conj Hone Hst))| |destruct Hcall; congruence].
  assert (Hfree : forall l, In l (rows (loans db)) -> open_loan l ->
                            Loans.book_id l <> Books.id b0).
  { intros l Hl Hop Heq.
    assert (Hloaned : Books.status b0 = "loaned"%string)
      by (apply (Hst b0 Hb0); exists l; auto).
    rewrite Hav in Hloaned. discriminate. }
  split; [|split].
  - apply primary_key_insert; [reflexivity|exact Hpk].
  - intros l1 l2 H1 H2 O1 O2 E. simpl in H1, H2.
    apply in_app_or in H1 as [H1|[<-|[]]];
      apply in_app_or in H2 as [H2|[<-|[]]].
    + now apply Hone.
    + elim (Hfree l1 H1 O1). exact E.
    + elim (Hfree l2 H2 O2). symmetry. exact E.
    + reflexivity.
  - intros b' Hb'. simpl in Hb'. apply in_map_iff in Hb' as (x & Hx & Hin).
    destruct (Z.eqb_spec (Books.id x) (Books.id b0)) as [Heq|Hne]; subst b'.
    + simpl. split; [|reflexivity]. intros _. eexists. split.
      * apply in_or_app. right. left. reflexivity.
      * split; [simpl; congruence|reflexivity].
    + rewrite (Hst x Hin). simpl. split.
      * intros (l & Hl & Hid & Hop). exists l. split; [|auto].
        apply in_or_app. now left.
      * intros (l & Hl & Hid & Hop).
        apply in_app_or in Hl as [Hl|[<-|[]]]; [exists l; auto|].
        simpl in Hid. congruence.
Qed.

Lemma consistent_return_book now k db :
  offered (ReturnBook k) db ->
  consistent db -> consistent (db_after (return_book now k db)).
Proof.
  intros Hoff (Hpk & Hone & Hst).
  destruct (return_book_after now k db) as [->|(l0 & Hl0 & Hid0 & ->)];
    [exact (conj Hpk (conj Hone Hst))|].
  assert (Hopen0 : open_loan l0) by (apply (Hoff l0 Hl0 Hid0)).
  assert (Hstill : forall l,
             In l (rows (update (fun x => Loans.id x =? k)
                                (Loans.set_return_date now) (loans db))) ->
             open_loan l -> In l (rows (loans db)) /\ Loans.id l <> k).
  { intros l Hl Hop. rewrite rows_update in Hl.
    apply in_map_iff in Hl as (x & Hx & Hin).
    destruct (Z.eqb_spec (Loans.id x) k); subst l; [discriminate|auto]. }
  split; [|split].
  - apply primary_key_update; [apply set_return_date_id|exact Hpk].
  - intros l1 l2 H1 H2 O1 O2 E.
    destruct (Hstill l1 H1 O1), (Hstill l2 H2 O2). now apply Hone.
  - intros b' Hb'. simpl in Hb'. apply in_map_iff in Hb' as (x & Hx & Hin).
    destruct (Z.eqb_spec (Books.id x) (Loans.book_id l0)) as [Heq|Hne];
      subst b'.
    + simpl. split; [discriminate|]. intros (l & Hl & Hid & Hop).
      destruct (Hstill l Hl Hop) as [Hin' Hnot]. elim Hnot.
      rewrite (Hone l l0 Hin' Hl0 Hop Hopen0); [exact Hid0|congruence].
    + rewrite (Hst x Hin). simpl. split.
      * intros (l & Hl & Hid & Hop). exists l. split; [|auto].
        apply (update_by_key_miss Loans.id);
          [apply set_return_date_id| |exact Hl].
        intros Hk. elim Hne. rewrite <- Hid. f_equal.
        apply (primary_key_inj Loans.id (loans db)); congruence.
      * intros (l & Hl & Hid & Hop).
        destruct (Hstill l Hl Hop) as [Hin' _]. exists l. auto.
Qed.

Lemma consistent_run (calls : list (date * operation)) (db : database) :
  reachable db -> consistent db -> all_offered calls db ->
  consistent (run calls db).
Proof.
  revert db. induction calls as [|[now o] calls IH]; intros db Hr Hc Hoff;
    [exact Hc|].
  destruct Hoff as [Ho Hoff]. simpl. apply IH; [|clear IH|exact Hoff].
  - now apply reachable_step.
  - destruct o as [t a i y g|n e p|k r d|k]; simpl.
    + apply consistent_add_book; [|exact Hc].
      now apply reachable_loans_reference_books.
    + now apply consistent_register_borrower.
    + apply consistent_loan_book; [left; exact Ho|exact Hc].
    + now apply consistent_return_book.
Qed.

(** As long as [return_book] is called on open loans only and
    [loan_book] with borrower ids of 64 bits, which is all that the
    interface of [main] offers, a book is 'loaned' exactly when an open
    loan references it, and no book has two open loans. *)
Lemma offered_runs_keep_status (calls : list (date * operation)) :
  all_offered calls create_tables ->
  status_matches_loans (run calls create_tables)
  /\ one_open_loan_per_book (run calls create_tables).
Proof.
  intros Hoff.
  destruct (consistent_run calls create_tables) as (_ & Hone & Hst); auto.
  - now exists [].
  - split; [constructor|]. split.
    + intros l1 l2 [].
    + intros b [].
Qed.

(** C1, which the code breaks. [return_book] does not look at the return
    date of the loan it is given: when a book is lent, returned, lent
    again, and its first loan is returned once more, the book is set to
    'available' although its second loan is open.  The reachable state
    after [return_twice] has book 1 'available' and the open loan 2
    referencing it, so the lending invariant fails there. *)
Theorem return_twice_breaks_status :
  let db := run return_twice create_tables in
  reachable db
  /\ (exists b l,
         In b (rows (books db)) /\ In l (rows (loans db))
         /\ Books.id b = 1 /\ Loans.id l = 2
         /\ Loans.book_id l = Books.id b /\ open_loan l
         /\ Books.status b = "available"%string)
  /\ ~ status_matches_loans db.
Proof.
  intros db. split; [now exists return_twice|].
  assert (Hex : exists b l,
             In b (rows (books db)) /\ In l (rows (loans db))
             /\ Books.id b = 1 /\ Loans.id l = 2
             /\ Loans.book_id l = Books.id b /\ open_loan l
             /\ Books.status b = "available"%string).
  { eexists. eexists. split; [left; reflexivity|].
    split; [right; left; reflexivity|]. repeat split. }
  split; [exact Hex|].
  destruct Hex as (b & l & Hb & Hl & _ & _ & Hid & Hop & Hst).
  intros Hinv. destruct (Hinv b Hb) as [_ Hloaned].
  rewrite Hst in Hloaned. discriminate Hloaned. exists l. auto.
Qed.

(** ** Referential integrity *)

(** C6, which the code breaks. [loan_book] looks up the book and never
    the borrower, and the declared foreign keys are not enforced: after
    [loan_to_stranger] the loans table holds a loan of borrower 99 while
    the borrowers table is empty. *)
Theorem loan_to_stranger_dangles :
  let db := run loan_to_stranger create_tables in
  reachable db
  /\ rows (borrowers db) = []
  /\ rows (loans db) = [Loans.Row 1 1 99 739001 739015 None]
  /\ loans_reference_books db
  /\ ~ loans_reference_borrowers db.
Proof.
  intros db.
  assert (Hreach : reachable db) by now exists loan_to_stranger.
  split; [exact Hreach|]. split; [reflexivity|]. split; [reflexivity|].
  split; [now apply reachable_loans_reference_books|].
  intros Href. destruct (Href (Loans.Row 1 1 99 739001 739015 None))
    as (r & [] & _).
  left. reflexivity.
Qed.

(** ** The calendar and the text of a date *)

Lemma calendar_ascends_spec (n : nat) (d k : date) :
  calendar_ascends n d (ymd_key (d - 1)) = true ->
  d <= k < d + Z.of_nat n ->
  ymd_key (k - 1) < ymd_key k
  /\ let '(_, month, day) := ord2ymd k in
     1 <= month <= 12 /\ 1 <= day <= 31.
Proof.
  revert d. induction n as [|n IH]; intros d H Hk; [lia|].
  cbn [calendar_ascends] in H.
  assert (Hkey : ymd_key d
                 = fst (fst (ord2ymd d)) * 10000
                   + snd (fst (ord2ymd d)) * 100 + snd (ord2ymd d))
    by (unfold ymd_key; now destruct (ord2ymd d) as [[y m] dd]).
  destruct (ord2ymd d) as [[y m] dd] eqn:Hd. simpl in Hkey.
  cbv zeta in H. rewrite <- Hkey in H.
  destruct (_ && _) eqn:Hok; [|discriminate].
  destruct (Z.eq_dec k d) as [->|Hne].
  - rewrite Hd. repeat (apply andb_true_iff in Hok as [Hok ?]). lia.
  - apply (IH (d + 1)); [|lia].
    now replace (d + 1 - 1) with d by lia.
Qed.

(** The 146097 days of the first 400 years, one by one. *)
Lemma cycle_checked :
  calendar_ascends (Z.to_nat 146097) 1 (ymd_key 0) = true.
Proof. vm_cast_no_check (@eq_refl bool true). Qed.

(** The calendar repeats every 400 years. *)
Lemma ord2ymd_period (d k : Z) :
  ord2ymd (d + 146097 * k)
  = let '(year, month, day) := ord2ymd d in (year + 400 * k, month, day).
Proof.
  unfold ord2ymd.
  replace (d + 146097 * k - 1) with (d - 1 + k * 146097) by lia.
  rewrite Z.div_add, Z.mod_add by lia.
  set (n := (d - 1) mod 146097).
  set (q := (d - 1) / 146097).
  cbv zeta.
  destruct ((n mod 36524 mod 1461 / 365 =? 4) || (n / 36524 =? 4)).
  - f_equal. f_equal. lia.
  - match goal with
    | |- (if ?c then _ else _) = _ => destruct c
    end; f_equal; f_equal; lia.
Qed.

Lemma ymd_key_period (d k : Z) :
  ymd_key (d + 146097 * k) = ymd_key d + 4000000 * k.
Proof.
  unfold ymd_key. rewrite ord2ymd_period.
  destruct (ord2ymd d) as [[y m] dd]. lia.
Qed.

Lemma calendar_day (d : date) :
  ymd_key (d - 1) < ymd_key d
  /\ let '(_, month, day) := ord2ymd d in
     1 <= month <= 12 /\ 1 <= day <= 31.
Proof.
  set (k := (d - 1) / 146097).
  set (d0 := (d - 1) mod 146097 + 1).
  assert (Hd : d = d0 + 146097 * k).
  { unfold d0, k. pose proof (Z.div_mod (d - 1) 146097). lia. }
  assert (H0 := calendar_ascends_spec _ 1 d0 cycle_checked).
  destruct H0 as [Hlt Hrange].
  { unfold d0. pose proof (Z.mod_pos_bound (d - 1) 146097).
    rewrite Z2Nat.id; lia. }
  replace (d - 1) with (d0 - 1 + 146097 * k) by lia.
  rewrite Hd, !ymd_key_period, ord2ymd_period.
  destruct (ord2ymd d0) as [[y m] dd]. split; [lia|exact Hrange].
Qed.

(** A later day has a larger year, or the same year and a larger month,
    or the same month and a larger day. *)
Lemma ymd_key_lt (a b : date) : a < b -> ymd_key a < ymd_key b.
Proof.
  intros Hab. replace b with (a + 1 + Z.of_nat (Z.to_nat (b - a - 1)))
    by (rewrite Z2Nat.id; lia).
  induction (Z.to_nat (b - a - 1)) as [|n IH].
  - pose proof (calendar_day (a + 1)) as [H _].
    replace (a + 1 - 1) with a in H by lia.
    now replace (a + 1 + Z.of_nat 0) with (a + 1) by lia.
  - pose proof (calendar_day (a + 1 + Z.of_nat (S n))) as [H _].
    replace (a + 1 + Z.of_nat (S n) - 1) with (a + 1 + Z.of_nat n) in H
      by lia.
    lia.
Qed.

Lemma ymd_key_compare (a b : date) : (ymd_key a ?= ymd_key b) = (a ?= b).
Proof.
  destruct (Z.compare_spec a b) as [->|H|H].
  - apply Z.compare_refl.
  - apply Z.compare_lt_iff. now apply ymd_key_lt.
  - apply Z.compare_gt_iff. now apply ymd_key_lt.
Qed.

(** The days from 1000-01-01 to 9999-12-31 are those of the years of
    four digits. *)
Lemma four_digit_year_iff (d : date) :
  four_digit_year d <-> 1000 <= year_of d <= 9999.
Proof.
  unfold four_digit_year, MAXORDINAL, year_of.
  pose proof (calendar_day d) as [_ Hrange].
  assert (Hkey : ymd_key d
                 = fst (fst (ord2ymd d)) * 10000
                   + snd (fst (ord2ymd d)) * 100 + snd (ord2ymd d))
    by (unfold ymd_key; now destruct (ord2ymd d) as [[y m] dd]).
  destruct (ord2ymd d) as [[y m] dd]. simpl in *.
  assert (K1 : ymd_key 364877 = 9991231) by reflexivity.
  assert (K2 : ymd_key 364878 = 10000101) by reflexivity.
  assert (K3 : ymd_key 3652059 = 99991231) by reflexivity.
  assert (K4 : ymd_key 3652060 = 100000101) by reflexivity.
  split.
  - intros [Hlo Hhi].
    assert (ymd_key 364878 <= ymd_key d).
    { destruct (Z.eq_dec d 364878) as [->|]; [lia|].
      apply Z.lt_le_incl, ymd_key_lt. lia. }
    assert (ymd_key d <= ymd_key 3652059).
    { destruct (Z.eq_dec d 3652059) as [->|]; [lia|].
      apply Z.lt_le_incl, ymd_key_lt. lia. }
    lia.
  - intros [Hlo Hhi]. split.
    + destruct (Z_lt_le_dec d 364878) as [Hlt|]; [|lia].
      assert (ymd_key d <= ymd_key 364877).
      { destruct (Z.eq_dec d 364877) as [->|]; [lia|].
        apply Z.lt_le_incl, ymd_key_lt. lia. }
      lia.
    + destruct (Z_lt_le_dec 3652059 d) as [Hlt|]; [|lia].
      assert (ymd_key 3652060 <= ymd_key d).
      { destruct (Z.eq_dec d 3652060) as [->|]; [lia|].
        apply Z.lt_le_incl, ymd_key_lt. lia. }
      lia.
Qed.

Lemma strptime_Ymd_some (d due : date) :
  strptime_Ymd d = Some due <-> due = d /\ four_digit_year d.
Proof.
  unfold strptime_Ymd. rewrite four_digit_year_iff.
  destruct (_ && _) eqn:H.
  - apply andb_true_iff in H as [H1 H2]. split.
    + intros [= <-]. lia.
    + intros [-> _]. reflexivity.
  - split; [discriminate|]. intros [_ [H1 H2]].
    apply andb_false_iff in H as [H|H]; lia.
Qed.

Lemma digit_compare (a b : Z) :
  Ascii.compare (digit a) (digit b) = (a mod 10 ?= b mod 10).
Proof.
  unfold Ascii.compare, digit.
  pose proof (Z.mod_pos_bound a 10). pose proof (Z.mod_pos_bound b 10).
  rewrite !N_ascii_embedding by lia.
  rewrite <- N2Z.inj_compare, !N2Z.inj_add, !Z2N.id by lia.
  apply Z.add_compare_mono_l.
Qed.

Lemma two_digits_compare (x y : Z) (r r' : string) :
  String.compare (two_digits x r) (two_digits y r')
  = match x mod 100 ?= y mod 100 with
    | Eq => String.compare r r'
    | c => c
    end.
Proof.
  unfold two_digits. cbn [String.compare]. rewrite !digit_compare.
  destruct (Z.compare_spec (x / 10 mod 10) (y / 10 mod 10));
    destruct (Z.compare_spec (x mod 10) (y mod 10));
    destruct (Z.compare_spec (x mod 100) (y mod 100));
    try reflexivity; exfalso; Z.to_euclidean_division_equations; lia.
Qed.

Lemma year_digits_compare (x y : Z) (r r' : string) :
  1000 <= x <= 9999 -> 1000 <= y <= 9999 ->
  String.compare (year_digits x r) (year_digits y r')
  = match x ?= y with
    | Eq => String.compare r r'
    | c => c
    end.
Proof.
  intros Hx Hy.
  assert (Hfour : forall z s, 1000 <= z ->
             year_digits z s = two_digits (z / 100) (two_digits z s)).
  { intros z s Hz. unfold year_digits.
    rewrite !(proj2 (Z.ltb_ge _ _)) by lia.
    unfold two_digits at 2. do 2 f_equal.
    rewrite Z.div_div by lia. reflexivity. }
  rewrite !Hfour, !two_digits_compare by lia.
  destruct (Z.compare_spec (x / 100 mod 100) (y / 100 mod 100));
    destruct (Z.compare_spec (x mod 100) (y mod 100));
    destruct (Z.compare_spec x y);
    try reflexivity; exfalso; Z.to_euclidean_division_equations; lia.
Qed.

(** Between days of years of four digits, the texts order as the days
    do. *)
Lemma strftime_Ymd_ltb (a b : date) :
  four_digit_year a -> four_digit_year b ->
  text_ltb (strftime_Ymd a) (strftime_Ymd b) = (a <? b).
Proof.
  intros Ha Hb. apply four_digit_year_iff in Ha, Hb.
  unfold text_ltb, Z.ltb. rewrite <- (ymd_key_compare a b).
  unfold strftime_Ymd, ymd_key, year_of in *.
  pose proof (calendar_day a) as [_ Hra].
  pose proof (calendar_day b) as [_ Hrb].
  destruct (ord2ymd a) as [[y m] d], (ord2ymd b) as [[y' m'] d'].
  simpl in Ha, Hb.
  rewrite year_digits_compare by assumption.
  cbn [String.compare]. change (Ascii.compare "-" "-") with Eq.
  cbv iota. rewrite two_digits_compare.
  cbn [String.compare]. change (Ascii.compare "-" "-") with Eq.
  cbv iota. rewrite two_digits_compare.
  cbn [String.compare].
  rewrite !(Z.mod_small m), !(Z.mod_small m'), !(Z.mod_small d),
    !(Z.mod_small d') by lia.
  destruct (Z.compare_spec y y'); destruct (Z.compare_spec m m');
    destruct (Z.compare_spec d d');
    destruct (Z.compare_spec (y * 10000 + m * 100 + d)
                             (y' * 10000 + m' * 100 + d'));
    try reflexivity; exfalso; lia.
Qed.

(** ** [get_overdue_loans] *)

(** A listed id is the id of an open loan, whose due date reads before
    today as a text, and whose book and borrower are both in their
    tables. *)
Lemma listed_inv (now : date) (db : database) (loan_id : Z) :
  listed loan_id (get_overdue_loans now db) ->
  exists l b r,
    In l (rows (loans db)) /\ In b (rows (books db))
    /\ In r (rows (borrowers db))
    /\ Loans.id l = loan_id
    /\ Loans.book_id l = Books.id b
    /\ Loans.borrower_id l = Borrowers.id r
    /\ text_ltb (strftime_Ymd (Loans.due_date l)) (strftime_Ymd now) = true
    /\ open_loan l.
Proof.
  intros (t & n & d & Hin). unfold get_overdue_loans in Hin.
  apply in_flat_map in Hin as (l & Hl & Hin).
  apply in_flat_map in Hin as (b & Hb & Hin).
  apply in_flat_map in Hin as (r & Hr & Hin).
  apply filter_In in Hb as [Hb Hbid], Hr as [Hr Hrid].
  apply Z.eqb_eq in Hbid, Hrid.
  destruct (_ && _) eqn:Hcond; [|destruct Hin].
  destruct Hin as [Heq|[]]. injection Heq as Hid _ _ _.
  apply andb_true_iff in Hcond as [Hdue Hnull].
  exists l, b, r. repeat (split; [assumption|]).
  unfold open_loan. now destruct (Loans.return_date l).
Qed.

Lemma listed_intro (now : date) (db : database) (l : Loans.row)
      (b : Books.row) (r : Borrowers.row) :
  In l (rows (loans db)) -> In b (rows (books db)) ->
  In r (rows (borrowers db)) ->
  Loans.book_id l = Books.id b ->
  Loans.borrower_id l = Borrowers.id r ->
  text_ltb (strftime_Ymd (Loans.due_date l)) (strftime_Ymd now) = true ->
  open_loan l ->
  listed (Loans.id l) (get_overdue_loans now db).
Proof.
  intros Hl Hb Hr Hbid Hrid Hdue Hop.
  exists (Books.title b), (Borrowers.name r), (Loans.due_date l).
  unfold get_overdue_loans.
  apply in_flat_map. exists l. split; [exact Hl|].
  apply in_flat_map. exists b. split.
  { apply filter_In. split; [exact Hb|]. now apply Z.eqb_eq. }
  apply in_flat_map. exists r. split.
  { apply filter_In. split; [exact Hr|]. now apply Z.eqb_eq. }
  rewrite Hdue, Hop. left. reflexivity.
Qed.

(** Where the loan's book and borrower exist and the years have four
    digits, the loan is listed exactly when it is due before today and
    open. *)
Lemma get_overdue_loans_listed (now : date) (db : database) (l : Loans.row) :
  primary_key Loans.id (loans db) ->
  In l (rows (loans db)) ->
  (exists b, In b (rows (books db)) /\ Books.id b = Loans.book_id l) ->
  (exists r, In r (rows (borrowers db))
             /\ Borrowers.id r = Loans.borrower_id l) ->
  four_digit_year (Loans.due_date l) ->
  four_digit_year now ->
  listed (Loans.id l) (get_overdue_loans now db)
  <-> Loans.due_date l < now /\ open_loan l.
Proof.
  intros Hpk Hl (b & Hb & Hbid) (r & Hr & Hrid) Hdue4 Hnow4.
  rewrite <- Z.ltb_lt, <- (strftime_Ymd_ltb _ _ Hdue4 Hnow4). split.
  - intros Hlisted.
    apply listed_inv in Hlisted
      as (l' & _ & _ & Hl' & _ & _ & Hid & _ & _ & Hdue & Hop).
    assert (l' = l)
      by (apply (primary_key_inj Loans.id (loans db)); assumption).
    subst l'. auto.
  - intros [Hdue Hop]. now apply (listed_intro now db l b r).
Qed.

(** A loan that is due today or later is not listed, and neither is a
    returned one, whatever they reference. *)
Lemma get_overdue_loans_not_due (now : date) (db : database) (l : Loans.row) :
  primary_key Loans.id (loans db) ->
  In l (rows (loans db)) ->
  (four_digit_year (Loans.due_date l) /\ four_digit_year now
   /\ now <= Loans.due_date l)
  \/ ~ open_loan l ->
  ~ listed (Loans.id l) (get_overdue_loans now db).
Proof.
  intros Hpk Hl Hnot Hlisted.
  apply listed_inv in Hlisted
    as (l' & _ & _ & Hl' & _ & _ & Hid & _ & _ & Hdue & Hop).
  assert (l' = l)
    by (apply (primary_key_inj Loans.id (loans db)); assumption).
  subst l'. destruct Hnot as [(H1 & H2 & Hle)|Hclosed]; [|contradiction].
  rewrite strftime_Ymd_ltb in Hdue by assumption.
  apply Z.ltb_lt in Hdue. lia.
Qed.


(** C5, which the code breaks. The list is read through inner joins
    with books and borrowers, so a loan whose borrower does not exist
    is never listed: after [loan_to_stranger], loan 1 is open and was
    due on day 739015, and the list of day 739030 is empty. *)
Theorem overdue_loan_of_stranger_not_listed :
  let db := run loan_to_stranger create_tables in
  exists l,
    In l (rows (loans db))
    /\ Loans.id l = 1
    /\ Loans.due_date l < 739030
    /\ open_loan l
    /\ get_overdue_loans 739030 db = []
    /\ ~ listed (Loans.id l) (get_overdue_loans 739030 db).
Proof.
  intros db. exists (Loans.Row 1 1 99 739001 739015 None).
  split; [left; reflexivity|]. split; [reflexivity|].
  split; [reflexivity|]. split; [reflexivity|]. split; [reflexivity|].
  intros (t & n & d & []).
Qed.

(** ** The page Overdue Loans *)

Lemma get_overdue_loans_in (now : date) (db : database) (row : overdue_row) :
  In row (get_overdue_loans now db) ->
  exists l b r,
    In l (rows (loans db)) /\ In b (rows (books db))
    /\ In r (rows (borrowers db))
    /\ Loans.book_id l = Books.id b
    /\ Loans.borrower_id l = Borrowers.id r
    /\ text_ltb (strftime_Ymd (Loans.due_date l)) (strftime_Ymd now) = true
    /\ open_loan l
    /\ row = (Loans.id l, Books.title b, Borrowers.name r,
              Loans.due_date l).
Proof.
  intros Hin. unfold get_overdue_loans in Hin.
  apply in_flat_map in Hin as (l & Hl & Hin).
  apply in_flat_map in Hin as (b & Hb & Hin).
  apply in_flat_map in Hin as (r & Hr & Hin).
  apply filter_In in Hb as [Hb Hbid], Hr as [Hr Hrid].
  apply Z.eqb_eq in Hbid, Hrid.
  destruct (_ && _) eqn:Hcond; [|destruct Hin].
  destruct Hin as [<-|[]].
  apply andb_true_iff in Hcond as [Hdue Hnull].
  exists l, b, r. repeat (split; [assumption|]).
  split; [|reflexivity]. unfold open_loan. now destruct (Loans.return_date l).
Qed.

(** A card stands for a row of the list whose due date [strptime]
    reads. *)
Lemma overdue_cards_in (now : date) (overdue_loans : list overdue_row)
      (title name : text) (due_date days_overdue : Z) :
  In (overdue_card title name due_date days_overdue)
     (overdue_cards now overdue_loans) ->
  days_overdue = now - due_date
  /\ four_digit_year due_date
  /\ exists loan_id, In (loan_id, title, name, due_date) overdue_loans.
Proof.
  induction overdue_loans as [|[[[i t] n] d] rest IH]; simpl; [tauto|].
  destruct (strptime_Ymd d) as [due|] eqn:Hparse.
  - apply strptime_Ymd_some in Hparse as [-> H4].
    intros [[= <- <- <- <-]|Hin].
    + split; [reflexivity|]. split; [exact H4|]. exists i. now left.
    + destruct (IH Hin) as (H1 & H2 & j & Hj).
      split; [exact H1|]. split; [exact H2|]. exists j. now right.
  - intros [H|[]]. discriminate.
Qed.

Lemma overdue_cards_no_info (now : date) (overdue_loans : list overdue_row)
      (body : string) :
  ~ In (info_msg body) (overdue_cards now overdue_loans).
Proof.
  induction overdue_loans as [|[[[i t] n] d] rest IH]; simpl; [tauto|].
  destruct (strptime_Ymd d); intros [H|H]; try discriminate; auto.
Qed.

(** X21. On a day of a year of four digits, as the clock shows it,
    every card of the Overdue Loans page stands for an open loan with
    its book and its borrower, and the number of days it shows is the
    distance from the due date to today, which is at least one; the
    page shows its no-overdue message exactly when the list is empty. *)
Theorem overdue_loans_view_cards (now : date) (db : database) :
  four_digit_year now ->
  (forall title name due_date days_overdue,
      In (overdue_card title name due_date days_overdue)
         (shown (overdue_loans_view now db)) ->
      days_overdue = now - due_date /\ 1 <= days_overdue
      /\ exists l b r,
          In l (rows (loans db)) /\ In b (rows (books db))
          /\ In r (rows (borrowers db))
          /\ Loans.book_id l = Books.id b
          /\ Loans.borrower_id l = Borrowers.id r
          /\ open_loan l /\ Loans.due_date l = due_date
          /\ Books.title b = title /\ Borrowers.name r = name)
  /\ (In (info_msg "No overdue loans found.")
         (shown (overdue_loans_view now db))
      <-> get_overdue_loans now db = [])
  /\ stored (overdue_loans_view now db) = db.
Proof.
  intros Hnow. unfold overdue_loans_view.
  destruct (get_overdue_loans now db) as [|row0 rest] eqn:Hlist.
  - split; [|split; [|reflexivity]].
    + intros t n d k [H|[]]. discriminate.
    + split; [reflexivity|]. intros _. now left.
  - split; [|split; [|reflexivity]].
    + intros t n d k Hin. cbn [shown] in Hin.
      apply overdue_cards_in in Hin as (Hdays & H4 & i & Hrow).
      rewrite <- Hlist in Hrow. apply get_overdue_loans_in in Hrow
        as (l & b & r & Hl & Hb & Hr & Hbid & Hrid & Hdue & Hop
            & [= -> -> -> ->]).
      rewrite strftime_Ymd_ltb in Hdue by assumption.
      apply Z.ltb_lt in Hdue.
      split; [exact Hdays|]. split; [lia|]. exists l, b, r. auto 12.
    + split; [|discriminate]. cbn [shown]. intros Hin.
      now apply overdue_cards_no_info in Hin.
Qed.

(** ** What the inserts accept *)

Lemma violates_unique_iff {R : Type} (col : R -> text) (v : text)
      (rs : list R) :
  violates_unique col v rs = true
  <-> exists r i, In r rs /\ v = Some i /\ col r = Some i.
Proof.
  unfold violates_unique. rewrite existsb_exists. split.
  - intros (r & Hin & Heq). destruct (col r) as [x|] eqn:Hcol; [|discriminate].
    destruct v as [i|]; [|discriminate]. simpl in Heq.
    apply String.eqb_eq in Heq. subst x. exists r, i. auto.
  - intros (r & i & Hin & -> & Hcol). exists r. split; [exact Hin|].
    rewrite Hcol. simpl. apply String.eqb_refl.
Qed.

Lemma is_null_false_iff {A : Type} (v : option A) :
  is_null v = false <-> v <> None.
Proof. destruct v; simpl; split; congruence. Qed.
(** X1. A year that is absent or fits 64 bits binds, and [add_book]
    then returns True exactly when a title and an author are given and
    no stored book has the given ISBN; an absent ISBN never clashes.  It
    then appends one row with a fresh id, the given fields, today as
    date added and status 'available', and touches nothing else.  Every
    failure, a missing title or author included, prints the
    duplicate-ISBN message and leaves the database as it was.  A year
    outside 64 bits raises [OverflowError]: nothing is returned, printed
    or stored. *)
Theorem add_book_succeeds_iff
        (now : date) (title author isbn : text)
        (publication_year : option Z) (genre : text) (db : database) :
  let o := add_book now title author isbn publication_year genre db in
  (binds publication_year = false ->
   raised o = Some "OverflowError"%string /\ returned o = false
   /\ printed o = [] /\ db_after o = db)
  /\ (binds publication_year = true ->
      raised o = None
      /\ (returned o = true
          <-> title <> None /\ author <> None
              /\ forall i b, isbn = Some i -> In b (rows (books db)) ->
                             Books.isbn b <> Some i)
      /\ (returned o = true ->
          printed o = []
          /\ (exists rowid,
                 (forall b, In b (rows (books db)) -> Books.id b < rowid)
                 /\ rows (books (db_after o))
                    = rows (books db)
                        ++ [Books.Row rowid title author isbn
                              publication_year genre now "available"])
          /\ borrowers (db_after o) = borrowers db
          /\ loans (db_after o) = loans db)
      /\ (returned o = false ->
          printed o = DuplicateISBN isbn /\ db_after o = db)).
Proof.
  intros o. subst o. unfold add_book, insert_book.
  destruct (binds publication_year); simpl;
    (split; [try discriminate; auto|try discriminate]).
  intros _.
  destruct (is_null title || is_null author
            || violates_unique Books.isbn isbn (rows (books db)))
    eqn:Hcheck; simpl; (split; [reflexivity|]).
  - split; [|split; [discriminate|auto]].
    split; [discriminate|]. intros (Ht & Ha & Hi). exfalso.
    apply orb_true_iff in Hcheck as [Hnull|Hdup].
    + apply orb_true_iff in Hnull as [Hn|Hn];
        [destruct title|destruct author]; simpl in Hn; congruence.
    + apply violates_unique_iff in Hdup as (b & i & Hin & Heq & Hcol).
      exact (Hi i b Heq Hin Hcol).
  - apply orb_false_iff in Hcheck as [Hnull Hdup].
    apply orb_false_iff in Hnull as [Ht Ha].
    apply is_null_false_iff in Ht, Ha.
    split; [|split; [|discriminate]].
    + split; [|reflexivity]. intros _. split; [exact Ht|].
      split; [exact Ha|]. intros i b Heq Hin Hcol.
      assert (violates_unique Books.isbn isbn (rows (books db)) = true)
        by (apply violates_unique_iff; exists b, i; auto).
      congruence.
    + intros _. split; [reflexivity|]. split; [|auto].
      exists (next_rowid Books.id (books db)). split; [|reflexivity].
      intros b Hb. now apply next_rowid_fresh.
Qed.

Lemma add_book_succeeds_iff_witness :
  returned (add_book 739000 (Some "Dune") (Some "Herbert") None (Some 1965)
              None create_tables)%string = true
  /\ printed (add_book 739000 None (Some "Herbert") None None None
                create_tables)%string
     = ["Error: Book with ISBN None already exists."%string]
  /\ raised (add_book 739000 (Some "Dune") (Some "Herbert") None
               (Some (2 ^ 63)) None create_tables)%string
     = Some "OverflowError"%string.
Proof.
  split; [|split].
  - apply (proj1 (proj2 (proj2 (add_book_succeeds_iff 739000
                                  (Some "Dune"%string)
                                  (Some "Herbert"%string) None (Some 1965)
                                  None create_tables)
                           eq_refl))).
    split; [discriminate|]. split; [discriminate|]. intros i b Hi [].
  - apply (proj2 (proj2 (proj2 (proj2 (add_book_succeeds_iff 739000 None
                                         (Some "Herbert"%string) None None
                                         None create_tables)
                                  eq_refl)))).
    reflexivity.
  - apply (proj1 (add_book_succeeds_iff 739000 (Some "Dune"%string)
                    (Some "Herbert"%string) None (Some (2 ^ 63)) None
                    create_tables)).
    reflexivity.
Defined.

(** X2. [register_borrower] returns True exactly when a name is given
    and no registered borrower has the given email; an absent email
    never clashes.  It then appends one row with a fresh id, the given
    fields and today as registration date, and touches nothing else.
    Every failure, a missing name included, prints the duplicate-email
    message and leaves the database as it was. *)
Theorem register_borrower_succeeds_iff
        (now : date) (name email phone : text) (db : database) :
  let o := register_borrower now name email phone db in
  (returned o = true
   <-> name <> None
       /\ forall e r, email = Some e -> In r (rows (borrowers db)) ->
                      Borrowers.email r <> Some e)
  /\ (returned o = true ->
      printed o = []
      /\ (exists rowid,
             (forall r, In r (rows (borrowers db)) -> Borrowers.id r < rowid)
             /\ rows (borrowers (db_after o))
                = rows (borrowers db)
                    ++ [Borrowers.Row rowid name email phone now])
      /\ books (db_after o) = books db
      /\ loans (db_after o) = loans db)
  /\ (returned o = false ->
      printed o = DuplicateEmail email /\ db_after o = db).
Proof.
  intros o. subst o. unfold register_borrower, insert_borrower.
  destruct (is_null name
            || violates_unique Borrowers.email email (rows (borrowers db)))
    eqn:Hcheck; simpl.
  - split; [|split; [discriminate|auto]].
    split; [discriminate|]. intros (Hn & He). exfalso.
    apply orb_true_iff in Hcheck as [Hnull|Hdup].
    + destruct name; simpl in Hnull; congruence.
    + apply violates_unique_iff in Hdup as (r & e & Hin & Heq & Hcol).
      exact (He e r Heq Hin Hcol).
  - apply orb_false_iff in Hcheck as [Hn Hdup].
    apply is_null_false_iff in Hn.
    split; [|split; [|discriminate]].
    + split; [|reflexivity]. intros _. split; [exact Hn|].
      intros e r Heq Hin Hcol.
      assert (violates_unique Borrowers.email email (rows (borrowers db))
              = true)
        by (apply violates_unique_iff; exists r, e; auto).
      congruence.
    + intros _. split; [reflexivity|]. split; [|auto].
      exists (next_rowid Borrowers.id (borrowers db)).
      split; [|reflexivity].
      intros r Hr. now apply next_rowid_fresh.
Qed.

Lemma register_borrower_succeeds_iff_witness :
  returned (register_borrower 739000 (Some "Ana") (Some "ana@x.com") None
              create_tables)%string = true
  /\ printed (register_borrower 739000 None (Some "ana@x.com") None
                create_tables)%string
     = ["Error: Borrower with email ana@x.com already exists."%string].
Proof.
  split.
  - apply (proj1 (register_borrower_succeeds_iff 739000 (Some "Ana"%string)
                    (Some "ana@x.com"%string) None create_tables)).
    split; [discriminate|]. intros e r He [].
  - apply (proj2 (proj2 (register_borrower_succeeds_iff 739000 None
                           (Some "ana@x.com"%string) None create_tables))).
    reflexivity.
Defined.

(** ** Rowids and unique columns in reachable states *)

Lemma max_rowid_nonneg (ids : list Z) : 0 <= max_rowid ids.
Proof. induction ids as [|x ids IH]; simpl; lia. Qed.

Lemma StronglySorted_snoc (ids : list Z) (x : Z) :
  StronglySorted Z.lt ids -> (forall y, In y ids -> y < x) ->
  StronglySorted Z.lt (ids ++ [x]).
Proof.
  induction ids as [|y ids IH]; intros Hs Hlt; simpl.
  - repeat constructor.
  - inversion Hs as [|? ? Hs' Hall]; subst. constructor.
    + apply IH; [exact Hs'|]. intros z Hz. apply Hlt. now right.
    + apply Forall_app. split; [exact Hall|].
      constructor; [|constructor]. apply Hlt. now left.
Qed.

Lemma ascending_insert {R : Type} (key : R -> Z) (mk : Z -> R)
      (t : table R) :
  (forall rowid, key (mk rowid) = rowid) ->
  ascending_rowids key t -> ascending_rowids key (insert key mk t).
Proof.
  intros Hmk [Hs Hpos]. unfold ascending_rowids.
  rewrite rows_insert, map_app. simpl. rewrite Hmk. split.
  - apply StronglySorted_snoc; [exact Hs|].
    intros y Hy. apply in_map_iff in Hy as (r & <- & Hr).
    now apply next_rowid_fresh.
  - apply Forall_app. split; [exact Hpos|]. constructor; [|constructor].
    unfold next_rowid.
    pose proof (max_rowid_nonneg (map key (rows t))). lia.
Qed.

Lemma ascending_update {R : Type} (key : R -> Z) (cond : R -> bool)
      (set : R -> R) (t : table R) :
  (forall r, key (set r) = key r) ->
  ascending_rowids key t -> ascending_rowids key (update cond set t).
Proof.
  intros Hset H. unfold ascending_rowids. now rewrite map_key_update.
Qed.

(** X3. In every state that the store can reach, the ids of each table
    start at 1 or above and grow strictly from each row to the next: no
    id is handed out twice, and a later record has a larger id. *)
Theorem reachable_ascending_rowids (db : database) :
  reachable db ->
  ascending_rowids Books.id (books db)
  /\ ascending_rowids Borrowers.id (borrowers db)
  /\ ascending_rowids Loans.id (loans db).
Proof.
  intros Hreach. pattern db. revert db Hreach. apply reachable_ind.
  - repeat split; constructor.
  - intros now o db (Hb & Hr & Hl). destruct o as [t a i y g|n e p|b r d|l];
      simpl.
    + destruct (add_book_after now t a i y g db) as [->| ->]; auto.
      simpl. split; [|auto]. now apply ascending_insert.
    + destruct (register_borrower_after now n e p db) as [->| ->]; auto.
      simpl. split; [auto|]. split; [|auto]. now apply ascending_insert.
    + destruct (loan_book_after now b r d db)
        as [->|[[_ ->]|(_ & _ & ->)]]; auto;
        simpl; (split; [|split; [auto|]]); auto;
        try (now apply ascending_update); now apply ascending_insert.
    + destruct (return_book_after now l db) as [->|(l0 & _ & _ & ->)]; auto.
      simpl. split; [|split; [auto|]]; now apply ascending_update.
Qed.

Lemma reachable_ascending_rowids_witness :
  ascending_rowids Loans.id (loans (run return_twice create_tables)).
Proof.
  refine (proj2 (proj2 (reachable_ascending_rowids
                          (run return_twice create_tables) _))).
  exists return_twice. reflexivity.
Defined.

Lemma unique_column_insert {R : Type} (key : R -> Z) (col : R -> text)
      (mk : Z -> R) (v : text) (t : table R) :
  (forall rowid, col (mk rowid) = v) ->
  violates_unique col v (rows t) = false ->
  unique_column col t -> unique_column col (insert key mk t).
Proof.
  intros Hmk Hfree Huniq r1 r2 H1 H2 Hnn Heq.
  assert (Hclash : forall r, In r (rows t) -> col r <> None -> col r <> v).
  { intros r Hr Hn Hv. destruct (col r) as [i|] eqn:Hcol; [|congruence].
    assert (violates_unique col v (rows t) = true)
      by (apply violates_unique_iff; exists r, i; auto).
    congruence. }
  rewrite rows_insert in H1, H2.
  apply in_app_or in H1 as [H1|[<-|[]]];
    apply in_app_or in H2 as [H2|[<-|[]]].
  - now apply Huniq.
  - rewrite Hmk in Heq. elim (Hclash r1 H1 Hnn Heq).
  - rewrite Hmk in Heq, Hnn. elim (Hclash r2 H2); congruence.
  - reflexivity.
Qed.

Lemma unique_column_update {R : Type} (col : R -> text) (cond : R -> bool)
      (set : R -> R) (t : table R) :
  (forall r, col (set r) = col r) ->
  unique_column col t -> unique_column col (update cond set t).
Proof.
  intros Hset Huniq r1 r2 H1 H2 Hnn Heq. rewrite rows_update in H1, H2.
  apply in_map_iff in H1 as (x1 & <- & H1), H2 as (x2 & <- & H2).
  assert (Hcol : forall x, col (if cond x then set x else x) = col x)
    by (intros x; destruct (cond x); auto).
  rewrite !Hcol in *. now rewrite (Huniq x1 x2 H1 H2 Hnn Heq).
Qed.

Lemma add_book_after_checked now t a i y g db :
  db_after (add_book now t a i y g db) = db
  \/ violates_unique Books.isbn i (rows (books db)) = false
     /\ db_after (add_book now t a i y g db)
        = Database
            (insert Books.id
               (fun rowid => Books.Row rowid t a i y g now "available")
               (books db))
            (borrowers db) (loans db).
Proof.
  unfold add_book, insert_book.
  destruct (binds y); simpl; auto.
  destruct (violates_unique Books.isbn i (rows (books db)));
    rewrite ?orb_true_r, ?orb_false_r; simpl; auto.
  destruct (_ || _); simpl; auto.
Qed.

Lemma register_borrower_after_checked now n e p db :
  db_after (register_borrower now n e p db) = db
  \/ violates_unique Borrowers.email e (rows (borrowers db)) = false
     /\ db_after (register_borrower now n e p db)
        = Database
            (books db)
            (insert Borrowers.id
               (fun rowid => Borrowers.Row rowid n e p now) (borrowers db))
            (loans db).
Proof.
  unfold register_borrower, insert_borrower.
  destruct (violates_unique Borrowers.email e (rows (borrowers db)));
    rewrite ?orb_true_r, ?orb_false_r; simpl; auto.
  destruct (is_null n); simpl; auto.
Qed.

Lemma unique_columns_kept (db : database) :
  reachable db ->
  unique_column Books.isbn (books db)
  /\ unique_column Borrowers.email (borrowers db).
Proof.
  intros Hreach. pattern db. revert db Hreach. apply reachable_ind.
  - split; intros r1 r2 [].
  - intros now o db (Hb & Hr). destruct o as [t a i y g|n e p|b r d|l];
      simpl.
    + destruct (add_book_after_checked now t a i y g db) as [->|[Hfree ->]];
        auto.
      simpl. split; [|exact Hr].
      now apply (unique_column_insert Books.id Books.isbn _ i).
    + destruct (register_borrower_after_checked now n e p db)
        as [->|[Hfree ->]]; auto.
      simpl. split; [exact Hb|].
      now apply (unique_column_insert Borrowers.id Borrowers.email _ e).
    + destruct (loan_book_after now b r d db)
        as [->|[[_ ->]|(_ & _ & ->)]]; auto;
        simpl; (split; [|exact Hr]); now apply unique_column_update.
    + destruct (return_book_after now l db) as [->|(l0 & _ & _ & ->)]; auto.
      simpl. split; [|exact Hr]. now apply unique_column_update.
Qed.

(** X4. In every state that the store can reach, no two books share an
    ISBN and no two borrowers share an email, absent values apart:
    neither a later loan nor a return disturbs what the inserts
    checked. *)
Theorem reachable_unique_columns (db : database) :
  reachable db ->
  unique_column Books.isbn (books db)
  /\ unique_column Borrowers.email (borrowers db).
Proof. exact (unique_columns_kept db). Qed.

Lemma reachable_unique_columns_witness :
  let db := run two_of_each create_tables in
  (book_count db = 2 /\ borrower_count db = 2)
  /\ unique_column Books.isbn (books db)
  /\ unique_column Borrowers.email (borrowers db).
Proof.
  intros db. split; [split; reflexivity|].
  apply (reachable_unique_columns db). exists two_of_each. reflexivity.
Defined.

(** ** Nothing is deleted *)

Lemma same_book_refl (b : Books.row) : same_book b b.
Proof. now destruct b. Qed.

Lemma same_book_trans (b1 b2 b3 : Books.row) :
  same_book b1 b2 -> same_book b2 b3 -> same_book b1 b3.
Proof.
  unfold same_book. destruct b1, b2, b3. unfold Books.set_status. simpl.
  intros H12 H23. congruence.
Qed.

Lemma same_loan_refl (l : Loans.row) : same_loan l l.
Proof. now left. Qed.

Lemma same_loan_trans (l1 l2 l3 : Loans.row) :
  same_loan l1 l2 -> same_loan l2 l3 -> same_loan l1 l3.
Proof.
  intros [->|[d ->]] [->|[d' ->]]; unfold same_loan; eauto.
  right. exists d'. reflexivity.
Qed.

Lemma keeps_refl (db : database) : keeps db db.
Proof.
  repeat split; auto; try lia.
  - intros b Hb. exists b. split; [exact Hb|apply same_book_refl].
  - intros l Hl. exists l. split; [exact Hl|apply same_loan_refl].
Qed.

Lemma keeps_trans (db1 db2 db3 : database) :
  keeps db1 db2 -> keeps db2 db3 -> keeps db1 db3.
Proof.
  intros (Hr & Hb & Hl & Hc1 & Hc2 & Hc3) (Hr' & Hb' & Hl' & Hc1' & Hc2' & Hc3').
  repeat split; auto; try lia.
  - intros b Hin. destruct (Hb b Hin) as (b2 & Hin2 & H12).
    destruct (Hb' b2 Hin2) as (b3 & Hin3 & H23).
    exists b3. split; [exact Hin3|]. exact (same_book_trans _ _ _ H12 H23).
  - intros l Hin. destruct (Hl l Hin) as (l2 & Hin2 & H12).
    destruct (Hl' l2 Hin2) as (l3 & Hin3 & H23).
    exists l3. split; [exact Hin3|]. exact (same_loan_trans _ _ _ H12 H23).
Qed.

Lemma length_rows_insert {R : Type} (key : R -> Z) (mk : Z -> R)
      (t : table R) :
  List.length (rows (insert key mk t)) = S (List.length (rows t)).
Proof. rewrite rows_insert, length_app. simpl. lia. Qed.

Lemma length_rows_update {R : Type} (cond : R -> bool) (set : R -> R)
      (t : table R) :
  List.length (rows (update cond set t)) = List.length (rows t).
Proof. rewrite rows_update. apply length_map. Qed.

Lemma in_rows_insert {R : Type} (key : R -> Z) (mk : Z -> R) (t : table R)
      (r : R) :
  In r (rows t) -> In r (rows (insert key mk t)).
Proof. intros Hin. rewrite rows_insert. apply in_or_app. now left. Qed.

Lemma in_rows_update {R : Type} (cond : R -> bool) (set : R -> R)
      (t : table R) (r : R) :
  In r (rows t) ->
  In (if cond r then set r else r) (rows (update cond set t)).
Proof.
  intros Hin. rewrite rows_update. apply in_map_iff. exists r. auto.
Qed.

Lemma keeps_perform (now : date) (o : operation) (db : database) :
  keeps db (db_after (perform now o db)).
Proof.
  destruct o as [t a i y g|n e p|k r d|k]; simpl.
  - destruct (add_book_after now t a i y g db) as [->| ->];
      [apply keeps_refl|].
    unfold keeps, book_count, borrower_count. simpl books. simpl borrowers.
    simpl loans. rewrite length_rows_insert.
    repeat split; auto; try lia.
    + intros b Hb. exists b.
      split; [now apply in_rows_insert|apply same_book_refl].
    + intros l Hl. exists l. split; [exact Hl|apply same_loan_refl].
  - destruct (register_borrower_after now n e p db) as [->| ->];
      [apply keeps_refl|].
    unfold keeps, book_count, borrower_count. simpl books. simpl borrowers.
    simpl loans. rewrite length_rows_insert.
    repeat split; auto; try lia.
    + intros r Hr. now apply in_rows_insert.
    + intros b Hb. exists b. split; [exact Hb|apply same_book_refl].
    + intros l Hl. exists l. split; [exact Hl|apply same_loan_refl].
  - destruct (loan_book_after now k r d db)
      as [->|[[_ ->]|(_ & _ & ->)]]; [apply keeps_refl| |].
    + unfold keeps, book_count, borrower_count. simpl books.
      simpl borrowers. simpl loans.
      rewrite length_rows_insert, length_rows_update.
      repeat split; auto; try lia.
      * intros b Hb. eexists. split; [apply in_rows_update, Hb|].
        destruct (Books.id b =? k); now destruct b.
      * intros l Hl. exists l.
        split; [now apply in_rows_insert|apply same_loan_refl].
    + unfold keeps, book_count, borrower_count. simpl books.
      simpl borrowers. simpl loans. rewrite length_rows_update.
      repeat split; auto; try lia.
      * intros b Hb. eexists. split; [apply in_rows_update, Hb|].
        destruct (Books.id b =? k); now destruct b.
      * intros l Hl. exists l. split; [exact Hl|apply same_loan_refl].
  - destruct (return_book_after now k db) as [->|(l0 & _ & _ & ->)];
      [apply keeps_refl|].
    unfold keeps, book_count, borrower_count. simpl books. simpl borrowers.
    simpl loans. rewrite !length_rows_update.
    repeat split; auto; try lia.
    + intros b Hb. eexists. split; [apply in_rows_update, Hb|].
      destruct (Books.id b =? Loans.book_id l0); now destruct b.
    + intros l Hl. eexists. split; [apply in_rows_update, Hl|].
      destruct (Loans.id l =? k); [right; eauto|now left].
Qed.

(** X5. No sequence of store calls deletes or rewrites a record: every
    borrower stays as registered, every book stays with its id, title,
    author, ISBN, year, genre and date added (its status alone may
    change), every loan stays with its id, book, borrower, loan date and
    due date (a return date may be stamped on it, never removed), and
    no table shrinks. *)
Theorem run_keeps (calls : list (date * operation)) (db : database) :
  keeps db (run calls db).
Proof.
  revert db. induction calls as [|[now o] calls IH]; intros db; simpl.
  - apply keeps_refl.
  - apply (keeps_trans _ (db_after (perform now o db))).
    + apply keeps_perform.
    + apply IH.
Qed.

(** ** Lending twice, lending and returning *)

Lemma find_update_by_key {R : Type} (key : R -> Z) (cond : R -> bool)
      (set : R -> R) (k : Z) (t : table R) :
  (forall r, key (set r) = key r) ->
  find (fun r => key r =? k) (rows (update cond set t))
  = option_map (fun r => if cond r then set r else r)
               (find (fun r => key r =? k) (rows t)).
Proof.
  intros Hset. rewrite rows_update.
  induction (rows t) as [|x xs IH]; simpl; [reflexivity|].
  assert (Hk : key (if cond x then set x else x) = key x)
    by (destruct (cond x); auto).
  rewrite Hk. destruct (key x =? k); [reflexivity|exact IH].
Qed.

(** What a successful [loan_book] has found and done. *)
Lemma loan_book_returned now book_id borrower_id days db :
  returned (loan_book now book_id borrower_id days db) = true ->
  (exists b, find (fun b => Books.id b =? book_id) (rows (books db)) = Some b
             /\ Books.status b = "available"%string)
  /\ fits_int64 book_id = true
  /\ fits_int64 borrower_id = true
  /\ datetime_add now days = Some (now + days)
  /\ raised (loan_book now book_id borrower_id days db) = None
  /\ db_after (loan_book now book_id borrower_id days db)
     = Database
         (update (fun b => Books.id b =? book_id)
                 (Books.set_status "loaned") (books db))
         (borrowers db)
         (insert Loans.id
            (fun rowid => Loans.Row rowid book_id borrower_id now
                            (now + days) None)
            (loans db)).
Proof.
  intros Hok.
  destruct (loan_book_cases now book_id borrower_id days db)
    as [[_ H]|[(_ & H & _)|(Hr & _ & Hb & Hbr & Hav & Hdue & Hdb)]];
    [congruence|congruence|].
  split; [|auto]. unfold select_status in Hav.
  destruct (find _ (rows (books db))) as [b|]; [|discriminate].
  exists b. split; [reflexivity|].
  now apply negb_false_iff, String.eqb_eq in Hav.
Qed.

(** X6. Once [loan_book] has lent a book, a second [loan_book] on the
    same book, for whatever borrower, period and day, fails with the
    book-unavailable message and changes nothing. *)
Theorem loan_book_twice
        (now now' : date) (book_id borrower_id borrower_id' : Z)
        (loan_period_days loan_period_days' : Z) (db : database) :
  returned (loan_book now book_id borrower_id loan_period_days db) = true ->
  let db1 := db_after (loan_book now book_id borrower_id
                                 loan_period_days db) in
  returned (loan_book now' book_id borrower_id' loan_period_days' db1)
  = false
  /\ printed (loan_book now' book_id borrower_id' loan_period_days' db1)
     = BookUnavailable
  /\ db_after (loan_book now' book_id borrower_id' loan_period_days' db1)
     = db1.
Proof.
  intros Hok db1. subst db1.
  destruct (loan_book_returned _ _ _ _ _ Hok)
    as ((b & Hfind & Hst) & Hfit & _ & _ & _ & ->).
  assert (Hna : forall db', books db'
                            = update (fun b => Books.id b =? book_id)
                                     (Books.set_status "loaned") (books db) ->
                            not_available (select_status book_id db') = true).
  { intros db' Hbooks. unfold select_status. rewrite Hbooks.
    rewrite (find_update_by_key Books.id) by apply set_status_id.
    rewrite Hfind. apply find_some in Hfind as [_ Hid]. simpl.
    rewrite Hid. reflexivity. }
  unfold loan_book. rewrite Hfit, Hna by reflexivity. simpl. auto.
Qed.

Lemma loan_book_twice_witness :
  let db := db_after (add_book 739000 (Some "Dune") (Some "Herbert")
                        None None None create_tables)%string in
  returned (loan_book 739002 1 8 30 (db_after (loan_book 739001 1 7 14 db)))
  = false.
Proof.
  intros db.
  exact (proj1 (loan_book_twice 739001 739002 1 7 8 14 30 db eq_refl)).
Defined.

Lemma update_skips_others {R : Type} (key : R -> Z) (set : R -> R) (k : Z)
      (rs : list R) :
  (forall r, In r rs -> key r <> k) ->
  map (fun r => if key r =? k then set r else r) rs = rs.
Proof.
  intros Hne. induction rs as [|x xs IH]; simpl; [reflexivity|].
  rewrite IH by (intros r Hr; apply Hne; now right).
  destruct (Z.eqb_spec (key x) k) as [Heq|_]; [|reflexivity].
  elim (Hne x); [now left|exact Heq].
Qed.

Lemma find_app_none {A : Type} (f : A -> bool) (l1 l2 : list A) :
  find f l1 = None -> find f (l1 ++ l2) = find f l2.
Proof.
  induction l1 as [|x l1 IH]; simpl; [reflexivity|].
  destruct (f x); [discriminate|exact IH].
Qed.
Lemma return_book_found now loan_id db book_id :
  fits_int64 loan_id = true ->
  select_book_id loan_id db = Some book_id ->
  return_book now loan_id db
  = Outcome true []
      (Database
         (update (fun b => Books.id b =? book_id)
                 (Books.set_status "available") (books db))
         (borrowers db)
         (update (fun l => Loans.id l =? loan_id)
                 (Loans.set_return_date now) (loans db)))
      None.
Proof. intros Hfit Hsel. unfold return_book. now rewrite Hfit, Hsel. Qed.

(** X7. Lending an available book, with ids of 64 bits and a due date
    that [datetime] holds, and then returning the new loan, on whatever
    day, puts the books table back exactly as it was and leaves the
    borrowers alone; of the two calls there remains one more loan row,
    with the day of the loan, the due date and the day of the return.
    The return needs the id of the new loan to fit 64 bits as well. *)
Theorem loan_then_return
        (now now' : date) (borrower_id loan_period_days : Z)
        (db : database) (b : Books.row) :
  primary_key Books.id (books db) ->
  In b (rows (books db)) ->
  Books.status b = "available"%string ->
  fits_int64 (Books.id b) = true ->
  fits_int64 borrower_id = true ->
  datetime_add now loan_period_days <> None ->
  let db1 := db_after (loan_book now (Books.id b) borrower_id
                                 loan_period_days db) in
  exists loan_id,
    rows (loans db1)
    = rows (loans db)
        ++ [Loans.Row loan_id (Books.id b) borrower_id now
              (now + loan_period_days) None]
    /\ (fits_int64 loan_id = true ->
        returned (return_book now' loan_id db1) = true
        /\ books (db_after (return_book now' loan_id db1)) = books db
        /\ borrowers (db_after (return_book now' loan_id db1))
           = borrowers db
        /\ rows (loans (db_after (return_book now' loan_id db1)))
           = rows (loans db)
               ++ [Loans.Row loan_id (Books.id b) borrower_id now
                     (now + loan_period_days) (Some now')]).
Proof.
  intros Hpk Hin Hst Hfit Hfit' Hdue db1. subst db1.
  assert (Hok : returned (loan_book now (Books.id b) borrower_id
                                    loan_period_days db) = true).
  { unfold loan_book. rewrite Hfit, Hfit'.
    rewrite (select_status_found db b Hpk Hin), Hst. simpl.
    now destruct (datetime_add now loan_period_days). }
  destruct (loan_book_returned _ _ _ _ _ Hok) as (_ & _ & _ & _ & _ & ->).
  set (loan_id := next_rowid Loans.id (loans db)).
  set (new := Loans.Row loan_id (Books.id b) borrower_id now
                        (now + loan_period_days) None).
  exists loan_id. split; [reflexivity|]. intros Hfit_loan.
  assert (Hfresh : forall l, In l (rows (loans db)) -> Loans.id l <> loan_id).
  { intros l Hl. pose proof (next_rowid_fresh Loans.id _ l Hl).
    subst loan_id. lia. }
  assert (Hsel : forall t,
             rows t = rows (loans db) ++ [new] ->
             find (fun l => Loans.id l =? loan_id) (rows t) = Some new).
  { intros t ->.
    rewrite find_app_none
      by exact (proj2 (find_none_iff Loans.id loan_id _) Hfresh).
    simpl. now rewrite Z.eqb_refl. }
  rewrite (return_book_found now' loan_id _ (Books.id b) Hfit_loan)
    by (unfold select_book_id; simpl loans;
        now rewrite (Hsel _ (rows_insert Loans.id _ _))).
  simpl.
  split; [reflexivity|]. split; [|split; [reflexivity|]].
  - destruct (books db) as [rs sq]. unfold update. simpl. f_equal.
    rewrite map_map. simpl in Hpk, Hin.
    rewrite <- (map_id rs) at 2. apply map_ext_in. intros x Hx.
    destruct (Z.eqb_spec (Books.id x) (Books.id b)) as [Heq|Hne].
    + assert (x = b)
        by (apply (primary_key_inj Books.id (Table rs sq)); assumption).
      subst x. simpl. rewrite Z.eqb_refl. destruct b. simpl in *.
      now subst.
    + apply Z.eqb_neq in Hne. now rewrite Hne.
  - rewrite map_app. simpl. rewrite Z.eqb_refl.
    now rewrite (update_skips_others Loans.id).
Qed.

Lemma loan_then_return_witness :
  let db := run dune_and_ana create_tables in
  exists loan_id,
    rows (loans (db_after (loan_book 739001 1 1 14 db)))
    = [Loans.Row loan_id 1 1 739001 739015 None]
    /\ books (db_after (return_book 739009 loan_id
                          (db_after (loan_book 739001 1 1 14 db))))
       = books db
    /\ rows (loans (db_after (return_book 739009 loan_id
                                (db_after (loan_book 739001 1 1 14 db)))))
       = [Loans.Row loan_id 1 1 739001 739015 (Some 739009)].
Proof.
  intros db.
  destruct (loan_then_return 739001 739009 1 14 db
              (Books.Row 1 (Some "Dune"%string) (Some "Herbert"%string)
                 (Some "ISBN1"%string) (Some 1965) (Some "SciFi"%string)
                 739000 "available"))
    as (loan_id & Hloan & Hback).
  - repeat constructor. simpl. tauto.
  - left. reflexivity.
  - reflexivity.
  - reflexivity.
  - reflexivity.
  - discriminate.
  - exists loan_id. split; [exact Hloan|].
    assert (Hid : loan_id = 1) by (now injection Hloan).
    destruct Hback as (_ & Hbooks & _ & Hloans);
      [now rewrite Hid|auto].
Defined.

Lemma update_absorbs {R : Type} (cond : R -> bool) (set set' : R -> R)
      (t : table R) :
  (forall r, cond (set r) = cond r) ->
  (forall r, set' (set r) = set' r) ->
  update cond set' (update cond set t) = update cond set' t.
Proof.
  intros Hcond Hset. unfold update. simpl. f_equal. rewrite map_map.
  apply map_ext. intros r. destruct (cond r) eqn:Hc.
  - now rewrite Hcond, Hc, Hset.
  - now rewrite Hc.
Qed.

(** X8. Returning a loan again right after returning it succeeds again
    and only moves the return date: the two calls leave what the second
    one alone would have left, and on the same day the second call
    changes nothing. *)
Theorem return_book_again (now now' : date) (loan_id : Z) (db : database) :
  let db1 := db_after (return_book now loan_id db) in
  returned (return_book now' loan_id db1)
  = returned (return_book now loan_id db)
  /\ db_after (return_book now' loan_id db1)
     = db_after (return_book now' loan_id db)
  /\ db_after (return_book now loan_id db1) = db1.
Proof.
  intros db1. subst db1.
  assert (Hsel : forall d,
             select_book_id loan_id (db_after (return_book d loan_id db))
             = select_book_id loan_id db).
  { intros d. unfold return_book.
    destruct (fits_int64 loan_id); [|reflexivity]. simpl.
    destruct (select_book_id loan_id db) as [k|] eqn:Hk; [|exact Hk].
    unfold select_book_id in *. simpl loans.
    rewrite (find_update_by_key Loans.id) by apply set_return_date_id.
    destruct (find _ (rows (loans db))) as [l|]; [|discriminate Hk].
    simpl in *. now destruct (Loans.id l =? loan_id). }
  assert (Habs : forall d d',
             db_after (return_book d' loan_id
                         (db_after (return_book d loan_id db)))
             = db_after (return_book d' loan_id db)).
  { intros d d'. unfold return_book at 1. rewrite Hsel.
    unfold return_book.
    destruct (fits_int64 loan_id); [|reflexivity]. simpl.
    destruct (select_book_id loan_id db) as [k|]; [|reflexivity].
    simpl. f_equal; apply update_absorbs; auto. }
  split; [|split].
  - unfold return_book at 1. rewrite Hsel. unfold return_book.
    destruct (fits_int64 loan_id); [|reflexivity]. simpl.
    now destruct (select_book_id loan_id db).
  - apply Habs.
  - apply Habs.
Qed.

(** X9. After [return_book] on an id has returned, with True or with
    False, the overdue list of no day carries that id.  (The call
    returns unless the id is outside 64 bits, where it raises.) *)
Theorem returned_loan_never_overdue
        (now today : date) (loan_id : Z) (db : database) :
  raised (return_book now loan_id db) = None ->
  ~ listed loan_id
      (get_overdue_loans today (db_after (return_book now loan_id db))).
Proof.
  intros Hret Hlisted.
  apply listed_inv in Hlisted
    as (l & _ & _ & Hl & _ & _ & Hid & _ & _ & _ & Hop).
  unfold return_book in Hl, Hret.
  destruct (fits_int64 loan_id); [|discriminate Hret]. simpl in Hl.
  destruct (select_book_id loan_id db) as [k|] eqn:Hsel; simpl in Hl.
  - apply (update_by_key_hit Loans.id (Loans.set_return_date now) loan_id
             (loans db)) in Hl as (x & _ & _ & ->);
      [discriminate Hop|apply set_return_date_id|exact Hid].
  - exact (proj1 (select_book_id_none_iff db loan_id) Hsel l Hl Hid).
Qed.

Lemma returned_loan_never_overdue_witness :
  let db := run dune_lent create_tables in
  listed 1 (get_overdue_loans 739030 db)
  /\ ~ listed 1 (get_overdue_loans 739030
                   (db_after (return_book 739020 1 db))).
Proof.
  intros db. split.
  - exists (Some "Dune"%string), (Some "Ana"%string), 739015.
    left. reflexivity.
  - exact (returned_loan_never_overdue 739020 739030 1 db eq_refl).
Defined.

(** ** Lending and the overdue list *)

(** X10. When [loan_book] has lent a book to a registered borrower and
    the due date, the day of the loan plus the loan period, lies in a
    year of four digits, the new loan is on the overdue list of a day
    of such a year exactly when that day is later than the due date:
    not yet on the due date itself, and from the day after it on. *)
Theorem loan_book_then_overdue
        (now : date) (book_id borrower_id loan_period_days : Z)
        (db : database) :
  returned (loan_book now book_id borrower_id loan_period_days db) = true ->
  (exists r, In r (rows (borrowers db)) /\ Borrowers.id r = borrower_id) ->
  four_digit_year (now + loan_period_days) ->
  let db1 := db_after (loan_book now book_id borrower_id
                                 loan_period_days db) in
  exists loan_id,
    rows (loans db1)
    = rows (loans db)
        ++ [Loans.Row loan_id book_id borrower_id now
              (now + loan_period_days) None]
    /\ forall today,
         four_digit_year today ->
         listed loan_id (get_overdue_loans today db1)
         <-> now + loan_period_days < today.
Proof.
  intros Hok (r & Hr & Hrid) Hdue4 db1. subst db1.
  destruct (loan_book_returned _ _ _ _ _ Hok)
    as ((b & Hfind & Hst) & _ & _ & _ & _ & ->).
  apply find_some in Hfind as [Hb Hbid]. apply Z.eqb_eq in Hbid.
  set (loan_id := next_rowid Loans.id (loans db)).
  exists loan_id. split; [reflexivity|]. intros today Htoday4.
  rewrite <- Z.ltb_lt, <- (strftime_Ymd_ltb _ _ Hdue4 Htoday4). split.
  - intros Hlisted.
    apply listed_inv in Hlisted
      as (l & _ & _ & Hl & _ & _ & Hid & _ & _ & Hdue & _).
    simpl in Hl. apply in_app_or in Hl as [Hl|[<-|[]]]; [|exact Hdue].
    pose proof (next_rowid_fresh Loans.id _ l Hl). subst loan_id. lia.
  - intros Hdue.
    apply (listed_intro today _
             (Loans.Row loan_id book_id borrower_id now
                        (now + loan_period_days) None)
             (Books.set_status "loaned" b) r).
    + simpl. apply in_or_app. right. left. reflexivity.
    + simpl books. subst book_id. now apply (update_by_key_in Books.id).
    + exact Hr.
    + simpl. congruence.
    + simpl. congruence.
    + exact Hdue.
    + reflexivity.
Qed.

Lemma loan_book_then_overdue_witness :
  let db := run dune_and_ana create_tables in
  exists loan_id,
    (listed loan_id
       (get_overdue_loans 739009 (db_after (loan_book 739001 1 1 7 db)))
     <-> 739001 + 7 < 739009)
    /\ (listed loan_id
          (get_overdue_loans 739007 (db_after (loan_book 739001 1 1 7 db)))
        <-> 739001 + 7 < 739007).
Proof.
  intros db.
  destruct (loan_book_then_overdue 739001 1 1 7 db eq_refl)
    as (loan_id & _ & Hiff).
  - eexists. split; [left; reflexivity|reflexivity].
  - unfold four_digit_year, MAXORDINAL. lia.
  - exists loan_id.
    split; apply Hiff; unfold four_digit_year, MAXORDINAL; lia.
Defined.


(** ** The pages of [main] *)

Section PageFacts.

Variable strftime : date -> string.

Lemma py_eqb_eq (a b : text) : py_eqb a b = true <-> a = b.
Proof.
  destruct a as [x|], b as [y|]; simpl; try (split; congruence).
  rewrite String.eqb_eq. split; congruence.
Qed.

Lemma truthy_iff (s : string) : truthy s = true <-> s <> ""%string.
Proof. unfold truthy. now rewrite negb_true_iff, String.eqb_neq. Qed.

Lemma dict_get_app {K V : Type} (eqb : K -> K -> bool) (k : K)
      (items1 items2 : list (K * V)) :
  dict_get eqb k (items1 ++ items2)
  = match dict_get eqb k items2 with
    | Some v => Some v
    | None => dict_get eqb k items1
    end.
Proof.
  induction items1 as [|[k' v] items1 IH]; simpl.
  - now destruct (dict_get eqb k items2).
  - rewrite IH. now destruct (dict_get eqb k items2).
Qed.

Lemma dict_get_in {K V : Type} (eqb : K -> K -> bool) (k : K) (v : V)
      (items : list (K * V)) :
  (forall a b, eqb a b = true -> a = b) ->
  dict_get eqb k items = Some v -> In (k, v) items.
Proof.
  intros Heq. induction items as [|[k' v'] items IH]; simpl; [discriminate|].
  destruct (dict_get eqb k items) as [w|].
  - intros Hw. right. now apply IH.
  - destruct (eqb k' k) eqn:Hk; [|discriminate].
    intros [= ->]. left. now rewrite (Heq _ _ Hk).
Qed.

Lemma dict_get_some {K V : Type} (eqb : K -> K -> bool) (k : K) (v : V)
      (items : list (K * V)) :
  (forall a, eqb a a = true) ->
  In (k, v) items -> exists v', dict_get eqb k items = Some v'.
Proof.
  intros Hrefl. induction items as [|[k' w] items IH]; simpl; [tauto|].
  intros [[= -> ->]|Hin].
  - destruct (dict_get eqb k items); eauto. rewrite Hrefl. eauto.
  - destruct (IH Hin) as [v' ->]. eauto.
Qed.

Lemma py_eqb_refl (a : text) : py_eqb a a = true.
Proof. now apply py_eqb_eq. Qed.

Lemma book_options_in (db : database) (t : text) (k : Z) :
  In (t, k) (book_options db)
  <-> exists b, In b (rows (books db)) /\ Books.title b = t
                /\ Books.id b = k /\ Books.status b = "available"%string.
Proof.
  unfold book_options. rewrite in_map_iff. split.
  - intros (b & [= <- <-] & Hb). apply filter_In in Hb as [Hb Hst].
    apply String.eqb_eq in Hst. exists b. auto.
  - intros (b & Hb & <- & <- & Hst). exists b. split; [reflexivity|].
    apply filter_In. split; [exact Hb|]. now apply String.eqb_eq.
Qed.

Lemma borrower_options_in (db : database) (n : text) (k : Z) :
  In (n, k) (borrower_options db)
  <-> exists r, In r (rows (borrowers db)) /\ Borrowers.name r = n
                /\ Borrowers.id r = k.
Proof.
  unfold borrower_options. rewrite in_map_iff. split.
  - intros (r & [= <- <-] & Hr). exists r. auto.
  - intros (r & Hr & <- & <-). exists r. auto.
Qed.

(** A row of the Return Book page comes from an open loan whose book
    and borrower are in their tables. *)
Lemma active_loan_rows_in (db : database) (row : overdue_row) :
  In row (active_loan_rows db) ->
  exists l b r,
    In l (rows (loans db)) /\ In b (rows (books db))
    /\ In r (rows (borrowers db))
    /\ Loans.book_id l = Books.id b
    /\ Loans.borrower_id l = Borrowers.id r
    /\ open_loan l
    /\ row = (Loans.id l, Books.title b, Borrowers.name r,
              Loans.due_date l).
Proof.
  intros Hin. unfold active_loan_rows in Hin.
  apply in_flat_map in Hin as (l & Hl & Hin).
  apply in_flat_map in Hin as (b & Hb & Hin).
  apply in_flat_map in Hin as (r & Hr & Hin).
  apply filter_In in Hb as [Hb Hbid], Hr as [Hr Hrid].
  apply Z.eqb_eq in Hbid, Hrid.
  destruct (Loans.return_date l) eqn:Hret; simpl in Hin; [destruct Hin|].
  destruct Hin as [<-|[]]. exists l, b, r. repeat (split; [assumption|]).
  reflexivity.
Qed.

Lemma loan_options_in (db : database) (label : string) (k : Z) :
  In (label, k) (loan_options strftime db) ->
  exists l b r,
    In l (rows (loans db)) /\ In b (rows (books db))
    /\ In r (rows (borrowers db))
    /\ Loans.book_id l = Books.id b
    /\ Loans.borrower_id l = Borrowers.id r
    /\ open_loan l /\ Loans.id l = k.
Proof.
  unfold loan_options. rewrite in_map_iff. intros (row & [= _ <-] & Hrow).
  apply active_loan_rows_in in Hrow
    as (l & b & r & Hl & Hb & Hr & Hbid & Hrid & Hop & ->).
  exists l, b, r. repeat (split; [assumption|]). reflexivity.
Qed.

Lemma stored_call (o : outcome) (db : database) (a b : list element) :
  stored (call o db a b) = db
  \/ (raised o = None /\ stored (call o db a b) = db_after o).
Proof.
  unfold call. destruct (raised o); [now left|].
  right. split; [reflexivity|]. now destruct (returned o).
Qed.

Lemma shown_call (o : outcome) (db : database) (a b : list element) :
  (exists e, raised o = Some e /\ shown (call o db a b) = [traceback e])
  \/ (raised o = None /\ returned o = true /\ call o db a b = Page a (db_after o))
  \/ (raised o = None /\ returned o = false
      /\ call o db a b = Page b (db_after o)).
Proof.
  unfold call. destruct (raised o) as [e|]; [left; eauto|].
  right. destruct (returned o); auto.
Qed.

(** A run of the script leaves the tables alone or makes one store
    call, of the kind that the pages make, and the call returns. *)
Lemma main_stored (now : date) (choice : screen) (file : option database) :
  widgets strftime now choice file = true ->
  let db := LibraryDatabase file in
  stored (main strftime now choice file) = db
  \/ exists o, page_call o db /\ desk_call now o
               /\ raised (perform now o db) = None
               /\ stored (main strftime now choice file)
                  = db_after (perform now o db).
Proof.
  intros Hw db. unfold widgets in Hw. fold db in Hw.
  apply andb_true_iff in Hw as [Hclock Hw].
  assert (Hnow : four_digit_year now).
  { unfold four_digit_year. apply andb_true_iff in Hclock as [H1 H2]. lia. }
  clear Hclock. unfold main. fold db.
  assert (Hslider : match choice with
                    | LoanBookPage _ _ d _ => 7 <= d <= 30
                    | _ => True
                    end).
  { destruct choice; try exact I.
    apply andb_true_iff in Hw as [Hw H30].
    apply andb_true_iff in Hw as [_ H7]. lia. }
  clear Hw.
  destruct choice as [|t a i y g c|f q|n e ph c|sb sr d c|sl c|].
  - now left.
  - unfold add_book_view. destruct c; [|now left].
    destruct (truthy t && truthy a) eqn:Htruthy; [|now left].
    apply andb_true_iff in Htruthy as [Ht Ha].
    apply truthy_iff in Ht, Ha.
    destruct (stored_call
                (add_book now (Some t) (Some a) (Some i) (Some y) (Some g) db)
                db
                [success_msg ("Book '" ++ t ++ "' added successfully!")]
                [error_msg "Failed to add book. ISBN might already exist."])
      as [H|[Hr H]]; [now left|].
    right.
    exists (AddBook (Some t) (Some a) (Some i) (Some y) (Some g)).
    split; [repeat split; eauto; discriminate|].
    split; [split; [exact Hnow|exact I]|]. auto.
  - left. unfold search_books_view. destruct (truthy q); [|reflexivity].
    now destruct (search_books q f db).
  - unfold register_borrower_view. destruct c; [|now left].
    destruct (truthy n && truthy e) eqn:Htruthy; [|now left].
    apply andb_true_iff in Htruthy as [Hn He].
    apply truthy_iff in Hn, He.
    destruct (stored_call
                (register_borrower now (Some n) (Some e) (Some ph) db) db
                [success_msg
                   ("Borrower '" ++ n ++ "' registered successfully!")]
                [error_msg
                   "Failed to register borrower. Email might already exist."])
      as [H|[Hr H]]; [now left|].
    right. exists (RegisterBorrower (Some n) (Some e) (Some ph)).
    split; [repeat split; eauto; discriminate|].
    split; [split; [exact Hnow|exact I]|]. auto.
  - unfold loan_book_view. destruct c; [|now left].
    destruct (_ && _); [|now left].
    destruct (dict_get py_eqb sb (book_options db)) as [k|] eqn:Hk;
      [|now left].
    destruct (dict_get py_eqb sr (borrower_options db)) as [r|] eqn:Hr;
      [|now left].
    destruct (stored_call (loan_book now k r d db) db
                [success_msg
                   ("Book '" ++ fstr sb ++ "' loaned to " ++ fstr sr
                      ++ " successfully!")]
                [error_msg "Failed to loan book."])
      as [H|[Hrs H]]; [now left|].
    right. exists (LoanBook k r d). split; [|split; [|auto]].
    + apply dict_get_in in Hk, Hr; try (intros ? ?; apply py_eqb_eq).
      apply book_options_in in Hk as (b & Hb & _ & Hid & Hst).
      apply borrower_options_in in Hr as (br & Hbr & _ & Hrid).
      split; [exists b|exists br]; auto.
    + split; [exact Hnow|exact Hslider].
  - unfold return_book_view. destruct (is_empty _); [now left|].
    destruct c; [|now left].
    destruct (dict_get String.eqb sl (loan_options strftime db)) as [k|]
      eqn:Hk; [|now left].
    destruct (stored_call (return_book now k db) db
                [success_msg "Book returned successfully!"]
                [error_msg "Failed to process return."])
      as [H|[Hrs H]]; [now left|].
    right. exists (ReturnBook k). split; [|split; [|auto]].
    + apply dict_get_in in Hk; [|intros ? ?; apply String.eqb_eq].
      apply loan_options_in in Hk
        as (l & _ & _ & Hl & _ & _ & _ & _ & Hop & Hid).
      exists l. auto.
    + split; [exact Hnow|exact I].
  - left. unfold overdue_loans_view. now destruct (get_overdue_loans now db).
Qed.

(** What holds of the fresh tables and is kept by every call of a page
    holds of every state that the interface brings about. *)
Lemma ui_reachable_ind (P : database -> Prop) :
  P create_tables ->
  (forall now o db, P db -> page_call o db -> desk_call now o ->
                    raised (perform now o db) = None ->
                    P (db_after (perform now o db))) ->
  forall db, ui_reachable strftime db -> P db.
Proof.
  intros Hinit Hstep db (runs & Hposs & Hruns).
  assert (Hstart : P (LibraryDatabase None)) by exact Hinit.
  revert Hstart Hposs Hruns. generalize (@None database) as file.
  induction runs as [|[now choice] runs IH]; intros file Hfile Hposs; simpl.
  - intros ->. exact Hfile.
  - simpl in Hposs. apply andb_true_iff in Hposs as [Hw Hposs].
    apply IH; [|exact Hposs]. simpl.
    destruct (main_stored now choice file Hw)
      as [->|(o & Ho & Hdesk & Hraised & ->)]; auto.
Qed.

Lemma ui_reachable_reachable (db : database) :
  ui_reachable strftime db -> reachable db.
Proof.
  apply ui_reachable_ind.
  - now exists [].
  - intros now o db0 Hr _ _ _. now apply reachable_step.
Qed.

Lemma page_call_offered (o : operation) (db : database) :
  primary_key Loans.id (loans db) -> page_call o db ->
  match o with LoanBook _ _ _ => True | _ => offered o db end.
Proof.
  intros Hpk. destruct o as [| | |k]; simpl; auto.
  intros (l & Hl & Hid & Hop) l' Hl' Hid'.
  now rewrite (primary_key_inj Loans.id (loans db) l' l Hpk Hl' Hl)
    by congruence.
Qed.

Lemma consistent_page_call (now : date) (o : operation) (db : database) :
  reachable db -> consistent db -> page_call o db ->
  raised (perform now o db) = None ->
  consistent (db_after (perform now o db)).
Proof.
  intros Hr Hc Hcall Hraised.
  pose proof (page_call_offered o db (proj1 Hc) Hcall) as Hoff.
  destruct o as [t a i y g|n e p|k r d|k]; simpl.
  - apply consistent_add_book; [|exact Hc].
    now apply reachable_loans_reference_books.
  - now apply consistent_register_borrower.
  - apply consistent_loan_book; [right; exact Hraised|exact Hc].
  - now apply consistent_return_book.
Qed.

Lemma ui_reachable_consistent (db : database) :
  ui_reachable strftime db -> reachable db /\ consistent db.
Proof.
  intros Hui. pattern db. revert db Hui. apply ui_reachable_ind.
  - split; [now exists []|]. split; [constructor|].
    split; [intros l1 l2 []|intros b []].
  - intros now o db0 [Hr Hc] Hcall _ Hraised.
    split; [now apply reachable_step|].
    now apply consistent_page_call.
Qed.

Lemma ui_reachable_references (db : database) :
  ui_reachable strftime db ->
  loans_reference_books db /\ loans_reference_borrowers db.
Proof.
  intros Hui. split.
  { now apply reachable_loans_reference_books, ui_reachable_reachable. }
  pattern db. revert db Hui. apply ui_reachable_ind.
  - intros l [].
  - intros now o db Href Hcall _ _.
    destruct o as [t a i y g|n e p|k r d|k]; simpl.
    + now destruct (add_book_after now t a i y g db) as [->| ->].
    + destruct (register_borrower_after now n e p db) as [->| ->]; auto.
      intros l Hl. destruct (Href l Hl) as (r & Hr & Hid).
      exists r. split; [|exact Hid]. now apply in_rows_insert.
    + destruct Hcall as [_ (br & Hbr & Hbrid)].
      destruct (loan_book_after now k r d db)
        as [->|[[_ ->]|(_ & _ & ->)]]; auto.
      intros l Hl. simpl in Hl. apply in_app_or in Hl as [Hl|[<-|[]]].
      * exact (Href l Hl).
      * exists br. auto.
    + destruct (return_book_after now k db) as [->|(l0 & _ & _ & ->)]; auto.
      intros l Hl. simpl in Hl. apply in_map_iff in Hl as (x & Hx & Hin).
      destruct (Href x Hin) as (r & Hr & Hid). exists r.
      split; [exact Hr|]. rewrite Hid.
      destruct (Loans.id x =? k); subst l; reflexivity.
Qed.

(** The due dates that the Loan Book page stores lie in years of four
    digits: the clock does, and the slider adds at most 30 days within
    [datetime]. *)
Lemma ui_reachable_due_dates (db : database) :
  ui_reachable strftime db ->
  forall l, In l (rows (loans db)) -> four_digit_year (Loans.due_date l).
Proof.
  intros Hui. pattern db. revert db Hui. apply ui_reachable_ind.
  - intros l [].
  - intros now o db Hdue Hcall [Hnow Hdesk] Hraised.
    destruct o as [t a i y g|n e p|k r d|k]; simpl in *.
    + now destruct (add_book_after now t a i y g db) as [->| ->].
    + now destruct (register_borrower_after now n e p db) as [->| ->].
    + destruct (loan_book_cases now k r d db)
        as [[-> _]|[(H & _)|(_ & _ & _ & _ & _ & Hadd & ->)]];
        [exact Hdue|congruence|].
      intros l Hl. simpl in Hl. apply in_app_or in Hl as [Hl|[<-|[]]];
        [now apply Hdue|].
      simpl. apply datetime_add_some in Hadd as [_ Hrange].
      unfold four_digit_year in *. lia.
    + destruct (return_book_after now k db) as [->|(l0 & _ & _ & ->)];
        [exact Hdue|].
      intros l Hl. simpl in Hl. apply in_map_iff in Hl as (x & <- & Hin).
      specialize (Hdue x Hin). now destruct (Loans.id x =? k).
Qed.

Lemma filled_in_set_status (v : string) (b : Books.row) :
  filled_in_book b -> filled_in_book (Books.set_status v b).
Proof. now destruct b. Qed.

Lemma ui_reachable_filled_in (db : database) :
  ui_reachable strftime db ->
  (forall b, In b (rows (books db)) -> filled_in_book b)
  /\ (forall r, In r (rows (borrowers db)) -> filled_in_borrower r).
Proof.
  intros Hui. pattern db. revert db Hui. apply ui_reachable_ind.
  - split; intros x [].
  - intros now o db [Hb Hr] Hcall _ _.
    destruct o as [t a i y g|n e p|k r d|k]; simpl.
    + destruct (add_book_after now t a i y g db) as [->| ->]; auto.
      split; [|exact Hr]. intros b Hin. simpl in Hin.
      apply in_app_or in Hin as [Hin|[<-|[]]]; [now apply Hb|exact Hcall].
    + destruct (register_borrower_after now n e p db) as [->| ->]; auto.
      split; [exact Hb|]. intros r Hin. simpl in Hin.
      apply in_app_or in Hin as [Hin|[<-|[]]]; [now apply Hr|exact Hcall].
    + destruct (loan_book_after now k r d db)
        as [->|[[_ ->]|(_ & _ & ->)]]; auto;
        (split; [|exact Hr]); intros b Hin; simpl in Hin;
        apply in_map_iff in Hin as (x & <- & Hin);
        (destruct (Books.id x =? k); [apply filled_in_set_status|]); auto.
    + destruct (return_book_after now k db) as [->|(l0 & _ & _ & ->)]; auto.
      split; [|exact Hr]. intros b Hin. simpl in Hin.
      apply in_map_iff in Hin as (x & <- & Hin).
      destruct (Books.id x =? Loans.book_id l0);
        [apply filled_in_set_status|]; auto.
Qed.

(** X14. In every state that the pages of [main] bring about, a book is
    'loaned' exactly when an open loan references it, and no book has
    two open loans: the Return Book page offers open loans only, so the
    double return that breaks the store is out of reach. *)
Theorem ui_keeps_lending_invariant (db : database) :
  ui_reachable strftime db ->
  status_matches_loans db /\ one_open_loan_per_book db.
Proof.
  intros Hui. destruct (ui_reachable_consistent db Hui) as (_ & _ & Hone & Hst).
  auto.
Qed.

(** X15. In every state that the pages of [main] bring about, every
    loan references a stored book and a registered borrower: the Loan
    Book page takes both ids from the tables. *)
Theorem ui_referential_integrity (db : database) :
  ui_reachable strftime db ->
  loans_reference_books db /\ loans_reference_borrowers db.
Proof. exact (ui_reachable_references db). Qed.

(** X16. In every state that the pages of [main] bring about, the
    overdue list of a day, of a year of four digits as the clock shows
    it, holds a loan exactly when the loan is due before that day and
    has no return date. *)
Theorem ui_overdue_exact (db : database) (now : date) (l : Loans.row) :
  ui_reachable strftime db ->
  four_digit_year now ->
  In l (rows (loans db)) ->
  listed (Loans.id l) (get_overdue_loans now db)
  <-> Loans.due_date l < now /\ open_loan l.
Proof.
  intros Hui Hnow Hl.
  destruct (ui_reachable_references db Hui) as [Hbooks Hborrowers].
  apply get_overdue_loans_listed;
    [|exact Hl|exact (Hbooks l Hl)|exact (Hborrowers l Hl)
     |exact (ui_reachable_due_dates db Hui l Hl)|exact Hnow].
  apply reachable_primary_keys. now apply ui_reachable_reachable.
Qed.


(** X20. Every record that the pages of [main] store is filled in: a
    book has a title and an author that are not empty and an ISBN text,
    a year and a genre; a borrower has a name and an email that are not
    empty.  A blank ISBN is the empty text and not an absent value, so
    no two books share their ISBN, blank ones included, and no two
    borrowers share their email. *)
Theorem ui_records_filled_in (db : database) :
  ui_reachable strftime db ->
  (forall b, In b (rows (books db)) -> filled_in_book b)
  /\ (forall r, In r (rows (borrowers db)) -> filled_in_borrower r)
  /\ (forall b1 b2, In b1 (rows (books db)) -> In b2 (rows (books db)) ->
                    Books.isbn b1 = Books.isbn b2 -> b1 = b2)
  /\ (forall r1 r2, In r1 (rows (borrowers db)) ->
                    In r2 (rows (borrowers db)) ->
                    Borrowers.email r1 = Borrowers.email r2 -> r1 = r2).
Proof.
  intros Hui. destruct (ui_reachable_filled_in db Hui) as [Hb Hr].
  destruct (unique_columns_kept db (ui_reachable_reachable db Hui))
    as [Hisbn Hemail].
  split; [exact Hb|]. split; [exact Hr|]. split.
  - intros b1 b2 H1 H2 Heq. apply Hisbn; auto.
    now destruct (Hb b1 H1) as (_ & _ & Hnn & _).
  - intros r1 r2 H1 H2 Heq. apply Hemail; auto.
    destruct (Hr r1 H1) as (_ & (e & He & _) & _). congruence.
Qed.

Lemma is_empty_false_in {A : Type} (x : A) (l : list A) :
  In x l -> is_empty l = false.
Proof. destruct l; simpl; [tauto|reflexivity]. Qed.

(** X17. On a store whose book ids are unique, the Loan Book page never
    shows that lending failed: the id it passes is the id of a book it
    has just found available.  When the title of an available book and
    the name of a registered borrower are selected and the button is
    pressed, the ids in the two tables fit 64 bits and the due date is
    one that [datetime] holds, the page reports success and has lent an
    available book of that title to a borrower of that name. *)
Theorem loan_book_view_lends (db : database) :
  primary_key Books.id (books db) ->
  (forall now selected_book selected_borrower loan_days clicked,
      ~ In (error_msg "Failed to loan book.")
           (shown (loan_book_view now selected_book selected_borrower
                                  loan_days clicked db)))
  /\ (forall now loan_days b r,
         In b (rows (books db)) ->
         Books.status b = "available"%string ->
         In r (rows (borrowers db)) ->
         (forall x, In x (rows (books db)) ->
                    fits_int64 (Books.id x) = true) ->
         (forall x, In x (rows (borrowers db)) ->
                    fits_int64 (Borrowers.id x) = true) ->
         datetime_add now loan_days <> None ->
         exists b' r',
           In b' (rows (books db))
           /\ Books.title b' = Books.title b
           /\ Books.status b' = "available"%string
           /\ In r' (rows (borrowers db))
           /\ Borrowers.name r' = Borrowers.name r
           /\ returned (loan_book now (Books.id b') (Borrowers.id r')
                                  loan_days db) = true
           /\ loan_book_view now (Books.title b) (Borrowers.name r)
                             loan_days true db
              = Page [success_msg
                        ("Book '" ++ fstr (Books.title b) ++ "' loaned to "
                           ++ fstr (Borrowers.name r) ++ " successfully!")]
                     (db_after (loan_book now (Books.id b') (Borrowers.id r')
                                          loan_days db))).
Proof.
  intros Hpk.
  assert (Hfound : forall sel k,
             dict_get py_eqb sel (book_options db) = Some k ->
             exists b', In b' (rows (books db)) /\ Books.title b' = sel
                        /\ Books.id b' = k
                        /\ Books.status b' = "available"%string
                        /\ not_available (select_status k db) = false).
  { intros sel k Hk.
    apply dict_get_in in Hk; [|intros ? ?; apply py_eqb_eq].
    apply book_options_in in Hk as (b' & Hb' & Ht & Hid & Hst).
    exists b'. repeat (split; [assumption|]). subst k.
    rewrite (select_status_found db b' Hpk Hb'), Hst. reflexivity. }
  split.
  - intros now sb sr d c. unfold loan_book_view.
    destruct c; [|intros []].
    destruct (_ && _); [|intros [H|[]]; discriminate].
    destruct (dict_get py_eqb sb (book_options db)) as [k|] eqn:Hk;
      [|intros [H|[]]; discriminate].
    destruct (dict_get py_eqb sr (borrower_options db)) as [r|];
      [|intros [H|[]]; discriminate].
    destruct (Hfound sb k Hk) as (_ & _ & _ & _ & _ & Hav).
    unfold call, loan_book. rewrite Hav.
    destruct (fits_int64 k); simpl; [|intros [H|[]]; discriminate].
    destruct (datetime_add now d); simpl; [|intros [H|[]]; discriminate].
    destruct (fits_int64 r); simpl; intros [H|[]]; discriminate.
  - intros now d b r Hb Hst Hr Hfitb Hfitr Hdue.
    assert (Hbo : In (Books.title b, Books.id b) (book_options db))
      by (apply book_options_in; exists b; auto).
    assert (Hro : In (Borrowers.name r, Borrowers.id r) (borrower_options db))
      by (apply borrower_options_in; exists r; auto).
    destruct (dict_get_some py_eqb _ _ _ py_eqb_refl Hbo) as [k Hk].
    destruct (dict_get_some py_eqb _ _ _ py_eqb_refl Hro) as [j Hj].
    destruct (Hfound _ k Hk) as (b' & Hb' & Ht & Hid & Hst' & Hav).
    pose proof Hj as Hj'.
    apply dict_get_in in Hj'; [|intros ? ?; apply py_eqb_eq].
    apply borrower_options_in in Hj' as (r' & Hr' & Hn & Hrid).
    assert (Hok : loan_book now k j d db
                  = Outcome true []
                      (db_after (loan_book now k j d db)) None).
    { unfold loan_book. rewrite Hav.
      rewrite <- Hid, (Hfitb b' Hb'), <- Hrid, (Hfitr r' Hr'). simpl.
      now destruct (datetime_add now d). }
    exists b', r'. subst k j. repeat (split; [assumption|]).
    split; [now rewrite Hok|].
    unfold loan_book_view.
    rewrite (is_empty_false_in _ _ Hbo), (is_empty_false_in _ _ Hro).
    simpl. rewrite Hk, Hj. unfold call. now rewrite Hok.
Qed.

(** X18. The Return Book page never shows that the return failed, and
    whenever it reports a return, it has returned an open loan whose
    book and borrower are in their tables. *)
Theorem return_book_view_returns
        (now : date) (selected_loan : string) (clicked : bool)
        (db : database) :
  ~ In (error_msg "Failed to process return.")
       (shown (return_book_view strftime now selected_loan clicked db))
  /\ (In (success_msg "Book returned successfully!")
         (shown (return_book_view strftime now selected_loan clicked db)) ->
      exists l b r,
        In l (rows (loans db)) /\ In b (rows (books db))
        /\ In r (rows (borrowers db))
        /\ Loans.book_id l = Books.id b
        /\ Loans.borrower_id l = Borrowers.id r
        /\ open_loan l
        /\ returned (return_book now (Loans.id l) db) = true
        /\ stored (return_book_view strftime now selected_loan clicked db)
           = db_after (return_book now (Loans.id l) db)).
Proof.
  unfold return_book_view.
  destruct (is_empty (active_loan_rows db));
    [split; intros [H|[]]; discriminate|].
  destruct clicked; [|split; intros []].
  destruct (dict_get String.eqb selected_loan (loan_options strftime db))
    as [k|] eqn:Hk; [|split; intros [H|[]]; discriminate].
  apply dict_get_in in Hk; [|intros ? ?; apply String.eqb_eq].
  apply loan_options_in in Hk
    as (l & b & r & Hl & Hb & Hr & Hbid & Hrid & Hop & <-).
  assert (Hfound : select_book_id (Loans.id l) db <> None).
  { intros Hsel.
    elim (proj1 (select_book_id_none_iff db _) Hsel l Hl). reflexivity. }
  destruct (shown_call (return_book now (Loans.id l) db) db
              [success_msg "Book returned successfully!"]
              [error_msg "Failed to process return."])
    as [(e & _ & Hs)|[(_ & Hret & Hc)|(Hr0 & Hret & _)]].
  - rewrite Hs. split; intros [H|[]]; discriminate.
  - rewrite Hc. split; [intros [H|[]]; discriminate|].
    intros _. exists l, b, r. auto 10.
  - exfalso. unfold return_book in Hr0, Hret.
    destruct (fits_int64 (Loans.id l)); [|discriminate]. simpl in *.
    destruct (select_book_id (Loans.id l) db); [discriminate|congruence].
Qed.

Lemma NoDup_app_disjoint {A : Type} (l1 l2 : list A) (x : A) :
  NoDup (l1 ++ l2) -> In x l1 -> ~ In x l2.
Proof.
  induction l1 as [|y l1 IH]; simpl; [tauto|].
  intros Hnd [->|Hin] Hx; inversion Hnd as [|? ? Hnotin Hnd']; subst.
  - apply Hnotin, in_or_app. now right.
  - now apply (IH Hnd' Hin).
Qed.

Lemma dict_get_head {K V : Type} (eqb : K -> K -> bool) (k : K) (v : V)
      (items : list (K * V)) :
  eqb k k = true -> dict_get eqb k ((k, v) :: items) <> None.
Proof.
  intros Hrefl. simpl. destruct (dict_get eqb k items); [discriminate|].
  now rewrite Hrefl.
Qed.

(** In a dict keyed by a label, a row is out of reach when a later row
    carries the same label. *)
Lemma dict_get_shadowed {R : Type} (key : R -> Z) (label : R -> text)
      (pass : R -> bool) (r1 r2 : R) (pre mid post : list R) (sel : text) :
  NoDup (map key (pre ++ r1 :: mid ++ r2 :: post)) ->
  label r1 = label r2 -> pass r2 = true ->
  dict_get py_eqb sel
           (map (fun r => (label r, key r))
                (filter pass (pre ++ r1 :: mid ++ r2 :: post)))
  <> Some (key r1).
Proof.
  intros Hnd Hlabel Hpass Hget.
  assert (Hin1 : In r1 (pre ++ r1 :: mid ++ r2 :: post))
    by (apply in_or_app; right; now left).
  assert (Hinj : forall r, In r (pre ++ r1 :: mid ++ r2 :: post) ->
                           key r = key r1 -> r = r1).
  { intros r Hr Hk.
    apply (primary_key_inj key (Table (pre ++ r1 :: mid ++ r2 :: post) 0));
      assumption. }
  change (pre ++ r1 :: mid ++ r2 :: post)
    with (pre ++ (r1 :: mid) ++ r2 :: post) in Hnd, Hget, Hinj.
  rewrite app_assoc in Hnd, Hget, Hinj.
  rewrite filter_app, map_app, dict_get_app in Hget. rewrite map_app in Hnd.
  assert (Hlater : forall r, In r (r2 :: post) -> key r <> key r1).
  { intros r Hr Heq. apply (NoDup_app_disjoint _ _ (key r1) Hnd).
    - apply in_map, in_or_app. right. now left.
    - rewrite <- Heq. now apply in_map. }
  destruct (dict_get py_eqb sel
              (map (fun r => (label r, key r)) (filter pass (r2 :: post))))
    as [v|] eqn:Hv.
  - injection Hget as ->.
    apply dict_get_in in Hv; [|intros ? ?; apply py_eqb_eq].
    apply in_map_iff in Hv as (r & [= _ Hk] & Hr).
    apply filter_In in Hr as [Hr _]. exact (Hlater r Hr Hk).
  - apply dict_get_in in Hget; [|intros ? ?; apply py_eqb_eq].
    apply in_map_iff in Hget as (r & [= Hsel Hk] & Hr).
    apply filter_In in Hr as [Hr _].
    assert (r = r1) by (apply Hinj; [apply in_or_app; now left|exact Hk]).
    subst r. simpl filter in Hv. rewrite Hpass in Hv.
    cbn [map] in Hv. rewrite <- Hlabel, Hsel in Hv.
    revert Hv. apply dict_get_head, py_eqb_refl.
Qed.

Lemma stored_loan_book_view_clicked now sb sr d db k r :
  dict_get py_eqb sb (book_options db) = Some k ->
  dict_get py_eqb sr (borrower_options db) = Some r ->
  stored (loan_book_view now sb sr d true db) = db
  \/ (raised (loan_book now k r d db) = None
      /\ stored (loan_book_view now sb sr d true db)
         = db_after (loan_book now k r d db)).
Proof.
  intros Hk Hr. unfold loan_book_view. destruct (_ && _); [|now left].
  rewrite Hk, Hr. apply stored_call.
Qed.

Lemma stored_loan_book_view now sb sr d c db :
  stored (loan_book_view now sb sr d c db) = db
  \/ exists k r,
       dict_get py_eqb sb (book_options db) = Some k
       /\ dict_get py_eqb sr (borrower_options db) = Some r
       /\ raised (loan_book now k r d db) = None
       /\ stored (loan_book_view now sb sr d c db)
          = db_after (loan_book now k r d db).
Proof.
  destruct c; [|now left].
  destruct (dict_get py_eqb sb (book_options db)) as [k|] eqn:Hk.
  - destruct (dict_get py_eqb sr (borrower_options db)) as [r|] eqn:Hr.
    + destruct (stored_loan_book_view_clicked now sb sr d db k r Hk Hr)
        as [H|[H1 H2]]; [now left|]. right. exists k, r. auto.
    + left. unfold loan_book_view. destruct (_ && _); [|reflexivity].
      now rewrite Hk, Hr.
  - left. unfold loan_book_view. destruct (_ && _); [|reflexivity].
    now rewrite Hk.
Qed.

(** X19. The Loan Book page keys its choices by title, and a later
    available book takes the place of an earlier book of the same
    title: while the later one is available, no selection on the page
    lends the earlier one, which stays in the table as it is. *)
Theorem loan_book_view_title_shadow
        (db : database) (b1 b2 : Books.row) (pre mid post : list Books.row) :
  primary_key Books.id (books db) ->
  rows (books db) = pre ++ b1 :: mid ++ b2 :: post ->
  Books.title b1 = Books.title b2 ->
  Books.status b2 = "available"%string ->
  forall now selected_book selected_borrower loan_days clicked,
    In b1 (rows (books (stored (loan_book_view now selected_book
                                  selected_borrower loan_days clicked db)))).
Proof.
  intros Hpk Hrows Ht Hst now sb sr d c.
  assert (Hin1 : In b1 (rows (books db))).
  { rewrite Hrows. apply in_or_app. right. now left. }
  destruct (stored_loan_book_view now sb sr d c db)
    as [->|(k & r & Hk & _ & Hraised & ->)]; [exact Hin1|].
  destruct (loan_book_after now k r d db)
    as [->|[[_ ->]|(Hno & _)]]; [exact Hin1| |contradiction].
  simpl books. apply (update_by_key_miss Books.id); [reflexivity| |exact Hin1].
  intros Hid. subst k. unfold primary_key in Hpk. unfold book_options in Hk.
  rewrite Hrows in Hpk, Hk. revert Hk.
  apply (dict_get_shadowed Books.id Books.title); auto.
  now rewrite Hst.
Qed.

Lemma filter_all {A : Type} (l : list A) : filter (fun _ => true) l = l.
Proof. induction l as [|x l IH]; simpl; [reflexivity|now rewrite IH]. Qed.

(** X22. The Loan Book page keys the borrowers by name, and a borrower
    registered later takes the place of an earlier one of the same name:
    no selection on the page records a loan for the earlier borrower. *)
Theorem loan_book_view_name_shadow
        (db : database) (r1 r2 : Borrowers.row)
        (pre mid post : list Borrowers.row) :
  primary_key Borrowers.id (borrowers db) ->
  rows (borrowers db) = pre ++ r1 :: mid ++ r2 :: post ->
  Borrowers.name r1 = Borrowers.name r2 ->
  forall now selected_book selected_borrower loan_days clicked l,
    In l (rows (loans (stored (loan_book_view now selected_book
                                 selected_borrower loan_days clicked db)))) ->
    Loans.borrower_id l = Borrowers.id r1 ->
    In l (rows (loans db)).
Proof.
  intros Hpk Hrows Hname now sb sr d c l Hl Hid.
  destruct (stored_loan_book_view now sb sr d c db)
    as [Hs|(k & r & _ & Hr & Hraised & Hs)]; rewrite Hs in Hl; [exact Hl|].
  destruct (loan_book_after now k r d db)
    as [H|[[_ H]|(Hno & _)]]; [rewrite H in Hl; exact Hl| |contradiction].
  rewrite H in Hl.
  simpl in Hl. apply in_app_or in Hl as [Hl|[<-|[]]]; [exact Hl|].
  simpl in Hid. subst r. exfalso. revert Hr.
  unfold primary_key in Hpk. unfold borrower_options.
  rewrite Hrows in Hpk |- *.
  rewrite <- (filter_all (pre ++ r1 :: mid ++ r2 :: post)) at 1.
  now apply (dict_get_shadowed Borrowers.id Borrowers.name).
Qed.

(** ** The dashboard *)

Lemma count_update_by_key {R : Type} (key : R -> Z) (pred : R -> bool)
      (set : R -> R) (rs : list R) (r : R) :
  NoDup (map key rs) -> In r rs ->
  (List.length
     (filter pred
             (map (fun x => if (key x =? key r)%Z then set x else x) rs))
   + (if pred r then 1 else 0)
   = List.length (filter pred rs) + (if pred (set r) then 1 else 0))%nat.
Proof.
  induction rs as [|x xs IH]; simpl; [tauto|].
  intros Hnd Hin. inversion Hnd as [|? ? Hnotin Hnd']; subst.
  destruct Hin as [->|Hin].
  - rewrite Z.eqb_refl.
    rewrite (update_skips_others key set (key r) xs).
    + destruct (pred r), (pred (set r)); simpl; lia.
    + intros y Hy Heq. apply Hnotin. rewrite <- Heq. now apply in_map.
  - destruct (Z.eqb_spec (key x) (key r)) as [Heq|_].
    + elim Hnotin. rewrite Heq. now apply in_map.
    + specialize (IH Hnd' Hin). destruct (pred x); simpl; lia.
Qed.

Lemma active_loans_length (db : database) :
  active_loans db
  = Z.of_nat (List.length (filter (fun l => is_null (Loans.return_date l))
                                  (rows (loans db)))).
Proof. reflexivity. Qed.

(** X13. In every state that the pages of [main] bring about, the
    dashboard's count of active loans is the number of books whose
    status is 'loaned'. *)
Theorem ui_active_loans_are_loaned_books (db : database) :
  ui_reachable strftime db -> active_loans db = loaned_books db.
Proof.
  intros Hui.
  enough (H : reachable db /\ consistent db
              /\ active_loans db = loaned_books db) by apply H.
  pattern db. revert db Hui. apply ui_reachable_ind.
  - split; [now exists []|]. split; [|reflexivity].
    split; [constructor|]. split; [intros l1 l2 []|intros b []].
  - intros now o db (Hr & Hc & Hcount) Hcall _ Hraised.
    split; [now apply reachable_step|].
    split; [now apply consistent_page_call|].
    destruct (reachable_primary_keys db Hr) as (Hpkb & _ & Hpkl).
    unfold active_loans, loaned_books in *. apply Nat2Z.inj in Hcount.
    f_equal.
    destruct o as [t a i y g|n e p|k r d|k]; simpl perform.
    + destruct (add_book_after now t a i y g db) as [->| ->]; [exact Hcount|].
      simpl. rewrite filter_app, length_app. simpl. lia.
    + now destruct (register_borrower_after now n e p db) as [->| ->].
    + destruct Hcall as [(b & Hb & <- & Hst) _].
      destruct (loan_book_after now (Books.id b) r d db)
        as [->|[[_ ->]|(Hno & _)]]; [exact Hcount| |contradiction].
      simpl. rewrite filter_app, length_app. simpl.
      pose proof (count_update_by_key Books.id
                    (fun b => String.eqb (Books.status b) "loaned")
                    (Books.set_status "loaned") _ b Hpkb Hb) as Hupd.
      simpl in Hupd. rewrite Hst in Hupd. simpl in Hupd. lia.
    + destruct Hcall as (l & Hl & <- & Hop).
      destruct (return_book_after now (Loans.id l) db)
        as [->|(l0 & Hl0 & Hid0 & ->)]; [exact Hcount|].
      assert (l0 = l)
        by (apply (primary_key_inj Loans.id (loans db)); assumption).
      subst l0. simpl.
      pose proof (count_update_by_key Loans.id
                    (fun l => is_null (Loans.return_date l))
                    (Loans.set_return_date now) _ l Hpkl Hl) as Hloans.
      simpl in Hloans. rewrite Hop in Hloans. simpl in Hloans.
      destruct (reachable_loans_reference_books db Hr l Hl)
        as (b & Hb & Hbid).
      assert (Hst : Books.status b = "loaned"%string).
      { destruct Hc as (_ & _ & Hinv). apply (Hinv b Hb). exists l. auto. }
      pose proof (count_update_by_key Books.id
                    (fun b => String.eqb (Books.status b) "loaned")
                    (Books.set_status "available") _ b Hpkb Hb) as Hbooks.
      simpl in Hbooks. rewrite Hst, Hbid in Hbooks. simpl in Hbooks. lia.
Qed.

End PageFacts.


(** ** The pages at work *)

Example isoformat_epoch : isoformat 719163 = "1970-01-01"%string.
Proof. reflexivity. Qed.

Example isoformat_leap_day : isoformat 738945 = "2024-02-29"%string.
Proof. reflexivity. Qed.

Example isoformat_last_day : isoformat 3652059 = "9999-12-31"%string.
Proof. reflexivity. Qed.

(** The text that is stored and compared: the same from the year 1000
    on, shorter before. *)
Example strftime_Ymd_leap_day : strftime_Ymd 738945 = "2024-02-29"%string.
Proof. reflexivity. Qed.

Example strftime_Ymd_first_padded :
  strftime_Ymd 364878 = "1000-01-01"%string.
Proof. reflexivity. Qed.

Example strftime_Ymd_unpadded : strftime_Ymd 364877 = "999-12-31"%string.
Proof. reflexivity. Qed.

(** A loan made on 2024-04-25 for -374124 days is due on 999-12-31; the
    day after the loan its text is not before the text of today. *)
Example overdue_before_year_1000 :
  let db := db_after (loan_book 739001 1 1 (-374124)
                        (run dune_and_ana create_tables)) in
  rows (loans db) = [Loans.Row 1 1 1 739001 364877 None]
  /\ get_overdue_loans 739002 db = [].
Proof. split; reflexivity. Qed.

Lemma front_desk_reachable : ui_reachable isoformat front_desk_db.
Proof. exists front_desk. split; reflexivity. Defined.

Lemma front_desk_loan :
  In (Loans.Row 1 1 1 739001 739015 None) (rows (loans front_desk_db)).
Proof. left. reflexivity. Defined.

Lemma four_digit_year_2024 : four_digit_year 739020.
Proof. unfold four_digit_year, MAXORDINAL. lia. Defined.

Lemma ui_active_loans_are_loaned_books_witness :
  active_loans front_desk_db = loaned_books front_desk_db.
Proof.
  exact (ui_active_loans_are_loaned_books isoformat front_desk_db
           front_desk_reachable).
Defined.

Lemma ui_keeps_lending_invariant_witness :
  status_matches_loans front_desk_db.
Proof.
  exact (proj1 (ui_keeps_lending_invariant isoformat front_desk_db
                  front_desk_reachable)).
Defined.

Lemma ui_referential_integrity_witness :
  loans_reference_borrowers front_desk_db.
Proof.
  exact (proj2 (ui_referential_integrity isoformat front_desk_db
                  front_desk_reachable)).
Defined.

Lemma ui_overdue_exact_witness :
  listed 1 (get_overdue_loans 739020 front_desk_db)
  <-> 739015 < 739020 /\ open_loan (Loans.Row 1 1 1 739001 739015 None).
Proof.
  exact (ui_overdue_exact isoformat front_desk_db 739020
           (Loans.Row 1 1 1 739001 739015 None)
           front_desk_reachable four_digit_year_2024 front_desk_loan).
Defined.

Lemma ui_records_filled_in_witness :
  filled_in_book (Books.Row 1 (Some "Dune"%string) (Some "Herbert"%string)
                    (Some ""%string) (Some 1965) (Some "SciFi"%string)
                    739000 "loaned").
Proof.
  refine (proj1 (ui_records_filled_in isoformat front_desk_db
                   front_desk_reachable) _ _).
  left. reflexivity.
Defined.

Lemma loan_book_view_lends_witness :
  let db := run dune_and_ana create_tables in
  loan_book_view 739001 (Some "Dune"%string) (Some "Ana"%string) 14 true db
  = Page [success_msg "Book 'Dune' loaned to Ana successfully!"]
         (db_after (loan_book 739001 1 1 14 db))
  /\ ~ In (error_msg "Failed to loan book.")
         (shown (loan_book_view 739001 (Some "Dune"%string)
                   (Some "Ana"%string) 14 true db)).
Proof.
  intros db.
  assert (Hpk : primary_key Books.id (books db)).
  { repeat constructor. simpl. tauto. }
  destruct (loan_book_view_lends db Hpk) as [Hnever Hlends].
  split; [|apply Hnever].
  destruct (Hlends 739001 14
              (Books.Row 1 (Some "Dune"%string) (Some "Herbert"%string)
                 (Some "ISBN1"%string) (Some 1965) (Some "SciFi"%string)
                 739000 "available")
              (Borrowers.Row 1 (Some "Ana"%string)
                 (Some "ana@x.com"%string) None 739000))
    as (b' & r' & Hb' & _ & _ & Hr' & _ & _ & Hpage).
  - left. reflexivity.
  - reflexivity.
  - left. reflexivity.
  - intros x [<-|[]]. reflexivity.
  - intros x [<-|[]]. reflexivity.
  - discriminate.
  - destruct Hb' as [<-|[]]. destruct Hr' as [<-|[]]. exact Hpage.
Defined.

Lemma return_book_view_returns_witness :
  exists l,
    In l (rows (loans front_desk_db)) /\ open_loan l
    /\ stored (return_book_view isoformat 739021
                 "Dune (borrowed by Ana, due 2024-05-09)" true front_desk_db)
       = db_after (return_book 739021 (Loans.id l) front_desk_db).
Proof.
  destruct (proj2 (return_book_view_returns isoformat 739021
                     "Dune (borrowed by Ana, due 2024-05-09)" true
                     front_desk_db))
    as (l & b & r & Hl & _ & _ & _ & _ & Hop & _ & Hstored).
  - vm_compute. left. reflexivity.
  - exists l. split; [exact Hl|]. split; [exact Hop|exact Hstored].
Defined.

Lemma loan_book_view_title_shadow_witness :
  let first := Books.Row 1 (Some "Dune"%string) (Some "Herbert"%string)
                 (Some "a"%string) (Some 1965) (Some "SciFi"%string) 739000
                 "available" in
  let second := Books.Row 2 (Some "Dune"%string) (Some "Herbert"%string)
                  (Some "b"%string) (Some 1984) (Some "SciFi"%string) 739000
                  "available" in
  let db := Database (Table [first; second] 2)
              (Table [Borrowers.Row 1 (Some "Ana"%string)
                        (Some "ana@x.com"%string) (Some ""%string) 739000] 1)
              empty in
  In first (rows (books (stored (loan_book_view 739001 (Some "Dune"%string)
                                   (Some "Ana"%string) 14 true db)))).
Proof.
  intros first second db.
  refine (loan_book_view_title_shadow db first second [] [] [] _ _ _ _
            739001 (Some "Dune"%string) (Some "Ana"%string) 14 true).
  - repeat constructor; simpl; intuition discriminate.
  - reflexivity.
  - reflexivity.
  - reflexivity.
Defined.

Lemma overdue_loans_view_cards_witness :
  In (overdue_card (Some "Dune"%string) (Some "Ana"%string) 739015 5)
     (shown (overdue_loans_view 739020 front_desk_db))
  /\ 5 = 739020 - 739015 /\ 1 <= 5.
Proof.
  assert (Hcard : In (overdue_card (Some "Dune"%string) (Some "Ana"%string)
                                   739015 5)
                     (shown (overdue_loans_view 739020 front_desk_db)))
    by (vm_compute; left; reflexivity).
  destruct (proj1 (overdue_loans_view_cards 739020 front_desk_db
                     four_digit_year_2024)
              (Some "Dune"%string) (Some "Ana"%string) 739015 5 Hcard)
    as (Hdays & Hpos & _).
  split; [exact Hcard|]. split; [exact Hdays|exact Hpos].
Defined.

Lemma loan_book_view_name_shadow_witness :
  let first := Borrowers.Row 1 (Some "Ana"%string) (Some "ana@x.com"%string)
                 (Some ""%string) 738000 in
  let second := Borrowers.Row 2 (Some "Ana"%string) (Some "ana@y.com"%string)
                  (Some ""%string) 739000 in
  let earlier := Loans.Row 1 1 1 738001 738015 (Some 738010) in
  let db := Database
              (Table [Books.Row 1 (Some "Dune"%string)
                        (Some "Herbert"%string) (Some ""%string) (Some 1965)
                        (Some "SciFi"%string) 738000 "available"] 1)
              (Table [first; second] 2)
              (Table [earlier] 1) in
  rows (loans (stored (loan_book_view 739001 (Some "Dune"%string)
                         (Some "Ana"%string) 14 true db)))
  = [earlier; Loans.Row 2 1 2 739001 739015 None]
  /\ In earlier (rows (loans db)).
Proof.
  intros first second earlier db. split; [reflexivity|].
  refine (loan_book_view_name_shadow db first second [] [] [] _ _ _
            739001 (Some "Dune"%string) (Some "Ana"%string) 14 true
            earlier _ _).
  - repeat constructor; simpl; intuition discriminate.
  - reflexivity.
  - reflexivity.
  - left. reflexivity.
  - reflexivity.
Defined.

